(** * deno-mcp-pandoc: a shallow embedding of the conversion pipeline

    The development follows the layout of the repository:

    - [String]      JavaScript strings, as sequences of UTF-16 code units;
    - [Js]          the handful of JavaScript primitives the code relies on
                    (truthiness of optional strings, [toLowerCase],
                    [String.prototype.includes], [trim]);
    - [Errors]      src/errors.ts, the error classes and their messages;
    - [Effects]     the world the asynchronous code talks to (file system,
                    environment, YAML parser, subprocess runner) and a small
                    exception-and-trace monad;
    - [Validation]  src/validation.ts;
    - [Filters]     src/filters.ts;
    - [Defaults]    src/defaults.ts;
    - [Converter]   the converter module (PandocConverter);
    - [Mcp]         src/mcp.ts, the CallTool request handler and the tool
                    list;
    - [Server]      the request listener of the HTTP entry point;
    - [Spec]        the vocabulary of the specification, and a small
                    POSIX-like world used in the examples;
    - [Notions]     the vocabulary of the further properties.

    Definitions come first, the theorems about them afterwards. *)

From Stdlib Require Import NArith List Bool Arith Lia.
From Stdlib.Strings Require Import Byte.
Import ListNotations.

(* ================================================================= *)
(** ** JavaScript strings *)

(** A JavaScript string is a finite sequence of UTF-16 code units.  A
    literal between double quotes stands for the sequence of its characters,
    which in this development are all ASCII; any other code unit is written
    with the constructor, as in [String 8490 EmptyString] for the Kelvin
    sign U+212A. *)
Module String.

Inductive string : Set :=
| EmptyString
| String (c : N) (s : string).

Definition of_bytes (l : list byte) : string :=
  fold_right (fun b s => String (Byte.to_N b) s) EmptyString l.

Fixpoint to_bytes (s : string) : option (list byte) :=
  match s with
  | EmptyString => Some []
  | String c r =>
      match Byte.of_N c, to_bytes r with
      | Some b, Some l => Some (b :: l)
      | _, _ => None
      end
  end.

(** [a + b] on strings. *)
Fixpoint append (a b : string) : string :=
  match a with
  | EmptyString => b
  | String c r => String c (append r b)
  end.

(** [a === b] on strings. *)
Fixpoint eqb (a b : string) : bool :=
  match a, b with
  | EmptyString, EmptyString => true
  | String c r, String d t => (c =? d)%N && eqb r t
  | _, _ => false
  end.

End String.
Export String.

Declare Scope string_scope.
Delimit Scope string_scope with string.
Bind Scope string_scope with string.
String Notation string String.of_bytes String.to_bytes : string_scope.
Infix "++" := String.append (right associativity, at level 60) : string_scope.
Infix "=?" := String.eqb (at level 70) : string_scope.
Open Scope string_scope.

(* ================================================================= *)
(** ** JavaScript primitives *)

Module Js.

(** The double quote and the line feed, as one-character strings. *)
Definition dq : string := String 34 EmptyString.
Definition nl : string := String 10 EmptyString.

(** Truthiness of a string: every string but the empty one. *)
Definition truthyStr (s : string) : bool :=
  match s with
  | EmptyString => false
  | String _ _ => true
  end.

(** Truthiness of a [string | undefined]: [undefined] and the empty string
    are falsy. *)
Definition truthy (o : option string) : bool :=
  match o with
  | Some s => truthyStr s
  | None => false
  end.

(** The string guarded by [if (o)]: the value of [o] when it is truthy. *)
Definition asTruthy (o : option string) : option string :=
  match o with
  | Some s => if truthyStr s then Some s else None
  | None => None
  end.

(** [a || b] on [string | undefined] operands. *)
Definition or_opt (a b : option string) : option string :=
  if truthy a then a else b.

(** [a || d] where [d] is a string literal. *)
Definition or_str (a : option string) (d : string) : string :=
  match a with
  | Some s => if truthyStr s then s else d
  | None => d
  end.

(** [s.length], the number of code units. *)
Fixpoint strLength (s : string) : nat :=
  match s with
  | EmptyString => 0%nat
  | String _ r => S (strLength r)
  end.

(** [String.prototype.toLowerCase], the Unicode lower-case mapping, code
    unit by code unit.  The capitals A..Z and those of Latin-1 move up by
    32.  A few characters lower-case across blocks: the Kelvin sign U+212A
    becomes the letter k; the dotted capital I U+0130 becomes the letter i
    followed by the combining dot U+0307; the Angstrom sign U+212B, the
    capital Y with diaeresis U+0178 and the capital sharp s U+1E9E become
    the Latin-1 letters U+00E5, U+00FF and U+00DF.  These are all the
    characters whose lower-casing holds a character of ASCII or Latin-1.
    Every other code unit is left as it is: the capitals of the other
    scripts lower-case within those scripts, so before and after they
    differ from every character of the texts this program compares
    lower-cased strings with. *)
Definition isUpperAZ (c : N) : bool := ((65 <=? c) && (c <=? 90))%N.

Definition isUpperLatin1 (c : N) : bool :=
  ((192 <=? c) && (c <=? 222) && negb (c =? 215))%N.

Definition lowerSpecial (c : N) : option string :=
  if (c =? 8490)%N then Some "k"
  else if (c =? 304)%N then Some (String 105 (String 775 EmptyString))
  else if (c =? 8491)%N then Some (String 229 EmptyString)
  else if (c =? 376)%N then Some (String 255 EmptyString)
  else if (c =? 7838)%N then Some (String 223 EmptyString)
  else None.

Definition lowerUnit (c : N) : string :=
  if isUpperAZ c || isUpperLatin1 c then String (c + 32) EmptyString
  else match lowerSpecial c with
       | Some lowered => lowered
       | None => String c EmptyString
       end.

Fixpoint toLowerCase (s : string) : string :=
  match s with
  | EmptyString => EmptyString
  | String c r => lowerUnit c ++ toLowerCase r
  end.

(** [String.prototype.startsWith]. *)
Fixpoint startsWith (s start : string) {struct start} : bool :=
  match start with
  | EmptyString => true
  | String a start' =>
      match s with
      | EmptyString => false
      | String b s' => (a =? b)%N && startsWith s' start'
      end
  end.

(** [String.prototype.includes]: [needle] occurs in [hay] as a contiguous
    substring, that is, some suffix of [hay] starts with it. *)
Fixpoint includes (hay needle : string) : bool :=
  if startsWith hay needle then true
  else match hay with
       | EmptyString => false
       | String _ r => includes r needle
       end.

(** [xs.map(f).join(sep)] on strings. *)
Fixpoint joinWith (sep : string) (xs : list string) : string :=
  match xs with
  | [] => EmptyString
  | [x] => x
  | x :: r => x ++ sep ++ joinWith sep r
  end.

(** [s.split(nl)[0]]: the text before the first line feed, all of [s]
    when it has none. *)
Fixpoint firstLine (s : string) : string :=
  match s with
  | EmptyString => EmptyString
  | String c r =>
      if (c =? 10)%N then EmptyString
      else String c (firstLine r)
  end.

(** The white space and line terminators that [String.prototype.trim]
    strips: TAB, LF, VT, FF, CR, SPACE, the no-break space, the space
    separators U+1680, U+2000..U+200A, U+202F, U+205F and U+3000, the line
    and paragraph separators U+2028 and U+2029, and the byte order mark
    U+FEFF. *)
Definition isWhitespace (c : N) : bool :=
  (((9 <=? c) && (c <=? 13)) || (c =? 32) || (c =? 160) || (c =? 5760)
   || ((8192 <=? c) && (c <=? 8202)) || (c =? 8232) || (c =? 8233)
   || (c =? 8239) || (c =? 8287) || (c =? 12288) || (c =? 65279))%N.

Fixpoint trimStart (s : string) : string :=
  match s with
  | EmptyString => EmptyString
  | String c r => if isWhitespace c then trimStart r else s
  end.

Fixpoint trimEnd (s : string) : string :=
  match s with
  | EmptyString => EmptyString
  | String c r =>
      match trimEnd r with
      | EmptyString => if isWhitespace c then EmptyString
                       else String c EmptyString
      | r' => String c r'
      end
  end.

Definition trim (s : string) : string := trimEnd (trimStart s).

End Js.

(* ================================================================= *)
(** ** src/errors.ts *)

Module Errors.
Import Js.

(** The class of an error object, which is what [instanceof] inspects (and
    what the [name] field spells out).  [ClsError] stands for [Error] itself
    and for the subclasses raised by the runtime and the libraries. *)
Inductive ErrorClass : Type :=
| ClsError
| ClsPandocNotFoundError
| ClsUnsupportedFormatError
| ClsConversionError
| ClsFilterNotFoundError
| ClsDefaultsFileError
| ClsValidationError.

Record JsError : Type := mkJsError {
  cls : ErrorClass;
  message : string;
  exitCode : option nat;        (* ConversionError only *)
  filePath : option string      (* DefaultsFileError only *)
}.

(** What a [throw] can carry: an [Error] instance or any other value. *)
Inductive Thrown : Type :=
| ThrowError (e : JsError)
| ThrowOther (v : string).

Definition Result (A : Type) : Type := (Thrown + A)%type.

Definition ok {A : Type} (a : A) : Result A := inr a.
Definition throw {A : Type} (e : JsError) : Result A := inl (ThrowError e).

Definition Error (msg : string) : JsError :=
  mkJsError ClsError msg None None.

Definition PandocNotFoundError (msg : option string) : JsError :=
  mkJsError ClsPandocNotFoundError
    (or_str msg
       ("Pandoc not found. Please install Pandoc from https://pandoc.org/installing.html " ++
        "or set the PANDOC_PATH environment variable to the location of the pandoc binary."))
    None None.

Definition UnsupportedFormatError (format : string) (context : option string)
  : JsError :=
  let ctx := match context with
             | Some c => if truthyStr c then " " ++ c else EmptyString
             | None => EmptyString
             end in
  mkJsError ClsUnsupportedFormatError
    ("Unsupported format: " ++ dq ++ format ++ dq ++ ctx ++ ". " ++
     "Supported formats are: markdown, html, txt, ipynb, odt, pdf, docx, rst, latex, epub. " ++
     "Note: PDF cannot be used as an input format.")
    None None.

Definition ConversionError (msg : string) (code : option nat) : JsError :=
  mkJsError ClsConversionError msg code None.

Definition FilterNotFoundError (filterName : string) (searchPaths : list string)
  : JsError :=
  mkJsError ClsFilterNotFoundError
    ("Filter " ++ dq ++ filterName ++ dq ++ " not found. Searched in:" ++ nl ++
     joinWith nl (map (fun p => "  - " ++ p) searchPaths) ++ nl ++ nl ++
     "Troubleshooting:" ++ nl ++
     "  1. Ensure the filter file exists and is in one of the searched paths" ++ nl ++
     "  2. Make sure the filter is executable (chmod +x)" ++ nl ++
     "  3. Try specifying the full path to the filter" ++ nl ++
     "  4. Check that ~/.pandoc/filters/ exists if using the default filter directory")
    None None.

Definition DefaultsFileError (msg : string) (path : option string) : JsError :=
  let p := match path with
           | Some f => if truthyStr f then " (" ++ f ++ ")" else EmptyString
           | None => EmptyString
           end in
  mkJsError ClsDefaultsFileError ("Defaults file error" ++ p ++ ": " ++ msg)
    None path.

Definition ValidationError (msg : string) : JsError :=
  mkJsError ClsValidationError msg None None.

(** [e instanceof C] for the classes of errors.ts. *)
Definition ErrorClass_eqb (a b : ErrorClass) : bool :=
  match a, b with
  | ClsError, ClsError
  | ClsPandocNotFoundError, ClsPandocNotFoundError
  | ClsUnsupportedFormatError, ClsUnsupportedFormatError
  | ClsConversionError, ClsConversionError
  | ClsFilterNotFoundError, ClsFilterNotFoundError
  | ClsDefaultsFileError, ClsDefaultsFileError
  | ClsValidationError, ClsValidationError => true
  | _, _ => false
  end.

Definition instanceOf (t : Thrown) (c : ErrorClass) : bool :=
  match t with
  | ThrowError e => ErrorClass_eqb (cls e) c
  | ThrowOther _ => false
  end.

End Errors.

(* ================================================================= *)
(** ** src/validation.ts *)

Module Validation.
Import Js Errors.

Inductive PandocFormat : Type :=
| Markdown | HTML | Text | Jupyter | ODT | PDF | DOCX
| ReStructuredText | LaTeX | EPUB.

(** The string value of each enum member. *)
Definition token (f : PandocFormat) : string :=
  match f with
  | Markdown => "markdown"
  | HTML => "html"
  | Text => "plain"
  | Jupyter => "ipynb"
  | ODT => "odt"
  | PDF => "pdf"
  | DOCX => "docx"
  | ReStructuredText => "rst"
  | LaTeX => "latex"
  | EPUB => "epub"
  end.

(** The module-level arrays.  [validateFormat] compares its argument with
    [INPUT_FORMATS] by reference ([===]), so an array is its identity
    together with its elements. *)
Record FormatArray : Type := mkFormatArray {
  ref : nat;
  elems : list PandocFormat
}.

Definition INPUT_FORMATS : FormatArray :=
  mkFormatArray 0
    [Markdown; HTML; Text; Jupyter; ODT; DOCX; ReStructuredText; LaTeX; EPUB].

Definition ALL_FORMATS : FormatArray :=
  mkFormatArray 1 (elems INPUT_FORMATS ++ [PDF])%list.

Definition FILE_OUTPUT_REQUIRED_FORMATS : FormatArray :=
  mkFormatArray 2 [PDF; DOCX; EPUB; ODT].

Definition sameArray (a b : FormatArray) : bool := Nat.eqb (ref a) (ref b).

(** [arr.includes(f)]: enum members are strings at run time. *)
Definition arrIncludes (arr : FormatArray) (f : PandocFormat) : bool :=
  existsb (fun g => (token g =? token f)%string) (elems arr).

(** [validateFormat].  The source tests
    [ALL_FORMATS.some((f) => f === normalized)] and then casts [normalized]
    to the enum; here the member carrying that string is looked up, which is
    the same value since the tokens are pairwise distinct. *)
Definition validateFormat (format : string) (allowedFormats : FormatArray)
  : Result PandocFormat :=
  let normalized := toLowerCase format in
  let normalized := if (normalized =? "txt")%string then "plain" else normalized in
  match find (fun f => (token f =? normalized)%string) (elems ALL_FORMATS) with
  | None => throw (UnsupportedFormatError format None)
  | Some pandocFormat =>
      if negb (arrIncludes allowedFormats pandocFormat) then
        let context :=
          if sameArray allowedFormats INPUT_FORMATS then "for input"
          else EmptyString in
        throw (UnsupportedFormatError format (Some context))
      else ok pandocFormat
  end.

Definition validateInputFormat (format : string) : Result PandocFormat :=
  validateFormat format INPUT_FORMATS.

Definition validateOutputFormat (format : string) : Result PandocFormat :=
  validateFormat format ALL_FORMATS.

Definition requiresFileOutput (format : PandocFormat) : bool :=
  arrIncludes FILE_OUTPUT_REQUIRED_FORMATS format.

Record ConversionParams : Type := mkConversionParams {
  contents : option string;
  inputFile : option string;
  inputFormat : string;
  outputFormat : string;
  outputFile : option string;
  referenceDoc : option string;
  defaultsFile : option string;
  filters : option (list string)
}.

Definition validateConversionParams (params : ConversionParams)
  : Result (PandocFormat * PandocFormat) :=
  if truthy (contents params) && truthy (inputFile params) then
    throw (ValidationError
      "Cannot specify both 'contents' and 'input_file'. Please provide only one.")
  else if negb (truthy (contents params)) && negb (truthy (inputFile params)) then
    throw (ValidationError
      "Must specify either 'contents' or 'input_file' for conversion.")
  else
    match validateInputFormat (inputFormat params) with
    | inl t => inl t
    | inr inFmt =>
        match validateOutputFormat (outputFormat params) with
        | inl t => inl t
        | inr outFmt =>
            if requiresFileOutput outFmt && negb (truthy (outputFile params)) then
              throw (ValidationError
                ("Output format '" ++ token outFmt ++
                 "' requires 'output_file' to be specified."))
            else ok (inFmt, outFmt)
        end
    end.

Definition getSupportedFormats : list string := map token (elems ALL_FORMATS).
Definition getInputFormats : list string := map token (elems INPUT_FORMATS).

End Validation.

(* ================================================================= *)
(** ** The world and the effect monad *)

Module Effects.
Import Js Errors.

(** A value produced by the YAML parser: null, a boolean, a number, a
    string, a sequence (an array), a mapping (a plain object), or one of the
    objects the parser builds for the remaining scalar types, such as a
    [Date] for a timestamp or a [Uint8Array] for binary data.  Of the latter
    the code sees that [typeof] answers "object", that it is not an array
    and that it has no property named after a key. *)
#[warnings="-register-all"]
Inductive YamlValue : Type :=
| YNull
| YBool (b : bool)
| YNum (literal : string)
| YStr (s : string)
| YSeq (items : list YamlValue)
| YMap (entries : list (string * YamlValue))
| YObject (className : string) (source : string).

(** The outcome of a call into the runtime or a library: it resolves with
    a value or rejects with an [Error] instance of the library's own, of
    which the message is all the code looks at. *)
Inductive LibResult (A : Type) : Type :=
| Rejected (message : string)
| Resolved (value : A).
Arguments Rejected {A} message.
Arguments Resolved {A} value.

(** Everything outside the repository that the code consults.  A world is
    a snapshot: it stays as it is while one call is served (the only write
    the code makes, chmod, changes nothing that the code reads). *)
Record World : Type := mkWorld {
  os : string;                                   (* Deno.build.os *)
  env : string -> option string;                  (* Deno.env.get *)
  cwd : string;                                  (* Deno.cwd() *)
  isAbsolute : string -> bool;                   (* @std/path *)
  join : list string -> string;                  (* @std/path *)
  dirname : string -> string;                    (* @std/path *)
  existsFile : string -> LibResult bool;
      (* @std/fs exists(p, { isFile: true }): what the test answers, or the
         error it rejects with.  The test answers false when nothing is
         found at the path or what is found is no regular file; an error of
         the underlying stat other than not-found is passed on, such as the
         one for a path that runs through something that is no directory *)
  fileText : string -> LibResult string;         (* Deno.readTextFile *)
  chmodFailure : string -> option string;
      (* Deno.chmod: [Some txt] when it rejects, [txt] being the error
         converted to a string *)
  yamlParse : string -> LibResult YamlValue;     (* @std/yaml parse *)
  spawn : list string -> option string -> LibResult string
      (* dax: the command line, the text piped to standard input if any;
         the captured standard output, or the error of a failed spawn or of
         a non-zero exit *)
}.

(** What the code does to the world, in order. *)
Inductive Event : Type :=
| EvExists (path : string)
| EvReadTextFile (path : string)
| EvParse (text : string)
| EvChmod (path : string) (mode : nat)
| EvWarn (msg : string)
| EvSpawn (argv : list string) (stdin : option string).

(** A computation ends by returning or by throwing, and leaves the trace of
    the events it performed. *)
Definition M (A : Type) : Type := (Result A * list Event)%type.

Definition ret {A : Type} (a : A) : M A := (inr a, []).
Definition raise {A : Type} (e : JsError) : M A := (inl (ThrowError e), []).
Definition rethrow {A : Type} (t : Thrown) : M A := (inl t, []).
Definition lift {A : Type} (r : Result A) : M A := (r, []).

Definition bind {A B : Type} (m : M A) (f : A -> M B) : M B :=
  match m with
  | (inl t, tr) => (inl t, tr)
  | (inr a, tr) => let (r, tr') := f a in (r, (tr ++ tr')%list)
  end.

(** [try { m } catch (error) { h error }] *)
Definition tryCatch {A : Type} (m : M A) (h : Thrown -> M A) : M A :=
  match m with
  | (inl t, tr) => let (r, tr') := h t in (r, (tr ++ tr')%list)
  | (inr a, tr) => (inr a, tr)
  end.

Definition outcome {A : Type} (m : M A) : Result A := fst m.
Definition trace {A : Type} (m : M A) : list Event := snd m.

Definition ofLib {A : Type} (r : LibResult A) : Result A :=
  match r with
  | Rejected msg => inl (ThrowError (Error msg))
  | Resolved a => inr a
  end.

(** The path is a regular file: the existence test answers true. *)
Definition isFile (w : World) (p : string) : bool :=
  match existsFile w p with
  | Resolved b => b
  | Rejected _ => false
  end.

Definition exists_isFile (w : World) (p : string) : M bool :=
  (ofLib (existsFile w p), [EvExists p]).

Definition readTextFile (w : World) (p : string) : M string :=
  (ofLib (fileText w p), [EvReadTextFile p]).

Definition parse (w : World) (text : string) : M YamlValue :=
  (ofLib (yamlParse w text), [EvParse text]).

Definition run (w : World) (argv : list string) (stdin : option string)
  : M string :=
  (ofLib (spawn w argv stdin), [EvSpawn argv stdin]).

Definition isSpawn (e : Event) : bool :=
  match e with
  | EvSpawn _ _ => true
  | _ => false
  end.

End Effects.

Declare Scope eff_scope.
Delimit Scope eff_scope with eff.
Notation "x <- m ;; k" := (Effects.bind m (fun x => k))
  (at level 61, m at next level, right associativity) : eff_scope.
Notation "m ;;; k" := (Effects.bind m (fun _ => k))
  (at level 61, right associativity) : eff_scope.

(* ================================================================= *)
(** ** src/filters.ts *)

Module Filters.
Import Js Errors Effects.
Local Open Scope eff_scope.

Definition getHomeDir (w : World) : string :=
  if (os w =? "windows")%string then
    or_str (or_opt (env w "USERPROFILE") (env w "HOME")) "C:\"
  else
    or_str (env w "HOME") "/".

Definition getPandocFiltersDir (w : World) : string :=
  join w [getHomeDir w; ".pandoc"; "filters"].

Definition makeExecutable (w : World) (filePath : string) : M unit :=
  if negb (os w =? "windows")%string then
    match chmodFailure w filePath with
    | None => (inr tt, [EvChmod filePath 493])          (* 0o755 *)
    | Some error =>
        (inr tt, [EvChmod filePath 493;
                  EvWarn ("Warning: Could not make filter executable: " ++ error)])
    end
  else ret tt.

(** One probe of [resolveFilterPath]:
    [if (await exists(p, { isFile: true })) { await makeExecutable(p); return p; }]
    followed by the rest of the function. *)
Definition tryPath (w : World) (p : string) (rest : M string) : M string :=
  hit <- exists_isFile w p ;;
  if hit then (makeExecutable w p ;;; ret p) else rest.

Definition resolveFilterPath (w : World) (filterName : string)
    (defaultsFileDir : option string) : M string :=
  let searchPaths : list string := [] in
  (* 1. Try absolute path *)
  (if isAbsolute w filterName
   then fun rest => tryPath w filterName (rest (searchPaths ++ [filterName])%list)
   else fun rest => rest searchPaths)
  (fun searchPaths =>
   (* 2. Try relative to CWD *)
   let cwdPath := join w [cwd w; filterName] in
   let searchPaths := (searchPaths ++ [cwdPath])%list in
   tryPath w cwdPath
   ((* 3. Try relative to defaults file directory *)
    (match asTruthy defaultsFileDir with
     | Some dir => fun rest =>
         let defaultsDirPath := join w [dir; filterName] in
         tryPath w defaultsDirPath (rest (searchPaths ++ [defaultsDirPath])%list)
     | None => fun rest => rest searchPaths
     end)
    (fun searchPaths =>
     (* 4. Try ~/.pandoc/filters/ *)
     let pandocFiltersPath := join w [getPandocFiltersDir w; filterName] in
     let searchPaths := (searchPaths ++ [pandocFiltersPath])%list in
     tryPath w pandocFiltersPath
       ((* Filter not found in any location *)
        raise (FilterNotFoundError filterName searchPaths))))).

Fixpoint resolveFilterPaths_loop (w : World) (filterNames : list string)
    (defaultsFileDir : option string) (resolvedPaths : list string)
  : M (list string) :=
  match filterNames with
  | [] => ret resolvedPaths
  | filterName :: more =>
      resolvedPath <- resolveFilterPath w filterName defaultsFileDir ;;
      resolveFilterPaths_loop w more defaultsFileDir
        (resolvedPaths ++ [resolvedPath])%list
  end.

Definition resolveFilterPaths (w : World) (filterNames : list string)
    (defaultsFileDir : option string) : M (list string) :=
  resolveFilterPaths_loop w filterNames defaultsFileDir [].

End Filters.

(* ================================================================= *)
(** ** src/defaults.ts *)

Module Defaults.
Import Js Errors Effects.
Local Open Scope eff_scope.

(** [obj[key] !== undefined] on a parsed mapping: the key is there (a YAML
    value, null included, is never [undefined]). *)
Definition hasKey (entries : list (string * YamlValue)) (key : string) : bool :=
  existsb (fun kv => (fst kv =? key)%string) entries.

(** The checks made on the parsed value, inside the [try] block. *)
Definition checkParsed (parsed : YamlValue) (filePath : string) : M bool :=
  match parsed with
  | YNull =>
      raise (DefaultsFileError "Defaults file is empty" (Some filePath))
  | YBool _ | YNum _ | YStr _ | YSeq _ =>
      raise (DefaultsFileError
        "Defaults file must contain a YAML object/dictionary, not a list or primitive value"
        (Some filePath))
  | YMap defaultsObj =>
      if hasKey defaultsObj "from" && hasKey defaultsObj "to" then
        raise (DefaultsFileError
          ("Defaults file should not specify both 'from' and 'to' formats. " ++
           "These will be provided via command-line arguments.")
          (Some filePath))
      else ret true
  | YObject _ _ =>
      (* an object that is no array, with neither property *)
      ret true
  end.

(** The [catch] block. *)
Definition onError (filePath : string) (error : Thrown) : M bool :=
  if instanceOf error ClsDefaultsFileError then rethrow error
  else match error with
       | ThrowError e =>
           raise (DefaultsFileError ("Failed to parse YAML: " ++ message e)
                    (Some filePath))
       | ThrowOther _ => rethrow error
       end.

Definition validateDefaultsFile (w : World) (filePath : string) : M bool :=
  fileExists <- exists_isFile w filePath ;;
  if negb fileExists then
    raise (DefaultsFileError "File not found" (Some filePath))
  else
    tryCatch
      (content <- readTextFile w filePath ;;
       parsed <- parse w content ;;
       checkParsed parsed filePath)
      (onError filePath).

Definition readDefaultsFile (w : World) (filePath : string) : M YamlValue :=
  validateDefaultsFile w filePath ;;;
  content <- readTextFile w filePath ;;
  parsed <- parse w content ;;
  ret parsed.

End Defaults.

(* ================================================================= *)
(** ** The converter module (class PandocConverter) *)

Module Converter.
Import Js Errors Effects Validation.
Local Open Scope eff_scope.

Record ConversionOptions : Type := mkConversionOptions {
  extraArgs : option (list string);
  referenceDoc : option string;
  defaultsFile : option string;
  filters : option (list string)
}.

Record PandocConverter : Type := mkPandocConverter {
  pandocPath : string
}.

(** The constructor:
    [pandocPath || Deno.env.get("PANDOC_PATH") || "pandoc"]. *)
Definition new (w : World) (path : option string) : PandocConverter :=
  mkPandocConverter (or_str (or_opt path (env w "PANDOC_PATH")) "pandoc").

(** [options?.field] for a string field. *)
Definition optField (options : option ConversionOptions)
    (field : ConversionOptions -> option string) : option string :=
  match options with
  | Some o => field o
  | None => None
  end.

Definition optList (options : option ConversionOptions)
    (field : ConversionOptions -> option (list string)) : list string :=
  match options with
  | Some o => match field o with Some l => l | None => [] end
  | None => []
  end.

Definition buildArgs (inputFormat outputFormat : PandocFormat)
    (options : option ConversionOptions) : list string :=
  let args := ["-f"; token inputFormat; "-t"; token outputFormat] in
  (* Add PDF-specific options *)
  let args :=
    if (token outputFormat =? token PDF)%string
    then (args ++ ["--pdf-engine=xelatex"] ++ ["-V"; "geometry:margin=1in"])%list
    else args in
  (* Add reference document if provided *)
  let args :=
    match asTruthy (optField options referenceDoc) with
    | Some doc => (args ++ ["--reference-doc"; doc])%list
    | None => args
    end in
  (* Add defaults file if provided *)
  let args :=
    match asTruthy (optField options defaultsFile) with
    | Some file => (args ++ ["--defaults"; file])%list
    | None => args
    end in
  (* Add filters if provided *)
  let args :=
    fold_left (fun acc filter => (acc ++ ["--filter"; filter])%list)
      (optList options filters) args in
  (* Add extra arguments if provided *)
  (args ++ optList options extraArgs)%list.

(** The [catch] block shared, word for word, by [convertText] and
    [convertFile]. *)
Definition onFailure {A : Type} (error : Thrown) : M A :=
  match error with
  | ThrowError e =>
      let errorMessage := toLowerCase (message e) in
      if includes errorMessage "not found"
         || includes errorMessage "no such file"
         || includes errorMessage "enoent"
      then raise (PandocNotFoundError None)
      else raise (ConversionError ("Pandoc conversion failed: " ++ message e) None)
  | ThrowOther _ => rethrow error
  end.

Definition convertText (w : World) (this : PandocConverter) (content : string)
    (inputFormat outputFormat : PandocFormat)
    (options : option ConversionOptions) : M string :=
  tryCatch
    (let args := buildArgs inputFormat outputFormat options in
     result <- run w (pandocPath this :: args) (Some content) ;;
     ret result)
    onFailure.

Definition convertFile (w : World) (this : PandocConverter)
    (inputFile outputFile : string) (inputFormat outputFormat : PandocFormat)
    (options : option ConversionOptions) : M unit :=
  tryCatch
    (let args := buildArgs inputFormat outputFormat options in
     run w (pandocPath this :: args ++ [inputFile; "-o"; outputFile])%list None ;;;
     ret tt)
    onFailure.

(** [isPandocAvailable]: the version query, its output discarded. *)
Definition isPandocAvailable (w : World) (this : PandocConverter) : M bool :=
  tryCatch
    (run w [pandocPath this; "--version"] None ;;;
     ret true)
    (fun _ => ret false).

(** The [catch] block of [getPandocVersion]. *)
Definition onVersionFailure {A : Type} (error : Thrown) : M A :=
  match error with
  | ThrowError e =>
      let errorMessage := toLowerCase (message e) in
      if includes errorMessage "not found"
         || includes errorMessage "no such file"
         || includes errorMessage "enoent"
      then raise (PandocNotFoundError None)
      else rethrow error
  | ThrowOther _ => rethrow error
  end.

Definition getPandocVersion (w : World) (this : PandocConverter) : M string :=
  tryCatch
    (result <- run w [pandocPath this; "--version"] None ;;
     let firstLine := firstLine result in
     ret (trim firstLine))
    onVersionFailure.

End Converter.

(* ================================================================= *)
(** ** src/mcp.ts: the CallTool request handler *)

Module Mcp.
Import Js Errors Effects.
Local Open Scope eff_scope.

(** [request.params.arguments], read at the types the handler casts its
    fields to (and the tool's input schema declares). *)
Record ToolArguments : Type := mkToolArguments {
  contents : option string;
  input_file : option string;
  input_format : option string;
  output_format : option string;
  output_file : option string;
  reference_doc : option string;
  defaults_file : option string;
  filters : option (list string)
}.

(** A tools/call request: [request.params.name] and
    [request.params.arguments], a member the protocol lets a client leave
    out. *)
Record CallToolRequest : Type := mkRequest {
  name : string;
  arguments : option ToolArguments
}.

(** The request that names a tool and carries an arguments object. *)
Definition mkCallToolRequest (name : string) (args : ToolArguments)
  : CallToolRequest :=
  mkRequest name (Some args).

(** The message of the TypeError the runtime throws when a property is read
    from [undefined]. *)
Definition msgUndefinedArguments : string :=
  "Cannot read properties of undefined (reading 'contents')".

(** The response [{ content: [{ type: "text", text }] }]. *)
Record CallToolResult : Type := mkTextResult {
  text : string
}.

Definition callTool (w : World) (request : CallToolRequest) : M CallToolResult :=
  if negb (name request =? "convert-contents")%string then
    raise (Error ("Unknown tool: " ++ name request))
  else
    match arguments request with
    | None =>
        (* [args] is undefined and [args.contents] is read first *)
        raise (Error msgUndefinedArguments)
    | Some args =>
    (* Validate parameters *)
    formats <- lift (Validation.validateConversionParams
      (Validation.mkConversionParams
         (contents args)
         (input_file args)
         (or_str (input_format args) "markdown")
         (or_str (output_format args) "markdown")
         (output_file args)
         (reference_doc args)
         (defaults_file args)
         (filters args))) ;;
    let (inputFormat, outputFormat) := formats in
    (* Validate defaults file if provided *)
    defaultsFileDir <-
      match asTruthy (defaults_file args) with
      | Some file =>
          Defaults.validateDefaultsFile w file ;;;
          ret (Some (dirname w file))
      | None => ret None
      end ;;
    (* Resolve filter paths if provided *)
    resolvedFilters <-
      match filters args with
      | Some names =>
          paths <- Filters.resolveFilterPaths w names defaultsFileDir ;;
          ret (Some paths)
      | None => ret None
      end ;;
    (* Create converter and perform conversion *)
    let converter := Converter.new w None in
    let options := Some (Converter.mkConversionOptions
                           None (reference_doc args) (defaults_file args)
                           resolvedFilters) in
    match asTruthy (contents args) with
    | Some text =>
        result <- Converter.convertText w converter text
                    inputFormat outputFormat options ;;
        ret (mkTextResult result)
    | None =>
        match asTruthy (input_file args), asTruthy (output_file args) with
        | Some inFile, Some outFile =>
            Converter.convertFile w converter inFile outFile
              inputFormat outputFormat options ;;;
            ret (mkTextResult
                   ("Successfully converted " ++ inFile ++ " to " ++ outFile))
        | _, _ =>
            raise (Error
              "Invalid arguments: must provide contents or both input_file and output_file")
        end
    end
    end.

(** The ListTools handler: the one tool and its input schema. *)
Record PropertySchema : Type := mkPropertySchema {
  propType : string;
  propItems : option string;       (* items: { type } of an array *)
  propDescription : string;
  propDefault : option string
}.

Record ToolDescription : Type := mkToolDescription {
  toolName : string;
  toolDescription : string;
  schemaType : string;
  schemaProperties : list (string * PropertySchema);
  schemaRequired : list string
}.

Definition listTools : list ToolDescription :=
  [ mkToolDescription "convert-contents"
      ("Convert document contents between formats using Pandoc. " ++
       "Supports: markdown, html, txt, ipynb, odt, pdf, docx, rst, latex, epub. " ++
       "PDF can only be used as output format. Binary formats (PDF, DOCX, EPUB, ODT) require output_file.")
      "object"
      [ ("contents",
         mkPropertySchema "string" None
           "The content to convert (use this OR input_file, not both)" None);
        ("input_file",
         mkPropertySchema "string" None
           "Path to input file (use this OR contents, not both)" None);
        ("input_format",
         mkPropertySchema "string" None
           "Input format (default: markdown)" (Some "markdown"));
        ("output_format",
         mkPropertySchema "string" None
           "Output format (default: markdown)" (Some "markdown"));
        ("output_file",
         mkPropertySchema "string" None
           "Path to output file (required for PDF, DOCX, EPUB, ODT)" None);
        ("reference_doc",
         mkPropertySchema "string" None
           "Path to reference document for styling (DOCX only)" None);
        ("defaults_file",
         mkPropertySchema "string" None
           "Path to Pandoc defaults YAML file" None);
        ("filters",
         mkPropertySchema "array" (Some "string")
           "List of Pandoc filter names or paths" None) ]
      [] ].

End Mcp.

(* ================================================================= *)
(** ** The HTTP entry point (startHttpServer): the request listener *)

Module Server.
Import Js.

(** What the listener reads of a Node [IncomingMessage]. *)
Record IncomingMessage : Type := mkIncomingMessage {
  method : option string;
  url : option string
}.

(** How handing a request to the MCP transport ends:
    [mcpServer.connect(transport)] and [transport.handleRequest(req, res)]
    both complete, or one of them throws, the response headers having been
    sent by then or not. *)
Inductive TransportOutcome : Type :=
| TransportCompleted
| TransportFailed (error : string) (headersSent : bool).

(** What the listener does to the response, in order. *)
Inductive ResponseAction : Type :=
| SetHeader (key value : string)
| WriteHead (status : nat) (headers : list (string * string))
| EndResponse (body : option string)
| HandToTransport
| ConsoleError (label error : string).

Definition corsHeaders : list (string * string) :=
  [ ("Access-Control-Allow-Origin", "*");
    ("Access-Control-Allow-Methods", "GET, POST, DELETE, OPTIONS");
    ("Access-Control-Allow-Headers", "Content-Type, X-Session-Id") ].

(** [JSON.stringify] of the two literal objects the listener sends. *)
Definition healthBody : string :=
  "{" ++ dq ++ "status" ++ dq ++ ":" ++ dq ++ "ok" ++ dq ++ "," ++
  dq ++ "service" ++ dq ++ ":" ++ dq ++ "deno-mcp-pandoc" ++ dq ++ "," ++
  dq ++ "version" ++ dq ++ ":" ++ dq ++ "1.0.0" ++ dq ++ "}".

Definition internalErrorBody : string :=
  "{" ++ dq ++ "error" ++ dq ++ ":" ++ dq ++ "Internal server error" ++ dq ++ "}".

Definition methodIs (req : IncomingMessage) (m : string) : bool :=
  match method req with
  | Some x => (x =? m)%string
  | None => false
  end.

Definition requestListener (transport : IncomingMessage -> TransportOutcome)
    (req : IncomingMessage) : list ResponseAction :=
  let url := or_str (url req) "/" in
  (* Add CORS headers to all responses *)
  let setCors := map (fun kv => SetHeader (fst kv) (snd kv)) corsHeaders in
  (setCors ++
   (* Handle CORS preflight *)
   if methodIs req "OPTIONS" then
     [WriteHead 204 []; EndResponse None]
   (* Health check endpoint *)
   else if (url =? "/health")%string && methodIs req "GET" then
     [WriteHead 200 [("Content-Type", "application/json")];
      EndResponse (Some healthBody)]
   (* MCP SSE endpoint *)
   else if startsWith url "/sse" || startsWith url "/mcp" then
     HandToTransport ::
     match transport req with
     | TransportCompleted => []
     | TransportFailed error headersSent =>
         ConsoleError "MCP request error:" error ::
         (if negb headersSent then
            [WriteHead 500 [("Content-Type", "application/json")];
             EndResponse (Some internalErrorBody)]
          else [])
     end
   (* 404 for unknown routes *)
   else
     [WriteHead 404 []; EndResponse (Some "Not Found")])%list.

End Server.

(* ================================================================= *)
(** ** The specification's vocabulary

    Definitions that follow the words of the specification rather than the
    code; the theorems below compare the two. *)

Module Spec.
Import Js Errors Effects Validation.

(** [c] is the lower-case letter [d], in either case: [d] itself or its
    capital. *)
Definition isLowerAZ (d : N) : bool := ((97 <=? d) && (d <=? 122))%N.

Definition sameLetter (c d : N) : bool :=
  (c =? d)%N || ((c + 32 =? d)%N && isLowerAZ d).

(** [s] spells the token [t] letter by letter, each letter in any case. *)
Fixpoint caseVariant (s t : string) : bool :=
  match s, t with
  | EmptyString, EmptyString => true
  | String c s', String d t' => sameLetter c d && caseVariant s' t'
  | _, _ => false
  end.

(** The same, with the Kelvin sign U+212A counting as a capital K. *)
Definition kelvinAsK (c : N) : N := if (c =? 8490)%N then 75 else c.

Fixpoint unicodeCaseVariant (s t : string) : bool :=
  match s, t with
  | EmptyString, EmptyString => true
  | String c s', String d t' =>
      sameLetter (kelvinAsK c) d && unicodeCaseVariant s' t'
  | _, _ => false
  end.

(** A string made of the letters a..z, such as each format token. *)
Fixpoint lowerOnly (t : string) : bool :=
  match t with
  | EmptyString => true
  | String d t' => isLowerAZ d && lowerOnly t'
  end.

(** The supported tokens with the Format each stands for, and the legacy
    alias. *)
Definition supportedTokens : list (string * PandocFormat) :=
  [("markdown", Markdown); ("html", HTML); ("plain", Text);
   ("ipynb", Jupyter); ("odt", ODT); ("docx", DOCX);
   ("rst", ReStructuredText); ("latex", LaTeX); ("epub", EPUB);
   ("pdf", PDF)].

Definition legacyAlias : string * PandocFormat := ("txt", Text).

Definition knownTokens : list (string * PandocFormat) :=
  (supportedTokens ++ [legacyAlias])%list.

(** The two shapes of the message of an UnsupportedFormatError: that of an
    unknown token and that of a token unsupported for input. *)
Definition msgSupported : string :=
  "Supported formats are: markdown, html, txt, ipynb, odt, pdf, docx, rst, latex, epub. " ++
  "Note: PDF cannot be used as an input format.".

Definition msgUnknown (raw : string) : string :=
  "Unsupported format: " ++ dq ++ raw ++ dq ++ ". " ++ msgSupported.

Definition msgForInput (raw : string) : string :=
  "Unsupported format: " ++ dq ++ raw ++ dq ++ " for input. " ++ msgSupported.

(** The messages of the three request-shape violations. *)
Definition msgBoth : string :=
  "Cannot specify both 'contents' and 'input_file'. Please provide only one.".
Definition msgNeither : string :=
  "Must specify either 'contents' or 'input_file' for conversion.".
Definition msgNeedsFile (fo : PandocFormat) : string :=
  "Output format '" ++ token fo ++ "' requires 'output_file' to be specified.".

(** An environment variable that is set to a non-empty value. *)
Definition variable (w : World) (v : string) : option string :=
  match env w v with
  | Some (String c r) => Some (String c r)
  | _ => None
  end.

(** The home directory: the value of HOME, the root when HOME is unset or
    empty; on Windows the value of USERPROFILE, then that of HOME, then the
    root of drive C. *)
Definition homeDirectory (w : World) : string :=
  match (os w =? "windows")%string, variable w "USERPROFILE",
        variable w "HOME" with
  | true, Some profile, _ => profile
  | true, None, Some home => home
  | true, None, None => "C:\"
  | false, _, Some home => home
  | false, _, None => "/"
  end.

(** The per-user filter directory, <home>/.pandoc/filters. *)
Definition userFiltersDirectory (w : World) : string :=
  join w [homeDirectory w; ".pandoc"; "filters"].

(** The locations searched for a filter, in the documented order: the name
    itself when it is an absolute path; the name joined onto the current
    working directory; the name joined onto the auxiliary directory when one
    was supplied (a directory being a non-empty string); the name joined
    onto the per-user filter directory. *)
Definition candidateLocations (w : World) (name : string)
    (auxiliaryDir : option string) : list string :=
  ((if isAbsolute w name then [name] else []) ++
   [join w [cwd w; name]] ++
   (match auxiliaryDir with
    | Some (String c d) => [join w [String c d; name]]
    | _ => []
    end) ++
   [join w [userFiltersDirectory w; name]])%list.

(** The same, when an auxiliary directory given as the empty string is
    taken for a directory like any other. *)
Definition candidateLocationsAsGiven (w : World) (name : string)
    (auxiliaryDir : option string) : list string :=
  ((if isAbsolute w name then [name] else []) ++
   [join w [cwd w; name]] ++
   (match auxiliaryDir with
    | Some dir => [join w [dir; name]]
    | None => []
    end) ++
   [join w [userFiltersDirectory w; name]])%list.

(** The existence test of a location answers: it says yes or no. *)
Definition answers (w : World) (p : string) : Prop :=
  exists b, existsFile w p = Resolved b.

(** Searching a list of candidates in order: the first candidate whose test
    says yes, none when every test says no; the search is cut short by the
    first test that fails to answer, whose error is the result. *)
Fixpoint search (w : World) (candidates : list string)
  : LibResult (option string) :=
  match candidates with
  | [] => Resolved None
  | p :: rest =>
      match existsFile w p with
      | Resolved true => Resolved (Some p)
      | Resolved false => search w rest
      | Rejected underlying => Rejected underlying
      end
  end.

(** The locations tested on the way: up to the first that says yes or
    fails to answer. *)
Fixpoint testedUntilHit (w : World) (candidates : list string) : list string :=
  match candidates with
  | [] => []
  | p :: rest =>
      match existsFile w p with
      | Resolved false => p :: testedUntilHit w rest
      | _ => [p]
      end
  end.

(** The existence tests recorded in a trace, in order. *)
Definition existenceTests (tr : list Event) : list string :=
  flat_map (fun e => match e with EvExists p => [p] | _ => [] end) tr.

(** A computation searches a list of candidates: it tests them in order,
    returns the first that is a regular file, ends as [notFound] when none
    is, and passes on the error of a test that fails to answer. *)
Definition searches (w : World) (m : M string) (candidates : list string)
    (notFound : JsError) : Prop :=
  outcome m =
    match search w candidates with
    | Resolved (Some q) => ok q
    | Resolved None => throw notFound
    | Rejected underlying => throw (Error underlying)
    end /\
  existenceTests (trace m) = testedUntilHit w candidates.

(** A small POSIX-like world for the examples: the non-empty segments of a
    path are joined with a slash and repeated slashes collapsed, a path is
    absolute when it starts with a slash, the home directory is /home/user,
    the working directory /work, the regular files are those listed, a path
    that runs through one of them as if it were a directory cannot be
    examined, each file reads as a one-key YAML mapping, and the engine
    runs. *)
Fixpoint collapseSlashes (s : string) : string :=
  match s with
  | String a ((String b _) as r) =>
      if ((a =? 47) && (b =? 47))%N then collapseSlashes r
      else String a (collapseSlashes r)
  | _ => s
  end.

Definition posixJoin (segments : list string) : string :=
  match collapseSlashes (joinWith "/" (filter truthyStr segments)) with
  | EmptyString => "."
  | p => p
  end.

Fixpoint beforeLastSlash (s : string) : option string :=
  match s with
  | EmptyString => None
  | String c r =>
      match beforeLastSlash r with
      | Some d => Some (String c d)
      | None => if (c =? 47)%N then Some EmptyString else None
      end
  end.

Definition posixDirname (s : string) : string :=
  match beforeLastSlash s with
  | Some EmptyString => "/"
  | Some d => d
  | None => "."
  end.

Definition posixExists (files : list string) (p : string) : LibResult bool :=
  if existsb (String.eqb p) files then Resolved true
  else if existsb (fun f => startsWith p (f ++ "/")) files
       then Rejected ("Not a directory (os error 20): stat '" ++ p ++ "'")
       else Resolved false.

Definition posixWorld (files : list string) : World :=
  mkWorld "linux"
    (fun v => if (v =? "HOME")%string then Some "/home/user" else None)
    "/work"
    (fun p => startsWith p "/")
    posixJoin
    posixDirname
    (posixExists files)
    (fun _ => Resolved "title: Example")
    (fun _ => None)
    (fun _ => Resolved (YMap [("title", YStr "Example")]))
    (fun _ _ => Resolved "<p>ok</p>").















(** The message of a failed run indicates that the engine binary could not
    be located or executed: it contains, in any letter case, "not found",
    "no such file" or the ENOENT code. *)
Definition missingBinaryHints : list string :=
  ["not found"; "no such file"; "enoent"].

Definition indicatesMissingBinary (msg : string) : bool :=
  existsb (fun hint => includes (toLowerCase msg) hint) missingBinaryHints.

Definition classifyFailure (msg : string) : JsError :=
  if indicatesMissingBinary msg then PandocNotFoundError None
  else ConversionError ("Pandoc conversion failed: " ++ msg) None.

(** A trace in which no subprocess is spawned. *)
Definition noSpawn (tr : list Event) : bool :=
  forallb (fun e => negb (isSpawn e)) tr.

(** The parameters the request handler hands to the validator. *)
Definition paramsOf (args : Mcp.ToolArguments) : ConversionParams :=
  mkConversionParams
    (Mcp.contents args) (Mcp.input_file args)
    (or_str (Mcp.input_format args) "markdown")
    (or_str (Mcp.output_format args) "markdown")
    (Mcp.output_file args) (Mcp.reference_doc args)
    (Mcp.defaults_file args) (Mcp.filters args).

Definition msgInvalidArguments : string :=
  "Invalid arguments: must provide contents or both input_file and output_file".

(** The auxiliary directory the handler passes to the filter resolver: the
    directory of the defaults document, when one is given. *)
Definition auxDirOf (w : World) (args : Mcp.ToolArguments) : option string :=
  option_map (dirname w) (asTruthy (Mcp.defaults_file args)).

(** The defaults check passes, or is not asked for. *)
Definition defaultsPass (w : World) (args : Mcp.ToolArguments) : Prop :=
  match asTruthy (Mcp.defaults_file args) with
  | Some file => outcome (Defaults.validateDefaultsFile w file) = ok true
  | None => True
  end.

(** The filters all resolve, or none is asked for. *)
Definition filtersPass (w : World) (args : Mcp.ToolArguments) : Prop :=
  match Mcp.filters args with
  | Some names =>
      exists paths,
        outcome (Filters.resolveFilterPaths w names (auxDirOf w args))
          = ok paths
  | None => True
  end.

(** What the handler does between validation and conversion: the trace of
    the defaults check, when one is asked for, followed by the trace of the
    filter resolution, when one is asked for. *)
Definition preflightTrace (w : World) (args : Mcp.ToolArguments)
  : list Event :=
  ((match asTruthy (Mcp.defaults_file args) with
    | Some file => trace (Defaults.validateDefaultsFile w file)
    | None => []
    end) ++
   (match Mcp.filters args with
    | Some names =>
        trace (Filters.resolveFilterPaths w names (auxDirOf w args))
    | None => []
    end))%list.

(** A present field: the request has it, whatever its value. *)
Definition present (o : option string) : bool :=
  match o with
  | Some _ => true
  | None => false
  end.

End Spec.

(* ================================================================= *)
(** ** Vocabulary of the further properties *)

Module Notions.
Import Js Errors Effects Validation.
Import Spec.

(** The token a raw format string is compared with: lower-cased, the legacy
    alias replaced. *)
Definition normalizedToken (s : string) : string :=
  let n := toLowerCase s in
  if (n =? "txt")%string then "plain" else n.

(** The Format a validation ended with, if it did not throw. *)
Definition formatOf (r : Result PandocFormat) : option PandocFormat :=
  match r with
  | inr f => Some f
  | inl _ => None
  end.

(** The permission changes a trace makes, in order: the file and the mode
    it is given. *)
Definition chmods (tr : list Event) : list (string * nat) :=
  flat_map (fun e => match e with EvChmod p mode => [(p, mode)] | _ => [] end)
    tr.

(** The warnings a trace prints. *)
Definition warnings (tr : list Event) : list string :=
  flat_map (fun e => match e with EvWarn m => [m] | _ => [] end) tr.

(** [w], with [f] deciding which permission changes fail. *)
Definition withChmodFailure (w : World) (f : string -> option string)
  : World :=
  mkWorld (os w) (env w) (cwd w) (isAbsolute w) (join w) (dirname w)
    (existsFile w) (fileText w) f (yamlParse w) (spawn w).

(** The traces of resolving each name of a list, one after the other. *)
Definition resolutionTraces (w : World) (names : list string)
    (aux : option string) : list Event :=
  concat (map (fun n => trace (Filters.resolveFilterPath w n aux)) names).

(** What [resolveFilterPath] does to permissions, as a property of a
    computation: it gives the file it returns the mode 0o755 (493), and
    changes the mode of nothing else; it warns only about that file. *)
Definition chmodsItsResult (w : World) (m : M string) : Prop :=
  match outcome m with
  | inr p =>
      chmods (trace m) =
        (if (os w =? "windows")%string then [] else [(p, 493)]) /\
      warnings (trace m) =
        (if (os w =? "windows")%string then []
         else match chmodFailure w p with
              | Some error =>
                  ["Warning: Could not make filter executable: " ++ error]
              | None => []
              end)
  | inl _ => chmods (trace m) = [] /\ warnings (trace m) = []
  end.

(** A string without a line feed. *)
Fixpoint singleLine (s : string) : bool :=
  match s with
  | EmptyString => true
  | String c r => negb (c =? 10)%N && singleLine r
  end.


(** The version query of a converter. *)
Definition versionQuery (w : World) (this : Converter.PandocConverter)
  : LibResult string :=
  spawn w [Converter.pandocPath this; "--version"] None.

(** [w], with [runner] as the subprocess runner. *)
Definition withSpawn (w : World)
    (runner : list string -> option string -> LibResult string) : World :=
  mkWorld (os w) (env w) (cwd w) (isAbsolute w) (join w) (dirname w)
    (existsFile w) (fileText w) (chmodFailure w) (yamlParse w) runner.

(** The arguments of a request with one string field replaced, the field
    being named as in the input schema. *)
Definition withField (key : string) (value : option string)
    (args : Mcp.ToolArguments) : Mcp.ToolArguments :=
  let pick k old := if (key =? k)%string then value else old in
  Mcp.mkToolArguments
    (pick "contents" (Mcp.contents args))
    (pick "input_file" (Mcp.input_file args))
    (pick "input_format" (Mcp.input_format args))
    (pick "output_format" (Mcp.output_format args))
    (pick "output_file" (Mcp.output_file args))
    (pick "reference_doc" (Mcp.reference_doc args))
    (pick "defaults_file" (Mcp.defaults_file args))
    (Mcp.filters args).

(** The outcome of a conversion that reached the engine: a result, or one
    of the two engine errors. *)
Definition engineOutcome {A : Type} (r : Result A) : Prop :=
  (exists a, r = inr a) \/
  (exists e, r = inl (ThrowError e) /\
     (cls e = ClsPandocNotFoundError \/ cls e = ClsConversionError)).

(** A computation that spawns at most one subprocess, as the last thing it
    does, and cannot return without having spawned it. *)
Definition spawnsLast {A : Type} (m : M A) : Prop :=
  exists before,
    Spec.noSpawn before = true /\
    ((trace m = before /\ exists t, outcome m = inl t) \/
     (exists argv stdin,
        trace m = (before ++ [EvSpawn argv stdin])%list /\
        engineOutcome (outcome m))).

(** The options the handler hands to the converter. *)
Definition optionsOf (args : Mcp.ToolArguments)
    (resolvedFilters : option (list string)) : Converter.ConversionOptions :=
  Converter.mkConversionOptions None (Mcp.reference_doc args)
    (Mcp.defaults_file args) resolvedFilters.

(** The filter step of the handler ends with [resolved]. *)
Definition filtersResolveTo (w : World) (args : Mcp.ToolArguments)
    (resolved : option (list string)) : Prop :=
  match Mcp.filters args with
  | Some names =>
      exists paths,
        outcome (Filters.resolveFilterPaths w names (Spec.auxDirOf w args))
          = ok paths /\
        resolved = Some paths
  | None => resolved = None
  end.

(** The command the handler's converter runs. *)
Definition engineCommand (w : World) : string :=
  Converter.pandocPath (Converter.new w None).

(** Reading a list of response actions: the status lines written, the
    number of times the response was ended, whether the request was handed
    to the MCP transport. *)
Definition statusLines (acts : list Server.ResponseAction) : list nat :=
  flat_map (fun a => match a with
                     | Server.WriteHead status _ => [status]
                     | _ => []
                     end) acts.

Definition endings (acts : list Server.ResponseAction) : nat :=
  length (filter (fun a => match a with
                           | Server.EndResponse _ => true
                           | _ => false
                           end) acts).

(** What the listener writes to the error console, in order. *)
Definition consoleErrors (acts : list Server.ResponseAction)
  : list (string * string) :=
  flat_map (fun a => match a with
                     | Server.ConsoleError label error => [(label, error)]
                     | _ => []
                     end) acts.

Definition handedToTransport (acts : list Server.ResponseAction) : bool :=
  existsb (fun a => match a with
                    | Server.HandToTransport => true
                    | _ => false
                    end) acts.

End Notions.

(* ================================================================= *)
(** * Theorems *)

(* ================================================================= *)
(** ** JavaScript strings *)

Section StringFacts.

Lemma string_eqb_refl (s : string) : (s =? s)%string = true.
Proof.
  induction s as [|c s IH]; [reflexivity|].
  cbn. now rewrite N.eqb_refl, IH.
Qed.

Lemma string_eqb_eq (a b : string) : (a =? b)%string = true <-> a = b.
Proof.
  split; [|intros ->; apply string_eqb_refl].
  revert b. induction a as [|c a IH]; intros [|d b] H; try discriminate H;
    [reflexivity|].
  cbn in H. apply andb_true_iff in H as [Hc H].
  apply N.eqb_eq in Hc. subst d. now rewrite (IH b H).
Qed.

Lemma string_eqb_spec (a b : string) : reflect (a = b) (a =? b)%string.
Proof.
  destruct (a =? b)%string eqn:E; constructor.
  - now apply string_eqb_eq.
  - intro H. apply string_eqb_eq in H. congruence.
Qed.

Lemma string_eqb_sym (a b : string) : (a =? b)%string = (b =? a)%string.
Proof.
  destruct (string_eqb_spec a b) as [->|Hne].
  - now rewrite string_eqb_refl.
  - destruct (string_eqb_spec b a) as [->|_]; [now elim Hne | reflexivity].
Qed.

Lemma append_assoc_local (a b c : string) : a ++ (b ++ c) = (a ++ b) ++ c.
Proof. induction a as [|x a IH]; cbn; [reflexivity | now rewrite IH]. Qed.

Lemma append_nil_r (a : string) : a ++ EmptyString = a.
Proof. induction a as [|x a IH]; cbn; [reflexivity | now rewrite IH]. Qed.

Lemma strLength_append (a b : string) :
  Js.strLength (a ++ b) = Js.strLength a + Js.strLength b.
Proof. induction a as [|x a IH]; cbn; [reflexivity | now rewrite IH]. Qed.

Lemma string_app_inv_head (a x y : string) : a ++ x = a ++ y -> x = y.
Proof.
  induction a as [|c a IH]; cbn; intro H; [exact H|].
  injection H as H. now apply IH.
Qed.

(** Two splits of one string at the same position are the same split. *)
Lemma append_same_length (a b x y : string) :
  Js.strLength a = Js.strLength b -> a ++ x = b ++ y -> a = b /\ x = y.
Proof.
  revert b. induction a as [|c a IH]; intros [|d b] Hlen H;
    try discriminate Hlen.
  - split; [reflexivity | exact H].
  - cbn in Hlen, H. injection Hlen as Hlen. injection H as -> H.
    destruct (IH b Hlen H) as [-> ->]. split; reflexivity.
Qed.

End StringFacts.

(* ================================================================= *)
(** ** JavaScript primitives *)

Section JsFacts.
Import Js Spec.

Ltac unbool :=
  repeat match goal with
    | H : (_ && _) = true |- _ => apply andb_true_iff in H; destruct H
    | H : (_ || _) = false |- _ => apply orb_false_iff in H; destruct H
    | H : negb _ = true |- _ => apply negb_true_iff in H
    | H : negb _ = false |- _ => apply negb_false_iff in H
    | H : (_ =? _)%N = true |- _ => apply N.eqb_eq in H
    | H : (_ =? _)%N = false |- _ => apply N.eqb_neq in H
    | H : (_ <=? _)%N = true |- _ => apply N.leb_le in H
    | H : (_ <=? _)%N = false |- _ => apply N.leb_gt in H
    end.

Ltac decide_units :=
  repeat match goal with
    | |- context [(?a =? ?b)%N] => destruct (N.eqb_spec a b)
    | |- context [(?a <=? ?b)%N] => destruct (N.leb_spec a b)
    end;
  cbn; try reflexivity; try lia.

Lemma isLowerAZ_bounds (d : N) :
  isLowerAZ d = true -> (97 <= d <= 122)%N.
Proof. unfold isLowerAZ. intro H. unbool. lia. Qed.

(** Lower-casing a code unit yields one code unit, the dotted capital I
    apart; against a letter a..z, the result is that letter exactly when the
    unit is the letter in either case, or the Kelvin sign for k. *)
Lemma kelvinAsK_other (c : N) : c <> 8490%N -> kelvinAsK c = c.
Proof.
  intro H. unfold kelvinAsK. now destruct (N.eqb_spec c 8490).
Qed.

Lemma lowerUnit_single (c : N) :
  c <> 304%N ->
  exists x, lowerUnit c = String x EmptyString /\
            forall d, isLowerAZ d = true ->
                      (x =? d)%N = sameLetter (kelvinAsK c) d.
Proof.
  intro Hc. unfold lowerUnit, lowerSpecial.
  destruct (isUpperAZ c || isUpperLatin1 c) eqn:E1;
    [|destruct (N.eqb_spec c 8490) as [->|N1];
      [|destruct (N.eqb_spec c 304) as [->|_]; [now elim Hc|];
        destruct (N.eqb_spec c 8491) as [->|N2];
        [|destruct (N.eqb_spec c 376) as [->|N3];
          [|destruct (N.eqb_spec c 7838) as [->|N4]]]]];
    eexists; (split; [reflexivity|]); intros d Hd;
    apply isLowerAZ_bounds in Hd as Hb;
    unfold sameLetter; rewrite Hd, andb_true_r.
  - unfold isUpperAZ, isUpperLatin1 in E1.
    apply orb_true_iff in E1 as [E1|E1]; unbool;
      (rewrite kelvinAsK_other by lia); decide_units.
  - change (kelvinAsK 8490) with 75%N. decide_units.
  - change (kelvinAsK 8491) with 8491%N. decide_units.
  - change (kelvinAsK 376) with 376%N. decide_units.
  - change (kelvinAsK 7838) with 7838%N. decide_units.
  - rewrite (kelvinAsK_other c N1).
    unfold isUpperAZ, isUpperLatin1 in *. unbool.
    destruct (N.eqb_spec c d); [reflexivity|].
    destruct (N.eqb_spec (c + 32) d); [|reflexivity].
    exfalso.
    match goal with
    | H : (_ && _) = false |- _ =>
        apply andb_false_iff in H as [H|H]; unbool; lia
    end.
Qed.

Lemma lowerUnit_dotted_I :
  lowerUnit 304 = String 105 (String 775 EmptyString).
Proof. reflexivity. Qed.

(** On a string of letters a..z, [unicodeCaseVariant] is equality after
    lower-casing. *)
Lemma caseVariant_toLowerCase (t : string) :
  lowerOnly t = true ->
  forall s, unicodeCaseVariant s t = (toLowerCase s =? t)%string.
Proof.
  induction t as [|d t IH]; intros Ht s.
  - destruct s as [|c s]; [reflexivity|]. cbn.
    destruct (N.eq_dec c 304) as [->|Hc].
    + reflexivity.
    + destruct (lowerUnit_single c Hc) as (x & -> & _). reflexivity.
  - cbn in Ht. apply andb_true_iff in Ht as [Hd Ht].
    destruct s as [|c s]; [reflexivity|].
    cbn [unicodeCaseVariant toLowerCase].
    destruct (N.eq_dec c 304) as [->|Hc].
    + rewrite lowerUnit_dotted_I.
      change (String 105 (String 775 EmptyString) ++ toLowerCase s)
        with (String 105 (String 775 (toLowerCase s))).
      apply isLowerAZ_bounds in Hd as Hb.
      assert (E : sameLetter (kelvinAsK 304) d = false)
        by (unfold sameLetter; change (kelvinAsK 304) with 304%N;
            rewrite Hd; decide_units).
      rewrite E. cbn [andb String.eqb].
      destruct t as [|d' t']; [apply eq_sym, andb_false_r|].
      cbn [lowerOnly] in Ht. apply andb_true_iff in Ht as [Hd' _].
      apply isLowerAZ_bounds in Hd'. cbn [String.eqb].
      destruct (N.eqb_spec 775 d'); [lia|]. cbn [andb].
      apply eq_sym, andb_false_r.
    + destruct (lowerUnit_single c Hc) as (x & -> & Hx).
      cbn. now rewrite (Hx d Hd), (IH Ht s).
Qed.

(** The letter cases of a token are among its Unicode case variants. *)
Lemma caseVariant_unicode (t : string) :
  lowerOnly t = true ->
  forall s, caseVariant s t = true -> unicodeCaseVariant s t = true.
Proof.
  induction t as [|d t IH]; intros Ht [|c s] H; try discriminate H;
    [reflexivity|].
  cbn in Ht, H |- *. apply andb_true_iff in Ht as [Hd Ht].
  apply andb_true_iff in H as [Hc H].
  rewrite (IH Ht s H), andb_true_r.
  apply isLowerAZ_bounds in Hd as Hb.
  unfold kelvinAsK. destruct (N.eqb_spec c 8490) as [->|_]; [|exact Hc].
  exfalso. revert Hc. unfold sameLetter. rewrite Hd.
  destruct (N.eqb_spec 8490 d); [lia|].
  destruct (N.eqb_spec (8490 + 32) d); [lia | discriminate].
Qed.

Lemma toLowerCase_app (a b : string) :
  toLowerCase (a ++ b) = toLowerCase a ++ toLowerCase b.
Proof.
  induction a as [|c a IH]; [reflexivity|].
  cbn. now rewrite IH, append_assoc_local.
Qed.

Lemma startsWith_app (n x : string) : startsWith (n ++ x) n = true.
Proof.
  induction n as [|c n IH]; [reflexivity|].
  cbn. now rewrite N.eqb_refl, IH.
Qed.

Lemma startsWith_refl (n : string) : startsWith n n = true.
Proof.
  induction n as [|c n IH]; [reflexivity|].
  cbn. now rewrite N.eqb_refl, IH.
Qed.

Lemma startsWith_app_l (a b n : string) :
  startsWith a n = true -> startsWith (a ++ b) n = true.
Proof.
  revert a. induction n as [|c n IH]; intros a H; [reflexivity|].
  destruct a as [|d a]; [discriminate|].
  cbn in H |- *. apply andb_true_iff in H as [-> H]. now rewrite (IH a H).
Qed.

Lemma startsWith_split (h n : string) :
  startsWith h n = true -> exists b, h = n ++ b.
Proof.
  revert h. induction n as [|c n IH]; intros h H; [now exists h|].
  destruct h as [|d h]; [discriminate|].
  cbn in H. apply andb_true_iff in H as [Hc H].
  apply N.eqb_eq in Hc. subst d.
  destruct (IH h H) as [b ->]. now exists b.
Qed.

Lemma includes_cons (d : N) (h n : string) :
  includes (String d h) n =
  if startsWith (String d h) n then true else includes h n.
Proof. reflexivity. Qed.

Lemma includes_startsWith (h n : string) :
  startsWith h n = true -> includes h n = true.
Proof. intro H. destruct h; cbn; now rewrite H. Qed.

Lemma includes_app_l (a b n : string) :
  includes a n = true -> includes (a ++ b) n = true.
Proof.
  induction a as [|c a IH]; intro H.
  - apply includes_startsWith. apply (startsWith_app_l EmptyString b n).
    cbn in H. now destruct (startsWith EmptyString n).
  - rewrite includes_cons in H.
    change (String c a ++ b) with (String c (a ++ b)). rewrite includes_cons.
    destruct (startsWith (String c a) n) eqn:E.
    + apply (startsWith_app_l _ b) in E.
      change (String c a ++ b) with (String c (a ++ b)) in E. now rewrite E.
    + rewrite (IH H). now destruct (startsWith (String c (a ++ b)) n).
Qed.

Lemma includes_app_r (a b n : string) :
  includes b n = true -> includes (a ++ b) n = true.
Proof.
  intro H. induction a as [|c a IH]; [exact H|].
  change (String c a ++ b) with (String c (a ++ b)). rewrite includes_cons.
  rewrite IH. now destruct (startsWith (String c (a ++ b)) n).
Qed.

Lemma includes_here (n x : string) : includes (n ++ x) n = true.
Proof. apply includes_startsWith, startsWith_app. Qed.

Lemma includes_split (h n : string) :
  includes h n = true -> exists a b, h = a ++ n ++ b.
Proof.
  induction h as [|d h IH]; intro H.
  - cbn in H. destruct (startsWith EmptyString n) eqn:E; [|discriminate].
    apply startsWith_split in E as [b E]. now exists EmptyString, b.
  - rewrite includes_cons in H.
    destruct (startsWith (String d h) n) eqn:E.
    + apply startsWith_split in E as [b E]. now exists EmptyString, b.
    + destruct (IH H) as (a & b & ->). now exists (String d a), b.
Qed.

(** Lower-casing keeps what a text contains. *)
Lemma includes_toLowerCase (h n : string) :
  includes h n = true -> includes (toLowerCase h) (toLowerCase n) = true.
Proof.
  intro H. apply includes_split in H as (a & b & ->).
  rewrite !toLowerCase_app. apply includes_app_r, includes_here.
Qed.

End JsFacts.

(* ================================================================= *)
(** ** Format registry and parameter validator (src/validation.ts) *)

Section ValidationFacts.
Import Js Errors Validation Spec.

Lemma token_lowerOnly (f : PandocFormat) : lowerOnly (token f) = true.
Proof. destruct f; reflexivity. Qed.

Lemma knownTokens_lowerOnly (t : string) :
  In t (map fst knownTokens) -> lowerOnly t = true.
Proof.
  cbn. intro H. repeat (destruct H as [<-|H]; [reflexivity|]). destruct H.
Qed.

Lemma unicodeCaseVariant_eq (s t : string) :
  lowerOnly t = true -> unicodeCaseVariant s t = true -> toLowerCase s = t.
Proof.
  intros Ht H. rewrite (caseVariant_toLowerCase t Ht) in H.
  now apply string_eqb_eq in H.
Qed.

Lemma caseVariant_eq (s t : string) :
  lowerOnly t = true -> caseVariant s t = true -> toLowerCase s = t.
Proof.
  intros Ht H. apply unicodeCaseVariant_eq; [exact Ht|].
  now apply caseVariant_unicode.
Qed.

Lemma unicodeCaseVariant_neq (s t : string) :
  lowerOnly t = true -> unicodeCaseVariant s t = false ->
  (t =? toLowerCase s)%string = false.
Proof.
  intros Ht H. rewrite (caseVariant_toLowerCase t Ht) in H.
  now rewrite string_eqb_sym.
Qed.

(** Every member of the enum is in the table of supported tokens, under
    its own string value. *)
Lemma supportedTokens_complete (f : PandocFormat) :
  In (token f, f) supportedTokens.
Proof. destruct f; cbn; auto 12. Qed.

(** A string that lower-cases to a known token is normalized to that
    token's Format. *)
Lemma validateFormat_lowered (t : string) (f : PandocFormat) (s : string) :
  In (t, f) knownTokens -> toLowerCase s = t ->
  validateFormat s ALL_FORMATS = ok f.
Proof.
  intros Hin Hs. cbn in Hin.
  repeat (destruct Hin as [Hin|Hin];
          [injection Hin as <- <-;
           unfold validateFormat; rewrite Hs; reflexivity|]).
  destruct Hin.
Qed.

Lemma validateFormat_known (t : string) (f : PandocFormat) (s : string) :
  In (t, f) knownTokens -> unicodeCaseVariant s t = true ->
  validateFormat s ALL_FORMATS = ok f.
Proof.
  intros Hin Hs. apply (validateFormat_lowered t f s Hin).
  apply unicodeCaseVariant_eq; [|exact Hs].
  apply knownTokens_lowerOnly. now apply (in_map fst) in Hin.
Qed.

Lemma validateFormat_unknown (s : string) (allowed : FormatArray) :
  (forall t, In t (map fst knownTokens) -> unicodeCaseVariant s t = false) ->
  validateFormat s allowed = throw (UnsupportedFormatError s None).
Proof.
  intro H.
  assert (Hn : forall t, In t (map fst knownTokens) ->
                 (t =? toLowerCase s)%string = false).
  { intros t Ht. apply unicodeCaseVariant_neq; [|now apply H].
    now apply knownTokens_lowerOnly. }
  unfold validateFormat.
  rewrite (string_eqb_sym (toLowerCase s) "txt"), (Hn "txt") by (cbn; auto 12).
  cbn [ALL_FORMATS INPUT_FORMATS elems app find token].
  rewrite !Hn by (cbn; auto 12).
  reflexivity.
Qed.

(** The message of the input-path refusal of a three-letter token is the
    message of no unknown token, whatever that token is. *)
Lemma msgForInput_not_msgUnknown (s u : string) :
  strLength s = 3 -> msgForInput s <> msgUnknown u.
Proof.
  intros Hs H. unfold msgForInput, msgUnknown in H.
  apply (string_app_inv_head "Unsupported format: ") in H.
  apply (string_app_inv_head dq) in H.
  change (s ++ dq ++ " for input. " ++ msgSupported)
    with (s ++ (dq ++ " for inpu") ++ ("t. " ++ msgSupported)) in H.
  rewrite append_assoc_local in H.
  assert (Hlen : strLength (s ++ dq ++ " for inpu") = strLength u).
  { apply (f_equal strLength) in H. rewrite !strLength_append in H.
    rewrite strLength_append.
    remember (strLength msgSupported) as n. cbn in H |- *. lia. }
  destruct (append_same_length _ _ _ _ Hlen H) as [_ Hrest].
  discriminate Hrest.
Qed.

Lemma caseVariant_strLength (s t : string) :
  caseVariant s t = true -> strLength s = strLength t.
Proof.
  revert t. induction s as [|c s IH]; intros [|d t] H; try discriminate H;
    [reflexivity|].
  cbn in H |- *. apply andb_true_iff in H as [_ H]. now rewrite (IH t H).
Qed.

(** C2, as stated, fails on a string that is no token in any letter case:
    with the Kelvin sign U+212A in the place of the letter k, markdown is
    accepted, because lower-casing turns the sign into k. *)
Lemma validateFormat_kelvin_sign_accepted :
  let s := "mar" ++ String 8490 "down" in
  validateFormat s ALL_FORMATS = ok Markdown /\
  forallb (fun t => negb (caseVariant s t)) (map fst knownTokens) = true /\
  validateFormat s ALL_FORMATS <> throw (UnsupportedFormatError s None).
Proof. cbn. split; [reflexivity|]. split; [reflexivity | discriminate]. Qed.

(** C2, amended.  Format normalization ([validateFormat], over the full
    set of formats): a string that spells a supported token, in any letter
    case, yields the Format of that token; one that spells the legacy alias
    txt yields the plain-text Format, whose token is plain; in both, the
    Kelvin sign U+212A counts as a capital K, since the Unicode lower-casing
    the code applies turns it into k.  Every other string fails with an
    UnsupportedFormatError whose message quotes the string as it was given,
    not lower-cased. *)
Theorem validateFormat_normalizes :
  (forall f, In (token f, f) supportedTokens) /\
  (forall t f s, In (t, f) supportedTokens -> unicodeCaseVariant s t = true ->
     validateFormat s ALL_FORMATS = ok f) /\
  (forall s, unicodeCaseVariant s "txt" = true ->
     validateFormat s ALL_FORMATS = ok Text /\ token Text = "plain") /\
  (forall s allowed,
     (forall t, In t (map fst knownTokens) -> unicodeCaseVariant s t = false) ->
     validateFormat s allowed = throw (UnsupportedFormatError s None) /\
     cls (UnsupportedFormatError s None) = ClsUnsupportedFormatError /\
     message (UnsupportedFormatError s None) =
       "Unsupported format: " ++ dq ++ s ++ dq ++ ". " ++
       "Supported formats are: markdown, html, txt, ipynb, odt, pdf, docx, rst, latex, epub. " ++
       "Note: PDF cannot be used as an input format.") /\
  (forall t s, In t (map fst knownTokens) ->
     caseVariant s t = true -> unicodeCaseVariant s t = true).
Proof.
  split; [exact supportedTokens_complete|].
  split; [|split; [|split]].
  - intros t f s Hin Hs. apply (validateFormat_known t f s); [|exact Hs].
    unfold knownTokens. apply in_or_app. now left.
  - intros s Hs. split; [|reflexivity].
    apply (validateFormat_known "txt" Text s); [|exact Hs].
    unfold knownTokens. apply in_or_app. right. now left.
  - intros s allowed H. split; [|split; reflexivity].
    now apply validateFormat_unknown.
  - intros t s Ht. apply caseVariant_unicode. now apply knownTokens_lowerOnly.
Qed.

Lemma validateFormat_normalizes_witness :
  validateFormat "HtMl" ALL_FORMATS = ok HTML /\
  validateFormat ("MAR" ++ String 8490 "DOWN") ALL_FORMATS = ok Markdown /\
  validateFormat "TXT" ALL_FORMATS = ok Text /\
  validateFormat "Markdown2" INPUT_FORMATS =
    throw (UnsupportedFormatError "Markdown2" None) /\
  unicodeCaseVariant "ePub" "epub" = true.
Proof.
  destruct validateFormat_normalizes as (_ & Hknown & Halias & Hother & Hcase).
  split; [|split; [|split; [|split]]].
  - apply (Hknown "html" HTML "HtMl"); [cbn; auto 12 | reflexivity].
  - apply (Hknown "markdown" Markdown); [cbn; auto 12 | reflexivity].
  - apply (Halias "TXT"). reflexivity.
  - apply (Hother "Markdown2" INPUT_FORMATS).
    intros t Ht. cbn in Ht.
    repeat (destruct Ht as [<-|Ht]; [reflexivity|]). destruct Ht.
  - apply (Hcase "epub" "ePub"); [cbn; auto 12 | reflexivity].
Defined.

(** C3.  The output-only token pdf, in any letter case, fails on the input
    path with an UnsupportedFormatError whose message says "for input".
    That is not what an unknown token gets: on the same path a string that
    spells no token fails with the message that has no such words, and the
    message of pdf is the message of no unknown token whatever.  On the
    output path the same string is accepted as the PDF Format. *)
Theorem pdf_input_rejected_output_accepted (s : string) :
  caseVariant s "pdf" = true ->
  validateInputFormat s = throw (UnsupportedFormatError s (Some "for input")) /\
  message (UnsupportedFormatError s (Some "for input")) =
    "Unsupported format: " ++ dq ++ s ++ dq ++ " for input. " ++
    "Supported formats are: markdown, html, txt, ipynb, odt, pdf, docx, rst, latex, epub. " ++
    "Note: PDF cannot be used as an input format." /\
  (forall u,
     (forall t, In t (map fst knownTokens) -> unicodeCaseVariant u t = false) ->
     validateInputFormat u = throw (UnsupportedFormatError u None) /\
     message (UnsupportedFormatError u None) =
       "Unsupported format: " ++ dq ++ u ++ dq ++ ". " ++
       "Supported formats are: markdown, html, txt, ipynb, odt, pdf, docx, rst, latex, epub. " ++
       "Note: PDF cannot be used as an input format.") /\
  (forall u,
     message (UnsupportedFormatError s (Some "for input")) <>
     message (UnsupportedFormatError u None)) /\
  validateOutputFormat s = ok PDF.
Proof.
  intro Hs. pose proof (caseVariant_strLength _ _ Hs) as Hlen.
  apply caseVariant_eq in Hs; [|reflexivity].
  split; [|split; [|split; [|split]]].
  - unfold validateInputFormat, validateFormat. rewrite Hs. reflexivity.
  - reflexivity.
  - intros u Hu. split; [|reflexivity].
    now apply validateFormat_unknown.
  - intro u. apply (msgForInput_not_msgUnknown s u Hlen).
  - unfold validateOutputFormat, validateFormat. rewrite Hs. reflexivity.
Qed.

Lemma pdf_input_rejected_output_accepted_witness :
  validateInputFormat "PDF" =
    throw (UnsupportedFormatError "PDF" (Some "for input")) /\
  validateInputFormat "docbook" =
    throw (UnsupportedFormatError "docbook" None) /\
  message (UnsupportedFormatError "PDF" (Some "for input")) <>
    message (UnsupportedFormatError "docbook" None) /\
  validateOutputFormat "PDF" = ok PDF.
Proof.
  destruct (pdf_input_rejected_output_accepted "PDF" eq_refl)
    as (Hin & _ & Hunknown & Hdistinct & Hout).
  split; [exact Hin|]. split; [|split; [exact (Hdistinct "docbook") | exact Hout]].
  apply (Hunknown "docbook").
  intros t Ht. cbn in Ht.
  repeat (destruct Ht as [<-|Ht]; [reflexivity|]). destruct Ht.
Defined.

(** C4.  [requiresFileOutput] is true for pdf, docx, epub and odt, and
    false for the six other members of the enum. *)
Theorem requiresFileOutput_table (f : PandocFormat) :
  requiresFileOutput f =
  match f with
  | PDF | DOCX | EPUB | ODT => true
  | Markdown | HTML | Text | Jupyter | ReStructuredText | LaTeX => false
  end.
Proof. destruct f; reflexivity. Qed.

End ValidationFacts.

Section ParameterValidatorFacts.
Import Js Errors Validation Spec.

(** C1, as stated, fails on an empty inline document: a request carrying
    both [contents] (the empty string) and an input file path is not
    rejected with "cannot specify both"; it validates. *)
Lemma validateConversionParams_both_present_accepted :
  let p := mkConversionParams (Some EmptyString) (Some "a.md")
             "markdown" "html" None None None None in
  present (contents p) = true /\
  present (inputFile p) = true /\
  validateConversionParams p = ok (Markdown, HTML) /\
  validateConversionParams p <> throw (ValidationError msgBoth).
Proof. cbn. repeat split. discriminate. Qed.

(** C1, amended.  [validateConversionParams] applies its rules in order,
    the first violation winning, where a field counts as supplied when it
    holds a non-empty string ([truthy]):
    1. both [contents] and [inputFile] supplied: "cannot specify both";
    2. neither supplied: "must specify either";
    3. the input format is validated on the input path, a failure being
       passed on unchanged;
    4. the output format is validated on the full path, likewise;
    5. the output format requires a file and no [outputFile] is supplied:
       "requires 'output_file'";
    otherwise the two normalized formats are returned.  The function is pure:
    it is a function of [params] alone and performs no effect. *)
Theorem validateConversionParams_rules (p : ConversionParams) :
  (truthy (contents p) = true -> truthy (inputFile p) = true ->
     validateConversionParams p = throw (ValidationError msgBoth)) /\
  (truthy (contents p) = false -> truthy (inputFile p) = false ->
     validateConversionParams p = throw (ValidationError msgNeither)) /\
  (truthy (contents p) <> truthy (inputFile p) ->
     (forall t, validateInputFormat (inputFormat p) = inl t ->
        validateConversionParams p = inl t) /\
     (forall fi, validateInputFormat (inputFormat p) = inr fi ->
        (forall t, validateOutputFormat (outputFormat p) = inl t ->
           validateConversionParams p = inl t) /\
        (forall fo, validateOutputFormat (outputFormat p) = inr fo ->
           (requiresFileOutput fo = true -> truthy (outputFile p) = false ->
              validateConversionParams p =
                throw (ValidationError (msgNeedsFile fo))) /\
           (requiresFileOutput fo = false \/ truthy (outputFile p) = true ->
              validateConversionParams p = ok (fi, fo))))).
Proof.
  unfold validateConversionParams.
  split; [|split].
  - intros -> ->. reflexivity.
  - intros -> ->. reflexivity.
  - intro Hx.
    assert (E1 : truthy (contents p) && truthy (inputFile p) = false)
      by (destruct (truthy (contents p)), (truthy (inputFile p));
          try reflexivity; exfalso; now apply Hx).
    assert (E2 : negb (truthy (contents p)) && negb (truthy (inputFile p)) = false)
      by (destruct (truthy (contents p)), (truthy (inputFile p));
          try reflexivity; exfalso; now apply Hx).
    rewrite E1, E2. split.
    + intros t ->. reflexivity.
    + intros fi ->. split.
      * intros t ->. reflexivity.
      * intros fo ->. split.
        -- intros -> ->. reflexivity.
        -- intros [-> | ->]; [reflexivity|].
           now rewrite andb_false_r.
Qed.

Lemma validateConversionParams_rules_witness :
  validateConversionParams
    (mkConversionParams (Some "# Hi") (Some "a.md") "markdown" "html"
       None None None None) = throw (ValidationError msgBoth) /\
  validateConversionParams
    (mkConversionParams None None "markdown" "html" None None None None)
    = throw (ValidationError msgNeither) /\
  validateConversionParams
    (mkConversionParams (Some "# Hi") None "pdf" "html" None None None None)
    = throw (UnsupportedFormatError "pdf" (Some "for input")) /\
  validateConversionParams
    (mkConversionParams (Some "# Hi") None "markdown" "xml" None None None None)
    = throw (UnsupportedFormatError "xml" None) /\
  validateConversionParams
    (mkConversionParams (Some "# Hi") None "markdown" "pdf" None None None None)
    = throw (ValidationError (msgNeedsFile PDF)) /\
  validateConversionParams
    (mkConversionParams (Some "# Hi") None "markdown" "pdf" (Some "out.pdf")
       None None None) = ok (Markdown, PDF).
Proof.
  split; [|split; [|split; [|split; [|split]]]].
  - apply (proj1 (validateConversionParams_rules _)); reflexivity.
  - apply (proj1 (proj2 (validateConversionParams_rules _))); reflexivity.
  - match goal with |- validateConversionParams ?p = _ =>
      destruct (validateConversionParams_rules p) as (_ & _ & R) end.
    destruct R as (R & _); [cbn; discriminate|].
    apply R. reflexivity.
  - match goal with |- validateConversionParams ?p = _ =>
      destruct (validateConversionParams_rules p) as (_ & _ & R) end.
    destruct R as (_ & R); [cbn; discriminate|].
    destruct (R Markdown eq_refl) as (R' & _).
    apply R'. reflexivity.
  - match goal with |- validateConversionParams ?p = _ =>
      destruct (validateConversionParams_rules p) as (_ & _ & R) end.
    destruct R as (_ & R); [cbn; discriminate|].
    destruct (R Markdown eq_refl) as (_ & R').
    destruct (R' PDF eq_refl) as (R'' & _).
    apply R''; reflexivity.
  - match goal with |- validateConversionParams ?p = _ =>
      destruct (validateConversionParams_rules p) as (_ & _ & R) end.
    destruct R as (_ & R); [cbn; discriminate|].
    destruct (R Markdown eq_refl) as (_ & R').
    destruct (R' PDF eq_refl) as (_ & R'').
    apply R''. right. reflexivity.
Defined.

End ParameterValidatorFacts.

(* ================================================================= *)
(** ** The effect monad *)

Section EffectFacts.
Import Errors Effects.

Lemma bind_ok {A B : Type} (m : M A) (f : A -> M B) (a : A) :
  outcome m = inr a ->
  bind m f = (outcome (f a), (trace m ++ trace (f a))%list).
Proof.
  destruct m as [[t|a'] tr]; cbn; [discriminate|].
  intros [= ->]. now destruct (f a).
Qed.

Lemma bind_throw {A B : Type} (m : M A) (f : A -> M B) (t : Thrown) :
  outcome m = inl t -> bind m f = (inl t, trace m).
Proof.
  destruct m as [[t'|a] tr]; cbn; [|discriminate]. now intros [= ->].
Qed.

Lemma bind_lift_ok {A B : Type} (a : A) (f : A -> M B) :
  bind (lift (ok a)) f = f a.
Proof. unfold lift, ok, bind. now destruct (f a). Qed.

Lemma bind_outcome_inr {A B : Type} (m : M A) (f : A -> M B) (a : A) :
  outcome m = inr a -> outcome (bind m f) = outcome (f a).
Proof. intro H. now rewrite (bind_ok m f a H). Qed.

Lemma bind_fails {A B : Type} (m : M A) (f : A -> M B) :
  (forall a, exists t, outcome (f a) = inl t) ->
  exists t, outcome (bind m f) = inl t.
Proof.
  intro H. unfold bind. destruct m as [[t|a] tr]; [now exists t|].
  destruct (H a) as [t Ht]. exists t. now destruct (f a).
Qed.

End EffectFacts.

(* ================================================================= *)
(** ** Filter path resolver (src/filters.ts) *)

Section FilterFacts.
Import Js Errors Effects Filters Spec.

Lemma isFile_true (w : World) (p : string) :
  isFile w p = true <-> existsFile w p = Resolved true.
Proof.
  unfold isFile. destruct (existsFile w p) as [m|[|]]; split; congruence.
Qed.

Lemma isFile_answer (w : World) (p : string) (b : bool) :
  existsFile w p = Resolved b -> isFile w p = b.
Proof. unfold isFile. now intros ->. Qed.

Lemma or_str_asTruthy (a : option string) (d : string) :
  or_str a d = match asTruthy a with Some s => s | None => d end.
Proof. destruct a as [s|]; [|reflexivity]. cbn. now destruct (truthyStr s). Qed.

Lemma variable_asTruthy (w : World) (v : string) :
  variable w v = asTruthy (env w v).
Proof. unfold variable. now destruct (env w v) as [[|c r]|]. Qed.

(** The home directory of the code is the home directory of the
    specification. *)
Lemma getHomeDir_homeDirectory (w : World) :
  getHomeDir w = homeDirectory w.
Proof.
  unfold getHomeDir, homeDirectory. rewrite !variable_asTruthy.
  destruct (os w =? "windows")%string.
  - rewrite or_str_asTruthy. unfold or_opt.
    destruct (env w "USERPROFILE") as [[|c r]|]; cbn [truthy truthyStr asTruthy];
      destruct (asTruthy (env w "HOME")); reflexivity.
  - rewrite or_str_asTruthy.
    destruct (asTruthy (env w "USERPROFILE")), (asTruthy (env w "HOME"));
      reflexivity.
Qed.

Lemma getPandocFiltersDir_userFiltersDirectory (w : World) :
  getPandocFiltersDir w = userFiltersDirectory w.
Proof.
  unfold getPandocFiltersDir, userFiltersDirectory.
  now rewrite getHomeDir_homeDirectory.
Qed.

(** [makeExecutable] never fails and tests nothing. *)
Lemma makeExecutable_returns (w : World) (p : string) :
  outcome (makeExecutable w p) = inr tt /\
  existenceTests (trace (makeExecutable w p)) = [].
Proof.
  unfold makeExecutable.
  destruct (negb (os w =? "windows")%string); [|split; reflexivity].
  destruct (chmodFailure w p); split; reflexivity.
Qed.

(** One probe: a hit returns the path, a miss hands over to the rest, a
    test that fails ends the search. *)
Lemma tryPath_hit (w : World) (p : string) (rest : M string) :
  isFile w p = true ->
  outcome (tryPath w p rest) = inr p /\
  existenceTests (trace (tryPath w p rest)) = [p].
Proof.
  intro H. apply isFile_true in H.
  unfold tryPath, exists_isFile, bind. rewrite H. cbn [ofLib].
  destruct (makeExecutable_returns w p) as [Ho Ht].
  destruct (makeExecutable w p) as [[t|[]] tr]; cbn in Ho, Ht; [discriminate|].
  cbn. split; [reflexivity|].
  rewrite app_nil_r, Ht. reflexivity.
Qed.

Lemma tryPath_miss (w : World) (p : string) (rest : M string) :
  existsFile w p = Resolved false ->
  outcome (tryPath w p rest) = outcome rest /\
  existenceTests (trace (tryPath w p rest)) =
    p :: existenceTests (trace rest).
Proof.
  intro H. unfold tryPath, exists_isFile, bind. rewrite H. cbn [ofLib].
  destruct rest as [r tr]. cbn. split; reflexivity.
Qed.

Lemma tryPath_fail (w : World) (p : string) (rest : M string)
    (underlying : string) :
  existsFile w p = Rejected underlying ->
  tryPath w p rest = (throw (Error underlying), [EvExists p]).
Proof.
  intro H. unfold tryPath, exists_isFile, bind. now rewrite H.
Qed.

Lemma searches_cons (w : World) (p : string) (rest : M string)
    (candidates : list string) (notFound : JsError) :
  searches w rest candidates notFound ->
  searches w (tryPath w p rest) (p :: candidates) notFound.
Proof.
  intros [Ho Ht]. unfold searches. cbn [search testedUntilHit].
  destruct (existsFile w p) as [m|[|]] eqn:E.
  - rewrite (tryPath_fail w p rest m E). split; reflexivity.
  - apply tryPath_hit. now apply isFile_true.
  - destruct (tryPath_miss w p rest E) as [-> ->].
    rewrite Ho, Ht. split; reflexivity.
Qed.

Lemma searches_nil (w : World) (e : JsError) :
  searches w (raise e) [] e.
Proof. split; reflexivity. Qed.

(** The resolver against the documented search order. *)
Lemma resolveFilterPath_search (w : World) (name : string)
    (aux : option string) :
  searches w (resolveFilterPath w name aux) (candidateLocations w name aux)
    (FilterNotFoundError name (candidateLocations w name aux)).
Proof.
  unfold resolveFilterPath, candidateLocations.
  rewrite getPandocFiltersDir_userFiltersDirectory.
  destruct (isAbsolute w name); destruct aux as [[|c d]|];
    cbn [asTruthy truthyStr app];
    repeat apply searches_cons; apply searches_nil.
Qed.

(** What a search amounts to, by its result. *)
Lemma search_found (w : World) (l : list string) (p : string) :
  search w l = Resolved (Some p) ->
  existsFile w p = Resolved true /\
  exists missed later,
    l = (missed ++ p :: later)%list /\
    (forall q, In q missed -> existsFile w q = Resolved false) /\
    testedUntilHit w l = (missed ++ [p])%list.
Proof.
  induction l as [|c l IH]; [discriminate|].
  cbn. destruct (existsFile w c) as [m|[|]] eqn:E; [discriminate| |].
  - intros [= <-]. split; [exact E|].
    exists [], l. repeat split. intros q [].
  - intro H. destruct (IH H) as (Hp & missed & later & -> & Hm & Ht).
    split; [exact Hp|].
    exists (c :: missed), later. cbn. split; [reflexivity|]. split.
    + intros q [<-|Hq]; [exact E | now apply Hm].
    + now rewrite Ht.
Qed.

Lemma search_none (w : World) (l : list string) :
  search w l = Resolved None <->
  (forall q, In q l -> existsFile w q = Resolved false).
Proof.
  induction l as [|c l IH]; cbn.
  - split; [intros _ q [] | reflexivity].
  - destruct (existsFile w c) as [m|[|]] eqn:E.
    + split; [discriminate|]. intro H. now rewrite (H c) in E by now left.
    + split; [discriminate|]. intro H. now rewrite (H c) in E by now left.
    + rewrite IH. split.
      * intros H q [<-|Hq]; [exact E | now apply H].
      * intros H q Hq. apply H. now right.
Qed.

Lemma testedUntilHit_all_false (w : World) (l : list string) :
  (forall p, In p l -> existsFile w p = Resolved false) ->
  testedUntilHit w l = l.
Proof.
  induction l as [|a l IH]; intro H; [reflexivity|].
  cbn. rewrite (H a) by now left.
  f_equal. apply IH. intros x Hx. apply H. now right.
Qed.

Lemma search_cut_short (w : World) (missed : list string) (p : string)
    (later : list string) (underlying : string) :
  (forall q, In q missed -> existsFile w q = Resolved false) ->
  existsFile w p = Rejected underlying ->
  search w (missed ++ p :: later) = Rejected underlying /\
  testedUntilHit w (missed ++ p :: later) = (missed ++ [p])%list.
Proof.
  intros Hm Hp. induction missed as [|c missed IH]; cbn.
  - rewrite Hp. split; reflexivity.
  - rewrite (Hm c) by now left.
    destruct IH as [-> ->]; [|split; reflexivity].
    intros q Hq. apply Hm. now right.
Qed.

Lemma search_rejected (w : World) (l : list string) (underlying : string) :
  search w l = Rejected underlying ->
  exists missed p later,
    l = (missed ++ p :: later)%list /\
    (forall q, In q missed -> existsFile w q = Resolved false) /\
    existsFile w p = Rejected underlying /\
    testedUntilHit w l = (missed ++ [p])%list.
Proof.
  induction l as [|c l IH]; [discriminate|].
  cbn. destruct (existsFile w c) as [m|[|]] eqn:E; [|discriminate|].
  - intros [= ->]. exists [], c, l. repeat split; [intros q []|exact E].
  - intro H. destruct (IH H) as (missed & p & later & -> & Hm & Hp & Ht).
    exists (c :: missed), p, later. cbn. split; [reflexivity|]. split.
    + intros q [<-|Hq]; [exact E | now apply Hm].
    + split; [exact Hp | now rewrite Ht].
Qed.

(** When every test answers, the search is the search for the first
    regular file. *)
Lemma search_answers (w : World) (l : list string) :
  (forall p, In p l -> answers w p) ->
  search w l = Resolved (find (isFile w) l).
Proof.
  induction l as [|c l IH]; intro H; [reflexivity|].
  cbn. destruct (H c (or_introl eq_refl)) as [b Hb].
  rewrite (isFile_answer w c b Hb), Hb.
  destruct b; [reflexivity|].
  apply IH. intros p Hp. apply H. now right.
Qed.

(** C5, as stated, fails when an existence test cannot be made: the code
    does not go on to the later locations but ends with the error of that
    test, although one of them holds the filter.  (And when the auxiliary
    directory is given as the empty string, its location is not tested.) *)
Lemma resolveFilterPath_aborted_search :
  let w := posixWorld ["/work/a.lua"; "/defaults/a.lua/x.lua"] in
  let candidates :=
    candidateLocationsAsGiven w "a.lua/x.lua" (Some "/defaults") in
  candidates = ["/work/a.lua/x.lua"; "/defaults/a.lua/x.lua";
                "/home/user/.pandoc/filters/a.lua/x.lua"] /\
  find (isFile w) candidates = Some "/defaults/a.lua/x.lua" /\
  resolveFilterPath w "a.lua/x.lua" (Some "/defaults") =
    (throw (Error "Not a directory (os error 20): stat '/work/a.lua/x.lua'"),
     [EvExists "/work/a.lua/x.lua"]) /\
  candidateLocationsAsGiven (posixWorld []) "f.lua" (Some EmptyString) =
    ["/work/f.lua"; "f.lua"; "/home/user/.pandoc/filters/f.lua"] /\
  existenceTests
    (trace (resolveFilterPath (posixWorld []) "f.lua" (Some EmptyString))) =
    ["/work/f.lua"; "/home/user/.pandoc/filters/f.lua"].
Proof. cbn. repeat split. Qed.

(** C5, amended.  For every filter name and auxiliary directory,
    [resolveFilterPath] tests the candidate locations in the documented
    order: the name itself when absolute, then under the working directory,
    then under the auxiliary directory when a non-empty one was supplied,
    then under the per-user filter directory <home>/.pandoc/filters.  It
    stops at the first test that says yes, returning that location, or at
    the first test that fails to answer, passing its error on; when every
    test says no it throws FilterNotFoundError.  So, as long as every test
    answers, it returns the first candidate that is an existing regular
    file. *)
Theorem resolveFilterPath_order (w : World) (name : string)
    (aux : option string) :
  let candidates := candidateLocations w name aux in
  outcome (resolveFilterPath w name aux) =
    match search w candidates with
    | Resolved (Some p) => ok p
    | Resolved None => throw (FilterNotFoundError name candidates)
    | Rejected underlying => throw (Error underlying)
    end /\
  existenceTests (trace (resolveFilterPath w name aux)) =
    testedUntilHit w candidates /\
  ((forall p, In p candidates -> answers w p) ->
   outcome (resolveFilterPath w name aux) =
     match find (isFile w) candidates with
     | Some p => ok p
     | None => throw (FilterNotFoundError name candidates)
     end).
Proof.
  intro candidates.
  destruct (resolveFilterPath_search w name aux) as [Ho Ht].
  fold candidates in Ho, Ht.
  split; [exact Ho|]. split; [exact Ht|].
  intro Hanswers. rewrite Ho, (search_answers w candidates Hanswers).
  now destruct (find (isFile w) candidates).
Qed.

Lemma resolveFilterPath_order_witness :
  let w := posixWorld ["/home/user/.pandoc/filters/wc.lua"] in
  outcome (resolveFilterPath w "wc.lua" (Some "/defaults")) =
    ok "/home/user/.pandoc/filters/wc.lua" /\
  existenceTests (trace (resolveFilterPath w "wc.lua" (Some "/defaults"))) =
    ["/work/wc.lua"; "/defaults/wc.lua"; "/home/user/.pandoc/filters/wc.lua"].
Proof.
  intro w.
  destruct (resolveFilterPath_order w "wc.lua" (Some "/defaults"))
    as (_ & Ht & Ho).
  split; [|exact Ht].
  rewrite Ho; [reflexivity|].
  intros p Hp. cbn in Hp.
  destruct Hp as [<-|[<-|[<-|[]]]]; eexists; reflexivity.
Defined.

(** An auxiliary directory given as the empty string is treated as not
    supplied. *)
Remark resolveFilterPath_empty_aux (w : World) (name : string) :
  resolveFilterPath w name (Some EmptyString) = resolveFilterPath w name None.
Proof. reflexivity. Qed.

(** C6, as stated, fails for a bare name without an auxiliary directory:
    the error lists two tried paths, not four.  It also fails when a
    location cannot be examined: the name matches no file anywhere, yet the
    error is that of the existence test, not FilterNotFoundError. *)
Lemma resolveFilterPath_two_tried_paths :
  let w := posixWorld [] in
  let tried := ["/work/nonexistent-filter.lua";
                "/home/user/.pandoc/filters/nonexistent-filter.lua"] in
  outcome (resolveFilterPath w "nonexistent-filter.lua" None) =
    throw (FilterNotFoundError "nonexistent-filter.lua" tried) /\
  length tried <> 4 /\
  let w' := posixWorld ["/work/a.lua"] in
  find (isFile w') (candidateLocations w' "a.lua/x.lua" None) = None /\
  outcome (resolveFilterPath w' "a.lua/x.lua" None) =
    throw (Error "Not a directory (os error 20): stat '/work/a.lua/x.lua'").
Proof.
  cbn. split; [reflexivity|]. split; [discriminate|]. split; reflexivity.
Qed.

(** C6, amended.  When every searched location is tested and none is
    there as a regular file, [resolveFilterPath] throws FilterNotFoundError,
    whose message quotes the filter name and lists, one per line and in the
    documented order, every path that was tried.  The list has one entry for
    each location that applies: the working directory and the per-user
    filter directory always, the name itself only when it is absolute, the
    auxiliary directory only when a non-empty one was supplied; so two to
    four entries, four exactly when the name is absolute and an auxiliary
    directory was supplied.  When instead a location cannot be examined,
    every earlier one having been tested and found missing, the error of
    that existence test is thrown, unchanged, and the search ends there. *)
Theorem resolveFilterPath_not_found (w : World) (name : string)
    (aux : option string) :
  let tried := candidateLocations w name aux in
  ((forall p, In p tried -> existsFile w p = Resolved false) ->
   outcome (resolveFilterPath w name aux) =
     throw (FilterNotFoundError name tried) /\
   existenceTests (trace (resolveFilterPath w name aux)) = tried) /\
  (forall missed p later underlying,
     tried = (missed ++ p :: later)%list ->
     (forall q, In q missed -> existsFile w q = Resolved false) ->
     existsFile w p = Rejected underlying ->
     outcome (resolveFilterPath w name aux) = throw (Error underlying) /\
     existenceTests (trace (resolveFilterPath w name aux))
       = (missed ++ [p])%list) /\
  cls (FilterNotFoundError name tried) = ClsFilterNotFoundError /\
  message (FilterNotFoundError name tried) =
    "Filter " ++ dq ++ name ++ dq ++ " not found. Searched in:" ++ nl ++
    joinWith nl (map (fun p => "  - " ++ p) tried) ++ nl ++ nl ++
    "Troubleshooting:" ++ nl ++
    "  1. Ensure the filter file exists and is in one of the searched paths" ++ nl ++
    "  2. Make sure the filter is executable (chmod +x)" ++ nl ++
    "  3. Try specifying the full path to the filter" ++ nl ++
    "  4. Check that ~/.pandoc/filters/ exists if using the default filter directory" /\
  length tried =
    2 + (if isAbsolute w name then 1 else 0)
      + (if truthy aux then 1 else 0) /\
  (length tried = 4 <-> isAbsolute w name = true /\ truthy aux = true).
Proof.
  intro tried.
  destruct (resolveFilterPath_search w name aux) as [Ho Ht].
  fold tried in Ho, Ht.
  assert (Hlen : length tried =
    2 + (if isAbsolute w name then 1 else 0)
      + (if truthy aux then 1 else 0)).
  { unfold tried, candidateLocations.
    destruct (isAbsolute w name), aux as [[|c d]|]; reflexivity. }
  split; [|split].
  - intro Hmiss. rewrite Ho, Ht.
    rewrite (proj2 (search_none w tried) Hmiss).
    split; [reflexivity | now apply testedUntilHit_all_false].
  - intros missed p later underlying Hsplit Hm Hp.
    rewrite Ho, Ht, Hsplit.
    destruct (search_cut_short w missed p later underlying Hm Hp) as [-> ->].
    split; reflexivity.
  - split; [reflexivity|]. split; [reflexivity|]. split; [exact Hlen|].
    split.
    + intro H4. rewrite H4 in Hlen.
      destruct (isAbsolute w name), (truthy aux); cbn in Hlen;
        try lia; split; reflexivity.
    + intros [Ha Hx]. rewrite Hlen, Ha, Hx. reflexivity.
Qed.

Lemma resolveFilterPath_not_found_witness :
  outcome (resolveFilterPath (posixWorld [])
             "/opt/filters/f.lua" (Some "/defaults")) =
    throw (FilterNotFoundError "/opt/filters/f.lua"
             ["/opt/filters/f.lua"; "/work/opt/filters/f.lua";
              "/defaults/opt/filters/f.lua";
              "/home/user/.pandoc/filters/opt/filters/f.lua"]) /\
  outcome (resolveFilterPath (posixWorld ["/work/opt"])
             "/opt/filters/f.lua" None) =
    throw (Error "Not a directory (os error 20): stat '/work/opt/filters/f.lua'").
Proof.
  split.
  - destruct (resolveFilterPath_not_found (posixWorld [])
                "/opt/filters/f.lua" (Some "/defaults")) as (Hnf & _).
    apply Hnf. intros p Hp. cbn in Hp.
    destruct Hp as [<-|[<-|[<-|[<-|[]]]]]; reflexivity.
  - destruct (resolveFilterPath_not_found (posixWorld ["/work/opt"])
                "/opt/filters/f.lua" None) as (_ & Hcut & _).
    refine (proj1 (Hcut ["/opt/filters/f.lua"] "/work/opt/filters/f.lua"
                     ["/home/user/.pandoc/filters/opt/filters/f.lua"]
                     _ eq_refl _ eq_refl)).
    intros q [<-|[]]; reflexivity.
Defined.

End FilterFacts.

(* ================================================================= *)
(** ** Defaults-document validator (src/defaults.ts) *)

Section DefaultsFacts.
Import Js Errors Effects Defaults Spec.











End DefaultsFacts.

(* ================================================================= *)
(** ** Conversion invoker (class PandocConverter) *)

Section ConverterFacts.
Import Js Errors Effects Validation Converter Spec.

Lemma onFailure_classifies {A : Type} (msg : string) :
  (onFailure (ThrowError (Error msg)) : M A) = raise (classifyFailure msg).
Proof.
  unfold onFailure, classifyFailure, indicatesMissingBinary, missingBinaryHints.
  cbn [message Error existsb]. rewrite orb_false_r, orb_assoc.
  destruct (_ || _ || _); reflexivity.
Qed.

Lemma indicatesMissingBinary_literal (msg hint : string) :
  In hint ["not found"; "no such file"; "enoent"; "ENOENT"] ->
  includes msg hint = true -> indicatesMissingBinary msg = true.
Proof.
  intros Hin H. apply includes_toLowerCase in H.
  unfold indicatesMissingBinary, missingBinaryHints. cbn [existsb].
  cbn in Hin.
  destruct Hin as [<-|[<-|[<-|[<-|[]]]]];
    match type of H with
    | includes _ (toLowerCase ?h) = true =>
        let h' := eval vm_compute in (toLowerCase h) in
        change (toLowerCase h) with h' in H
    end;
    rewrite H; rewrite ?orb_true_r; reflexivity.
Qed.

(** C8.  Both conversion paths classify a failed run by its message alone:
    when the message indicates that the engine binary could not be located
    or executed (it contains "not found", "no such file" or ENOENT, the
    test being made on the lower-cased message) the error is
    PandocNotFoundError with its fixed message; every other failure is a
    ConversionError whose message carries the engine's raw text.  A run
    that succeeds is returned as it is. *)
Theorem conversion_failure_classified (w : World) (this : PandocConverter)
    (inputFormat outputFormat : PandocFormat)
    (options : option ConversionOptions) :
  (forall content,
     outcome (convertText w this content inputFormat outputFormat options) =
       match spawn w (pandocPath this
                        :: buildArgs inputFormat outputFormat options)
               (Some content) with
       | Resolved out => ok out
       | Rejected msg => throw (classifyFailure msg)
       end) /\
  (forall inputFile outputFile,
     outcome (convertFile w this inputFile outputFile
                inputFormat outputFormat options) =
       match spawn w (pandocPath this
                        :: buildArgs inputFormat outputFormat options
                             ++ [inputFile; "-o"; outputFile])%list
               None with
       | Resolved _ => ok tt
       | Rejected msg => throw (classifyFailure msg)
       end) /\
  (forall msg,
     indicatesMissingBinary msg = true ->
     classifyFailure msg = PandocNotFoundError None /\
     cls (classifyFailure msg) = ClsPandocNotFoundError /\
     message (classifyFailure msg) =
       "Pandoc not found. Please install Pandoc from https://pandoc.org/installing.html " ++
       "or set the PANDOC_PATH environment variable to the location of the pandoc binary.") /\
  (forall msg,
     indicatesMissingBinary msg = false ->
     cls (classifyFailure msg) = ClsConversionError /\
     message (classifyFailure msg) = "Pandoc conversion failed: " ++ msg) /\
  (forall msg hint,
     In hint ["not found"; "no such file"; "enoent"; "ENOENT"] ->
     includes msg hint = true -> indicatesMissingBinary msg = true).
Proof.
  split; [|split; [|split; [|split]]].
  - intro content. unfold convertText, run, bind, tryCatch.
    destruct (spawn w _ _) as [msg|out]; cbn [ofLib]; [|reflexivity].
    rewrite onFailure_classifies. reflexivity.
  - intros inputFile outputFile. unfold convertFile, run, bind, tryCatch.
    destruct (spawn w _ _) as [msg|out]; cbn [ofLib]; [|reflexivity].
    rewrite onFailure_classifies. reflexivity.
  - intros msg H. unfold classifyFailure. rewrite H.
    split; [reflexivity|]. split; reflexivity.
  - intros msg H. unfold classifyFailure. rewrite H. split; reflexivity.
  - apply indicatesMissingBinary_literal.
Qed.

Lemma conversion_failure_classified_witness :
  classifyFailure "Command not found: /nonexistent/path/to/pandoc"
    = PandocNotFoundError None /\
  cls (classifyFailure "Exited with code: 64") = ClsConversionError /\
  indicatesMissingBinary "spawn pandoc ENOENT" = true.
Proof.
  destruct (conversion_failure_classified (posixWorld [])
              (mkPandocConverter "pandoc") Markdown HTML None)
    as (_ & _ & Hnf & Hce & Hlit).
  split; [|split].
  - apply Hnf. reflexivity.
  - apply Hce. reflexivity.
  - apply (Hlit _ "ENOENT"); [cbn; auto 6 | reflexivity].
Defined.

End ConverterFacts.

(* ================================================================= *)
(** ** Request handler (src/mcp.ts) *)

Section HandlerFacts.
Import Js Errors Effects Validation Converter Spec Notions Mcp.

(** Format validation throws UnsupportedFormatError and nothing else. *)
Lemma validateFormat_throws (s : string) (allowed : FormatArray) (t : Thrown) :
  validateFormat s allowed = inl t ->
  exists e, t = ThrowError e /\ cls e = ClsUnsupportedFormatError.
Proof.
  unfold validateFormat.
  destruct (find _ _) as [f|].
  - destruct (negb (arrIncludes allowed f)); [|discriminate].
    intros [= <-]. eexists. split; reflexivity.
  - intros [= <-]. eexists. split; reflexivity.
Qed.

(** The handler, for a request to the tool that carries arguments. *)
Lemma callTool_convert (w : World) (args : ToolArguments) :
  callTool w (mkCallToolRequest "convert-contents" args) =
  bind (lift (validateConversionParams (paramsOf args)))
    (fun formats =>
       let (fi, fo) := formats in
       bind (match asTruthy (defaults_file args) with
             | Some file =>
                 bind (Defaults.validateDefaultsFile w file)
                      (fun _ => ret (Some (dirname w file)))
             | None => ret None
             end)
         (fun defaultsFileDir =>
            bind (match filters args with
                  | Some names =>
                      bind (Filters.resolveFilterPaths w names defaultsFileDir)
                           (fun paths => ret (Some paths))
                  | None => ret None
                  end)
              (fun resolvedFilters =>
                 match asTruthy (contents args) with
                 | Some text =>
                     bind (convertText w (new w None) text fi fo
                             (Some (optionsOf args resolvedFilters)))
                          (fun result => ret (mkTextResult result))
                 | None =>
                     match asTruthy (input_file args),
                           asTruthy (output_file args) with
                     | Some inFile, Some outFile =>
                         bind (convertFile w (new w None) inFile outFile fi fo
                                 (Some (optionsOf args resolvedFilters)))
                              (fun _ => ret (mkTextResult
                                 ("Successfully converted " ++ inFile
                                  ++ " to " ++ outFile)))
                     | _, _ => raise (Error msgInvalidArguments)
                     end
                 end))).
Proof. reflexivity. Qed.

(** The handler starts with the Parameter Validator and, when that fails,
    ends with its error before doing anything else. *)
Lemma callTool_validation_failure (w : World) (args : ToolArguments)
    (t : Thrown) :
  validateConversionParams (paramsOf args) = inl t ->
  callTool w (mkCallToolRequest "convert-contents" args) = (inl t, []).
Proof. intro H. rewrite callTool_convert, H. reflexivity. Qed.

Lemma callTool_validated (w : World) (args : ToolArguments)
    (fi fo : PandocFormat) :
  validateConversionParams (paramsOf args) = ok (fi, fo) ->
  callTool w (mkCallToolRequest "convert-contents" args) =
  bind (match asTruthy (defaults_file args) with
        | Some file =>
            bind (Defaults.validateDefaultsFile w file)
                 (fun _ => ret (Some (dirname w file)))
        | None => ret None
        end)
       (fun defaultsFileDir =>
          bind (match filters args with
                | Some names =>
                    bind (Filters.resolveFilterPaths w names defaultsFileDir)
                         (fun paths => ret (Some paths))
                | None => ret None
                end)
               (fun resolvedFilters =>
                  match asTruthy (contents args) with
                  | Some text =>
                      bind (convertText w (new w None) text fi fo
                              (Some (optionsOf args resolvedFilters)))
                           (fun result => ret (mkTextResult result))
                  | None =>
                      match asTruthy (input_file args),
                            asTruthy (output_file args) with
                      | Some inFile, Some outFile =>
                          bind (convertFile w (new w None) inFile outFile fi fo
                                  (Some (optionsOf args resolvedFilters)))
                               (fun _ => ret (mkTextResult
                                  ("Successfully converted " ++ inFile
                                   ++ " to " ++ outFile)))
                      | _, _ => raise (Error msgInvalidArguments)
                      end
                  end)).
Proof.
  intro Hv. rewrite callTool_convert, Hv, bind_lift_ok. reflexivity.
Qed.

(** The steps of the handler before the conversion, when they pass. *)
Lemma callTool_preflight (w : World) (args : ToolArguments)
    (resolved : option (list string))
    (k : option (list string) -> M CallToolResult) :
  defaultsPass w args -> filtersResolveTo w args resolved ->
  bind (match asTruthy (defaults_file args) with
        | Some file =>
            bind (Defaults.validateDefaultsFile w file)
                 (fun _ => ret (Some (dirname w file)))
        | None => ret None
        end)
       (fun defaultsFileDir =>
          bind (match filters args with
                | Some names =>
                    bind (Filters.resolveFilterPaths w names defaultsFileDir)
                         (fun paths => ret (Some paths))
                | None => ret None
                end) k)
  = (outcome (k resolved),
     (preflightTrace w args ++ trace (k resolved))%list).
Proof.
  unfold defaultsPass, filtersResolveTo, preflightTrace, auxDirOf.
  intros Hd Hf.
  destruct (asTruthy (defaults_file args)) as [file|]; cbn [option_map] in *.
  - rewrite (bind_ok _ _ (Some (dirname w file)))
      by (now rewrite (bind_ok _ _ true)).
    rewrite (bind_ok _ (fun _ => ret (Some (dirname w file))) true) by exact Hd.
    cbn [trace snd ret]. rewrite app_nil_r.
    destruct (filters args) as [names|].
    + destruct Hf as (paths & Hf & ->).
      rewrite (bind_ok _ _ (Some paths)) by (now rewrite (bind_ok _ _ paths)).
      rewrite (bind_ok _ (fun ps => ret (Some ps)) paths) by exact Hf.
      cbn [trace snd ret fst outcome]. now rewrite app_nil_r, app_assoc.
    + subst resolved. rewrite (bind_ok _ _ None) by reflexivity.
      cbn [trace snd ret fst outcome]. now rewrite app_nil_r.
  - rewrite (bind_ok _ _ None) by reflexivity. cbn [trace snd ret app].
    destruct (filters args) as [names|].
    + destruct Hf as (paths & Hf & ->).
      rewrite (bind_ok _ _ (Some paths)) by (now rewrite (bind_ok _ _ paths)).
      rewrite (bind_ok _ (fun ps => ret (Some ps)) paths) by exact Hf.
      cbn [trace snd ret fst outcome]. now rewrite app_nil_r.
    + subst resolved. rewrite (bind_ok _ _ None) by reflexivity.
      reflexivity.
Qed.

(** Once the request validates, an error of the defaults check ends the
    handler. *)
Lemma callTool_defaults_failure (w : World) (args : ToolArguments)
    (fi fo : PandocFormat) (file : string) (t : Thrown) :
  validateConversionParams (paramsOf args) = ok (fi, fo) ->
  asTruthy (defaults_file args) = Some file ->
  outcome (Defaults.validateDefaultsFile w file) = inl t ->
  callTool w (mkCallToolRequest "convert-contents" args) =
    (inl t, trace (Defaults.validateDefaultsFile w file)).
Proof.
  intros Hv Hfile Hd.
  rewrite (callTool_validated w args fi fo Hv), Hfile.
  rewrite (bind_throw _ _ t) by (now rewrite (bind_throw _ _ t)).
  now rewrite (bind_throw _ _ t).
Qed.

(** When the defaults check passes, an error of the filter resolution ends
    the handler. *)
Lemma callTool_filters_failure (w : World) (args : ToolArguments)
    (fi fo : PandocFormat) (names : list string) (t : Thrown) :
  validateConversionParams (paramsOf args) = ok (fi, fo) ->
  defaultsPass w args ->
  filters args = Some names ->
  outcome (Filters.resolveFilterPaths w names (auxDirOf w args)) = inl t ->
  callTool w (mkCallToolRequest "convert-contents" args) =
    (inl t, preflightTrace w args).
Proof.
  intros Hv Hd Hnames Hf.
  rewrite (callTool_validated w args fi fo Hv).
  unfold defaultsPass in Hd. unfold preflightTrace, auxDirOf in *.
  rewrite Hnames.
  destruct (asTruthy (defaults_file args)) as [file|]; cbn [option_map] in *.
  - rewrite (bind_ok _ _ (Some (dirname w file)))
      by (now rewrite (bind_ok _ _ true)).
    rewrite (bind_ok _ (fun _ => ret (Some (dirname w file))) true)
      by exact Hd.
    rewrite (bind_throw _ _ t) by (now rewrite (bind_throw _ _ t)).
    rewrite (bind_throw _ _ t) by exact Hf.
    cbn [outcome trace fst snd ret]. now rewrite app_nil_r.
  - rewrite (bind_ok _ _ None) by reflexivity.
    rewrite (bind_throw _ _ t) by (now rewrite (bind_throw _ _ t)).
    rewrite (bind_throw _ _ t) by exact Hf.
    reflexivity.
Qed.

Lemma filtersPass_resolveTo (w : World) (args : ToolArguments) :
  filtersPass w args -> exists resolved, filtersResolveTo w args resolved.
Proof.
  unfold filtersPass, filtersResolveTo.
  destruct (filters args) as [names|]; [|now exists None].
  intros [paths H]. exists (Some paths), paths. now split.
Qed.

Lemma noSpawn_app (a b : list Event) :
  noSpawn (a ++ b) = noSpawn a && noSpawn b.
Proof. apply forallb_app. Qed.

Lemma noSpawn_bind {A B : Type} (m : M A) (f : A -> M B) :
  noSpawn (trace m) = true ->
  (forall a, noSpawn (trace (f a)) = true) ->
  noSpawn (trace (bind m f)) = true.
Proof.
  intros Hm Hf. unfold bind. destruct m as [[t|a] tr]; [exact Hm|].
  specialize (Hf a). destruct (f a) as [r tr'].
  unfold trace in *. cbn [snd] in *.
  now rewrite noSpawn_app, Hm, Hf.
Qed.

Lemma noSpawn_validateDefaultsFile (w : World) (path : string) :
  noSpawn (trace (Defaults.validateDefaultsFile w path)) = true.
Proof.
  unfold Defaults.validateDefaultsFile, exists_isFile, readTextFile, parse,
    bind, tryCatch.
  destruct (existsFile w path) as [m|[|]]; cbn [ofLib negb];
    [reflexivity| |reflexivity].
  destruct (fileText w path) as [m|text]; cbn [ofLib]; [reflexivity|].
  destruct (yamlParse w text) as [m|v]; cbn [ofLib]; [reflexivity|].
  destruct v as [| | | | |entries|name source]; try reflexivity.
  cbn [Defaults.checkParsed].
  destruct (Defaults.hasKey entries "from" && Defaults.hasKey entries "to");
    reflexivity.
Qed.

Lemma noSpawn_tryPath (w : World) (p : string) (rest : M string) :
  noSpawn (trace rest) = true ->
  noSpawn (trace (Filters.tryPath w p rest)) = true.
Proof.
  intro H. unfold Filters.tryPath. apply noSpawn_bind; [reflexivity|].
  intros [|]; [|exact H].
  apply noSpawn_bind; [|reflexivity].
  unfold Filters.makeExecutable.
  destruct (negb _); [|reflexivity].
  destruct (chmodFailure w p); reflexivity.
Qed.

Lemma noSpawn_resolveFilterPath (w : World) (name : string)
    (aux : option string) :
  noSpawn (trace (Filters.resolveFilterPath w name aux)) = true.
Proof.
  unfold Filters.resolveFilterPath.
  destruct (isAbsolute w name), (asTruthy aux);
    repeat apply noSpawn_tryPath; reflexivity.
Qed.

Lemma noSpawn_resolveFilterPaths_loop (w : World) (names : list string)
    (aux : option string) (acc : list string) :
  noSpawn (trace (Filters.resolveFilterPaths_loop w names aux acc)) = true.
Proof.
  revert acc. induction names as [|n names IH]; intro acc; [reflexivity|].
  cbn [Filters.resolveFilterPaths_loop].
  apply noSpawn_bind; [apply noSpawn_resolveFilterPath|].
  intro a. apply IH.
Qed.

Lemma asTruthy_false (o : option string) :
  truthy o = false -> asTruthy o = None.
Proof. destruct o as [[|c s]|]; cbn; congruence. Qed.

Lemma caseVariant_pdf_or_str (s d : string) :
  caseVariant s "pdf" = true -> or_str (Some s) d = s.
Proof. destruct s; [discriminate | reflexivity]. Qed.

(** C9, as stated, fails when the input-format token is not valid for
    input: the handler then ends with UnsupportedFormatError, not
    ValidationError. *)
Lemma callTool_pdf_inline_bad_input_format :
  let args := mkToolArguments (Some "# Title") None (Some "docbook")
                (Some "pdf") None None None None in
  callTool (posixWorld []) (mkCallToolRequest "convert-contents" args) =
    (throw (UnsupportedFormatError "docbook" None), []) /\
  cls (UnsupportedFormatError "docbook" None) <> ClsValidationError.
Proof. cbn. split; [reflexivity | discriminate]. Qed.

(** C9, amended.  For every request to the tool that asks for the pdf
    output format with inline content and no output file path, the handler
    ends with the error of the Parameter Validator, which it runs first, and
    does nothing else: no defaults check, no filter resolution, no engine
    subprocess.  Which error that is follows the order of the validator's
    rules: the "cannot specify both" ValidationError when the contents are
    not empty and an input file path is given as well; the "must specify
    either" ValidationError when the contents are the empty string and no
    input file path is given; otherwise the UnsupportedFormatError of the
    input-format check when the input-format token is not valid for input;
    otherwise, and in particular for non-empty contents alone with the input
    format left out, the "requires 'output_file'" ValidationError. *)
Theorem callTool_pdf_inline_stops_at_validation (w : World)
    (args : ToolArguments) (c s : string) :
  contents args = Some c ->
  output_format args = Some s ->
  caseVariant s "pdf" = true ->
  truthy (output_file args) = false ->
  exists e,
    validateConversionParams (paramsOf args) = throw e /\
    callTool w (mkCallToolRequest "convert-contents" args) = (throw e, []) /\
    (truthyStr c = true -> truthy (input_file args) = true ->
       e = ValidationError msgBoth) /\
    (truthyStr c = false -> truthy (input_file args) = false ->
       e = ValidationError msgNeither) /\
    (truthyStr c <> truthy (input_file args) ->
       (forall t,
          validateInputFormat (or_str (input_format args) "markdown") = inl t ->
          t = ThrowError e /\ cls e = ClsUnsupportedFormatError) /\
       (forall fi,
          validateInputFormat (or_str (input_format args) "markdown") = ok fi ->
          e = ValidationError (msgNeedsFile PDF))) /\
    (truthyStr c = true -> truthy (input_file args) = false ->
       input_format args = None ->
       e = ValidationError (msgNeedsFile PDF)) /\
    (forall msg, cls (ValidationError msg) = ClsValidationError).
Proof.
  intros Hc Hs Hpdf Hout.
  assert (Hfmt : validateOutputFormat (or_str (output_format args) "markdown")
                 = ok PDF).
  { rewrite Hs, (caseVariant_pdf_or_str _ _ Hpdf).
    apply (validateFormat_lowered "pdf" PDF s); [cbn; auto 12|].
    now apply caseVariant_eq. }
  assert (Hmain : exists e,
    validateConversionParams (paramsOf args) = throw e /\
    (truthyStr c = true -> truthy (input_file args) = true ->
       e = ValidationError msgBoth) /\
    (truthyStr c = false -> truthy (input_file args) = false ->
       e = ValidationError msgNeither) /\
    (truthyStr c <> truthy (input_file args) ->
       (forall t,
          validateInputFormat (or_str (input_format args) "markdown") = inl t ->
          t = ThrowError e /\ cls e = ClsUnsupportedFormatError) /\
       (forall fi,
          validateInputFormat (or_str (input_format args) "markdown") = ok fi ->
          e = ValidationError (msgNeedsFile PDF)))).
  { unfold validateConversionParams, paramsOf.
    cbn [Validation.contents inputFile inputFormat outputFormat outputFile].
    rewrite Hc. cbn [truthy].
    destruct (truthyStr c) eqn:Ec, (truthy (input_file args)) eqn:Ei;
      cbn [andb negb].
    - eexists. split; [reflexivity|].
      split; [reflexivity|]. split; [discriminate|]. intro H. now elim H.
    - destruct (validateInputFormat (or_str (input_format args) "markdown"))
        as [t|fi] eqn:Hin.
      + destruct (validateFormat_throws _ _ _ Hin) as (e & -> & He).
        exists e. split; [reflexivity|].
        split; [discriminate|]. split; [discriminate|]. intros _.
        split; [|discriminate]. intros t [= <-]. now split.
      + rewrite Hfmt.
        change (requiresFileOutput PDF) with true. rewrite Hout. cbn [negb andb].
        eexists. split; [reflexivity|].
        split; [discriminate|]. split; [discriminate|]. intros _.
        split; [discriminate | reflexivity].
    - destruct (validateInputFormat (or_str (input_format args) "markdown"))
        as [t|fi] eqn:Hin.
      + destruct (validateFormat_throws _ _ _ Hin) as (e & -> & He).
        exists e. split; [reflexivity|].
        split; [discriminate|]. split; [discriminate|]. intros _.
        split; [|discriminate]. intros t [= <-]. now split.
      + rewrite Hfmt.
        change (requiresFileOutput PDF) with true. rewrite Hout. cbn [negb andb].
        eexists. split; [reflexivity|].
        split; [discriminate|]. split; [discriminate|]. intros _.
        split; [discriminate | reflexivity].
    - eexists. split; [reflexivity|].
      split; [discriminate|]. split; [reflexivity|]. intro H. now elim H. }
  destruct Hmain as (e & Hv & Hboth & Hneither & Hone).
  exists e. split; [exact Hv|].
  split; [now apply callTool_validation_failure|].
  split; [exact Hboth|]. split; [exact Hneither|]. split; [exact Hone|].
  split; [|reflexivity].
  intros Hyes Hno Hnone.
  destruct Hone as [_ Hfile]; [congruence|].
  apply (Hfile Markdown). now rewrite Hnone.
Qed.

Lemma callTool_pdf_inline_stops_at_validation_witness :
  let args := mkToolArguments (Some "# Title") None None (Some "PDF")
                None None None None in
  callTool (posixWorld []) (mkCallToolRequest "convert-contents" args)
    = (throw (ValidationError (msgNeedsFile PDF)), []).
Proof.
  intro args.
  destruct (callTool_pdf_inline_stops_at_validation (posixWorld []) args
              "# Title" "PDF" eq_refl eq_refl eq_refl eq_refl)
    as (e & _ & Hcall & _ & _ & _ & Hdefault & _).
  rewrite <- (Hdefault eq_refl eq_refl eq_refl). exact Hcall.
Defined.

Lemma noSpawn_callTool_without_conversion (w : World) (args : ToolArguments) :
  truthy (contents args) = false ->
  truthy (output_file args) = false ->
  noSpawn (trace (callTool w (mkCallToolRequest "convert-contents" args)))
    = true /\
  exists t,
    outcome (callTool w (mkCallToolRequest "convert-contents" args)) = inl t.
Proof.
  intros Hc Ho. rewrite callTool_convert.
  rewrite (asTruthy_false _ Hc), (asTruthy_false _ Ho).
  split.
  - apply noSpawn_bind; [reflexivity|]. intros [fi fo].
    apply noSpawn_bind.
    { destruct (asTruthy (defaults_file args)); [|reflexivity].
      apply noSpawn_bind; [apply noSpawn_validateDefaultsFile | reflexivity]. }
    intro dir. apply noSpawn_bind.
    { destruct (filters args); [|reflexivity].
      apply noSpawn_bind; [apply noSpawn_resolveFilterPaths_loop | reflexivity]. }
    intro resolved. destruct (asTruthy (input_file args)); reflexivity.
  - apply bind_fails. intros [fi fo].
    apply bind_fails. intro dir. apply bind_fails. intro resolved.
    destruct (asTruthy (input_file args)); eexists; reflexivity.
Qed.

Lemma validateConversionParams_file_request (args : ToolArguments) :
  truthy (input_file args) = true ->
  truthy (contents args) = false ->
  validateConversionParams (paramsOf args) =
  match validateInputFormat (or_str (input_format args) "markdown") with
  | inl t => inl t
  | inr fi =>
      match validateOutputFormat (or_str (output_format args) "markdown") with
      | inl t => inl t
      | inr fo =>
          if requiresFileOutput fo && negb (truthy (output_file args))
          then throw (ValidationError (msgNeedsFile fo))
          else ok (fi, fo)
      end
  end.
Proof.
  intros Hi Hc. unfold validateConversionParams, paramsOf.
  cbn [Validation.contents inputFile inputFormat outputFormat outputFile].
  rewrite Hi, Hc. reflexivity.
Qed.

(** C10, as stated, fails twice over: with an input-format token that is
    not valid for input the parameter validation does not succeed, and with
    a defaults document that is refused the handler ends with
    DefaultsFileError, not with the plain Error. *)
Lemma callTool_file_request_other_failures :
  let w := posixWorld ["doc.md"] in
  let args1 := mkToolArguments None (Some "doc.md") (Some "pdf")
                 (Some "html") None None None None in
  let args2 := mkToolArguments None (Some "doc.md") None
                 (Some "html") None None (Some "missing.yaml") None in
  validateConversionParams (paramsOf args1) =
    throw (UnsupportedFormatError "pdf" (Some "for input")) /\
  validateConversionParams (paramsOf args2) = ok (Markdown, HTML) /\
  outcome (callTool w (mkCallToolRequest "convert-contents" args2)) =
    throw (DefaultsFileError "File not found" (Some "missing.yaml")) /\
  DefaultsFileError "File not found" (Some "missing.yaml") <>
    Error msgInvalidArguments.
Proof. cbn. repeat split. discriminate. Qed.

(** C10, amended.  Take a request that supplies a (non-empty) input file
    path, no inline contents, no output file path, and an output format that
    does not require file output.  If its input-format token is not valid
    for input, the handler ends with the error of that check, nothing having
    been done.  Otherwise (in particular if the input format is left out)
    parameter validation succeeds, and the handler goes on to the defaults
    check, when a defaults file is given, and then to the filter resolution,
    when filters are given: an error of the defaults check ends the handler
    with that error, the filters not having been searched; an error of the
    filter resolution ends it with that error; and when both steps pass,
    the handler, having performed them and nothing else, fails with the
    plain Error "Invalid arguments: must provide contents or both input_file
    and output_file", which is none of the typed errors.  In every case the
    handler fails and no conversion is attempted. *)
Theorem callTool_file_request_without_output_file (w : World)
    (args : ToolArguments) (fo : PandocFormat) :
  truthy (input_file args) = true ->
  truthy (contents args) = false ->
  truthy (output_file args) = false ->
  validateOutputFormat (or_str (output_format args) "markdown") = ok fo ->
  requiresFileOutput fo = false ->
  let request := mkCallToolRequest "convert-contents" args in
  (forall t,
     validateInputFormat (or_str (input_format args) "markdown") = inl t ->
     callTool w request = (inl t, [])) /\
  (forall fi,
     validateInputFormat (or_str (input_format args) "markdown") = ok fi ->
     validateConversionParams (paramsOf args) = ok (fi, fo) /\
     (forall file t,
        asTruthy (defaults_file args) = Some file ->
        outcome (Defaults.validateDefaultsFile w file) = inl t ->
        callTool w request =
          (inl t, trace (Defaults.validateDefaultsFile w file))) /\
     (forall names t,
        defaultsPass w args ->
        filters args = Some names ->
        outcome (Filters.resolveFilterPaths w names (auxDirOf w args)) = inl t ->
        callTool w request = (inl t, preflightTrace w args)) /\
     (defaultsPass w args -> filtersPass w args ->
        callTool w request =
          (throw (Error msgInvalidArguments), preflightTrace w args))) /\
  (input_format args = None ->
     validateConversionParams (paramsOf args) = ok (Markdown, fo)) /\
  cls (Error msgInvalidArguments) = ClsError /\
  noSpawn (trace (callTool w request)) = true /\
  (exists t, outcome (callTool w request) = inl t).
Proof.
  intros Hi Hc Ho Hfo Hreq request.
  pose proof (validateConversionParams_file_request args Hi Hc) as Hshape.
  rewrite Hfo in Hshape. unfold ok at 1 in Hshape. cbv iota in Hshape.
  rewrite Hreq in Hshape. cbn [andb] in Hshape.
  assert (Hval : forall fi,
     validateInputFormat (or_str (input_format args) "markdown") = ok fi ->
     validateConversionParams (paramsOf args) = ok (fi, fo))
    by (intros fi Hfi; rewrite Hshape, Hfi; reflexivity).
  split; [|split; [|split; [|split; [reflexivity|]]]].
  - intros t Ht. apply callTool_validation_failure.
    rewrite Hshape, Ht. reflexivity.
  - intros fi Hfi. specialize (Hval fi Hfi).
    split; [exact Hval|]. split; [|split].
    + intros file t. now apply (callTool_defaults_failure w args fi fo).
    + intros names t. now apply (callTool_filters_failure w args fi fo).
    + intros Hd Hf. destruct (filtersPass_resolveTo w args Hf) as [resolved Hr].
      unfold request.
      rewrite (callTool_validated w args fi fo Hval).
      rewrite (callTool_preflight w args resolved _ Hd Hr).
      rewrite (asTruthy_false _ Hc), (asTruthy_false _ Ho).
      destruct (asTruthy (input_file args));
        cbn [outcome trace fst snd raise]; now rewrite app_nil_r.
  - intro Hnone. apply Hval. now rewrite Hnone.
  - now apply noSpawn_callTool_without_conversion.
Qed.

Lemma callTool_file_request_without_output_file_witness :
  let w := posixWorld ["doc.md"; "defaults.yaml"; "/work/upper.lua"] in
  let args := mkToolArguments None (Some "doc.md") None (Some "html") None
                None (Some "defaults.yaml") (Some ["upper.lua"]) in
  let request := mkCallToolRequest "convert-contents" args in
  validateConversionParams (paramsOf args) = ok (Markdown, HTML) /\
  callTool w request =
    (throw (Error msgInvalidArguments),
     [EvExists "defaults.yaml"; EvReadTextFile "defaults.yaml";
      EvParse "title: Example"; EvExists "/work/upper.lua";
      EvChmod "/work/upper.lua" 493]) /\
  callTool (posixWorld ["doc.md"]) request =
    (throw (DefaultsFileError "File not found" (Some "defaults.yaml")),
     [EvExists "defaults.yaml"]) /\
  noSpawn (trace (callTool w request)) = true.
Proof.
  intros w args request.
  destruct (callTool_file_request_without_output_file w args HTML
              eq_refl eq_refl eq_refl eq_refl eq_refl)
    as (_ & Hsteps & Hval & _ & Hquiet & _).
  split; [exact (Hval eq_refl)|].
  split; [|split; [|exact Hquiet]].
  - destruct (Hsteps Markdown eq_refl) as (_ & _ & _ & Hplain).
    apply Hplain.
    + reflexivity.
    + exists ["/work/upper.lua"]. reflexivity.
  - destruct (callTool_file_request_without_output_file (posixWorld ["doc.md"])
                args HTML eq_refl eq_refl eq_refl eq_refl eq_refl)
      as (_ & Hsteps' & _).
    destruct (Hsteps' Markdown eq_refl) as (_ & Hdefaults & _).
    apply (Hdefaults "defaults.yaml"); reflexivity.
Defined.

End HandlerFacts.

(* ================================================================= *)
(** ** The embedding at work: cases of the repository's unit tests *)

Section UnitTests.
Import Js Errors Effects Validation Spec.

(** validation_test.ts *)
Example validateInputFormat_case_insensitive :
  validateInputFormat "MARKDOWN" = ok Markdown /\
  validateInputFormat "HtMl" = ok HTML.
Proof. split; reflexivity. Qed.

Example validateInputFormat_rejects_unknown :
  validateInputFormat "invalid"
    = throw (UnsupportedFormatError "invalid" None).
Proof. reflexivity. Qed.

Example validateOutputFormat_accepts_all :
  map validateOutputFormat
    ["markdown"; "html"; "txt"; "ipynb"; "odt"; "pdf"; "docx"; "rst";
     "latex"; "epub"]
  = map ok [Markdown; HTML; Text; Jupyter; ODT; PDF; DOCX; ReStructuredText;
            LaTeX; EPUB].
Proof. reflexivity. Qed.

Example validateConversionParams_accepts_file_conversion :
  validateConversionParams
    (mkConversionParams None (Some "input.md") "markdown" "html"
       None None None None) = ok (Markdown, HTML).
Proof. reflexivity. Qed.

Example validateConversionParams_requires_outputFile_for_DOCX :
  validateConversionParams
    (mkConversionParams (Some "# Hello") None "markdown" "docx"
       None None None None) = throw (ValidationError (msgNeedsFile DOCX)).
Proof. reflexivity. Qed.

Example supported_formats_count :
  length getSupportedFormats = 10 /\ length getInputFormats = 9 /\
  existsb (String.eqb "pdf") getInputFormats = false.
Proof. repeat split. Qed.

(** The filter tests of validation_test.ts *)
Example resolveFilterPaths_resolves_multiple :
  outcome (Filters.resolveFilterPaths
             (posixWorld ["/work/filter1.lua"; "/tmp/fixtures/filter2.lua"])
             ["filter1.lua"; "/tmp/fixtures/filter2.lua"] None)
  = ok ["/work/filter1.lua"; "/tmp/fixtures/filter2.lua"].
Proof. reflexivity. Qed.

Example resolveFilterPaths_throws_on_first_missing :
  outcome (Filters.resolveFilterPaths (posixWorld ["/work/filter1.lua"])
             ["filter1.lua"; "nonexistent.lua"] None)
  = throw (FilterNotFoundError "nonexistent.lua"
             ["/work/nonexistent.lua";
              "/home/user/.pandoc/filters/nonexistent.lua"]).
Proof. reflexivity. Qed.

(** converter_test.ts: the command line that is assembled *)
Example buildArgs_pdf_with_options :
  Converter.buildArgs Markdown PDF
    (Some (Converter.mkConversionOptions (Some ["--toc"]) (Some "ref.docx")
             (Some "defaults.yaml") (Some ["/work/a.lua"; "/work/b.lua"])))
  = ["-f"; "markdown"; "-t"; "pdf"; "--pdf-engine=xelatex"; "-V";
     "geometry:margin=1in"; "--reference-doc"; "ref.docx"; "--defaults";
     "defaults.yaml"; "--filter"; "/work/a.lua"; "--filter"; "/work/b.lua";
     "--toc"].
Proof. reflexivity. Qed.

(** An inline conversion through the handler: one subprocess, fed the
    contents on standard input. *)
Example callTool_inline_conversion :
  Mcp.callTool (posixWorld [])
    (Mcp.mkCallToolRequest "convert-contents"
       (Mcp.mkToolArguments (Some "# Hello World") None None (Some "html")
          None None None None))
  = (ok (Mcp.mkTextResult "<p>ok</p>"),
     [EvSpawn ["pandoc"; "-f"; "markdown"; "-t"; "html"]
        (Some "# Hello World")]).
Proof. reflexivity. Qed.

(** A file-to-file conversion through the handler. *)
Example callTool_file_conversion :
  Mcp.callTool (posixWorld ["in.md"])
    (Mcp.mkCallToolRequest "convert-contents"
       (Mcp.mkToolArguments None (Some "in.md") None (Some "docx")
          (Some "out.docx") None None None))
  = (ok (Mcp.mkTextResult "Successfully converted in.md to out.docx"),
     [EvSpawn ["pandoc"; "-f"; "markdown"; "-t"; "docx"; "in.md"; "-o";
               "out.docx"] None]).
Proof. reflexivity. Qed.

End UnitTests.

(* ================================================================= *)
(** * Further properties *)

(* ================================================================= *)
(** ** Format registry *)

Section RegistryProperties.
Import Js Errors Validation Spec Notions.

Lemma token_inj (f g : PandocFormat) : token f = token g -> f = g.
Proof. destruct f, g; intro H; try reflexivity; discriminate H. Qed.

Lemma arrIncludes_In (a : FormatArray) (f : PandocFormat) :
  arrIncludes a f = true <-> In f (elems a).
Proof.
  unfold arrIncludes. rewrite existsb_exists. split.
  - intros (g & Hg & E). apply string_eqb_eq, token_inj in E. now subst.
  - intro H. exists f. split; [exact H | apply string_eqb_refl].
Qed.

Lemma find_token (n : string) (f : PandocFormat) :
  find (fun g => (token g =? n)%string) (elems ALL_FORMATS) = Some f <->
  token f = n.
Proof.
  split.
  - intro H. apply find_some in H as [_ H]. now apply string_eqb_eq in H.
  - intros <-. destruct f; reflexivity.
Qed.

(** What a successful validation has established. *)
Lemma validateFormat_ok_inv (s : string) (a : FormatArray) (f : PandocFormat) :
  validateFormat s a = ok f <->
  token f = normalizedToken s /\ In f (elems a).
Proof.
  unfold validateFormat, normalizedToken.
  set (n := if (toLowerCase s =? "txt")%string then "plain" else toLowerCase s).
  split.
  - destruct (find _ _) as [g|] eqn:Hfind; [|discriminate].
    apply find_token in Hfind.
    destruct (arrIncludes a g) eqn:Hin; cbn [negb]; [|discriminate].
    intros [= <-]. split; [exact Hfind | now apply arrIncludes_In].
  - intros [Htok Hin]. apply find_token in Htok. rewrite Htok.
    apply arrIncludes_In in Hin. now rewrite Hin.
Qed.

(** X1.  A format validation that succeeds returns a member of the array
    of allowed formats it was given, namely the one whose token is the
    lower-cased input (plain for txt); in particular the input path never
    returns PDF. *)
Theorem validateFormat_returns_allowed (s : string) (a : FormatArray)
    (f : PandocFormat) :
  validateFormat s a = ok f ->
  In f (elems a) /\
  token f = normalizedToken s /\
  (a = INPUT_FORMATS -> f <> PDF).
Proof.
  intro H. apply validateFormat_ok_inv in H as [Htok Hin].
  split; [exact Hin|]. split; [exact Htok|].
  intros -> ->. cbn in Hin. intuition discriminate.
Qed.

Lemma validateFormat_returns_allowed_witness :
  In ODT (elems INPUT_FORMATS) /\ token ODT = normalizedToken "ODT".
Proof.
  destruct (validateFormat_returns_allowed "ODT" INPUT_FORMATS ODT eq_refl)
    as (Hin & Htok & _).
  split; [exact Hin | exact Htok].
Defined.

(** X2.  Normalization is idempotent: the token of a Format that a
    validation returned validates again, against the same array, to the same
    Format. *)
Theorem validateFormat_idempotent (s : string) (a : FormatArray)
    (f : PandocFormat) :
  validateFormat s a = ok f -> validateFormat (token f) a = ok f.
Proof.
  intro H. apply validateFormat_ok_inv in H as [_ Hin].
  apply validateFormat_ok_inv. split; [|exact Hin].
  destruct f; reflexivity.
Qed.

Lemma validateFormat_idempotent_witness :
  validateFormat (token Text) ALL_FORMATS = ok Text.
Proof.
  exact (validateFormat_idempotent "TXT" ALL_FORMATS Text eq_refl).
Defined.

(** X3.  Validation is case-insensitive: two strings with the same
    lower-casing are accepted or refused together, against any array, and
    when accepted yield the same Format. *)
Theorem validateFormat_case_insensitive (s1 s2 : string) (a : FormatArray) :
  toLowerCase s1 = toLowerCase s2 ->
  formatOf (validateFormat s1 a) = formatOf (validateFormat s2 a).
Proof.
  intro H. unfold validateFormat. rewrite H.
  destruct (find _ _) as [g|]; [|reflexivity].
  destruct (negb (arrIncludes a g)); reflexivity.
Qed.

Lemma validateFormat_case_insensitive_witness :
  formatOf (validateFormat "LaTeX" INPUT_FORMATS)
  = formatOf (validateFormat "latex" INPUT_FORMATS).
Proof.
  exact (validateFormat_case_insensitive "LaTeX" "latex" INPUT_FORMATS eq_refl).
Defined.

(** X4.  The words "for input" are tied to the identity of the array, not
    to its contents: against any array other than INPUT_FORMATS itself, a
    known token that is not allowed gets the very message of an unknown
    token. *)
Theorem validateFormat_context_by_identity (s : string) (a : FormatArray)
    (t : Thrown) :
  sameArray a INPUT_FORMATS = false ->
  validateFormat s a = inl t ->
  exists e,
    t = ThrowError e /\
    cls e = ClsUnsupportedFormatError /\
    message e = message (UnsupportedFormatError s None).
Proof.
  intros Hid. unfold validateFormat.
  destruct (find _ _) as [g|].
  - destruct (negb (arrIncludes a g)); [|discriminate].
    rewrite Hid. intros [= <-]. eexists. repeat split.
  - intros [= <-]. eexists. repeat split.
Qed.

Lemma validateFormat_context_by_identity_witness :
  exists e,
    validateFormat "pdf" (mkFormatArray 7 (elems INPUT_FORMATS))
      = inl (ThrowError e) /\
    message e = message (UnsupportedFormatError "pdf" None).
Proof.
  destruct (validateFormat_context_by_identity "pdf"
              (mkFormatArray 7 (elems INPUT_FORMATS))
              (ThrowError (UnsupportedFormatError "pdf" (Some EmptyString)))
              eq_refl eq_refl)
    as (e & He & _ & Hm).
  injection He as <-.
  eexists. split; [reflexivity | exact Hm].
Defined.

(** X5.  The advertised lists are exact: a string is in [getInputFormats]
    just when the input path accepts it as the token it already is, and in
    [getSupportedFormats] just when the output path does; the second list is
    the first followed by pdf. *)
Theorem advertised_formats_exact (t : string) :
  (In t getInputFormats <->
     exists f, validateInputFormat t = ok f /\ token f = t) /\
  (In t getSupportedFormats <->
     exists f, validateOutputFormat t = ok f /\ token f = t) /\
  getSupportedFormats = (getInputFormats ++ ["pdf"])%list.
Proof.
  assert (G : forall a, In t (map token (elems a)) <->
                exists f, validateFormat t a = ok f /\ token f = t).
  { intro a. rewrite in_map_iff. split.
    - intros (f & Htok & Hin). exists f. split; [|exact Htok].
      subst t. apply validateFormat_ok_inv. split; [|exact Hin].
      destruct f; reflexivity.
    - intros (f & Hv & Htok). exists f. split; [exact Htok|].
      now apply validateFormat_ok_inv in Hv as [_ Hin]. }
  split; [apply (G INPUT_FORMATS)|]. split; [apply (G ALL_FORMATS)|].
  reflexivity.
Qed.

End RegistryProperties.

(* ================================================================= *)
(** ** Parameter validator *)

Section ValidatorProperties.
Import Js Errors Validation Spec Notions.

(** X6.  A request that validates satisfies the request invariant: exactly
    one of [contents] and [inputFile] is supplied (non-empty), the input
    Format is input-capable and the output Format a member of the full set,
    each being the normalization of its token, and an output Format that
    requires file output comes with a non-empty [outputFile]. *)
Theorem validated_request_invariant (p : ConversionParams)
    (fi fo : PandocFormat) :
  validateConversionParams p = ok (fi, fo) ->
  xorb (truthy (contents p)) (truthy (inputFile p)) = true /\
  validateInputFormat (inputFormat p) = ok fi /\
  validateOutputFormat (outputFormat p) = ok fo /\
  In fi (elems INPUT_FORMATS) /\ fi <> PDF /\
  (requiresFileOutput fo = true -> truthy (outputFile p) = true).
Proof.
  unfold validateConversionParams.
  destruct (truthy (contents p)), (truthy (inputFile p)); cbn [andb negb];
    try discriminate;
    (destruct (validateInputFormat (inputFormat p)) as [t|fi'] eqn:Hi;
       [discriminate|];
     destruct (validateOutputFormat (outputFormat p)) as [t|fo'] eqn:Ho;
       [discriminate|];
     destruct (requiresFileOutput fo') eqn:Hr;
     destruct (truthy (outputFile p)) eqn:Hf; cbn [andb negb];
       try discriminate;
     intros [= <- <-];
     apply validateFormat_ok_inv in Hi as Hi'; destruct Hi' as [_ Hin];
     (split; [reflexivity|]; split; [reflexivity|]; split; [reflexivity|];
      split; [exact Hin|]; split;
      [intros ->; cbn in Hin; intuition discriminate | congruence])).
Qed.

Lemma validated_request_invariant_witness :
  let p := mkConversionParams None (Some "in.md") "rst" "EPUB"
             (Some "out.epub") None None None in
  validateInputFormat (inputFormat p) = ok ReStructuredText /\
  truthy (outputFile p) = true.
Proof.
  intro p.
  destruct (validated_request_invariant p ReStructuredText EPUB eq_refl)
    as (_ & Hi & _ & _ & _ & Hf).
  split; [exact Hi | exact (Hf eq_refl)].
Defined.

(** X7.  The validator throws nothing but its two typed errors: a
    ValidationError for a violation of the request shape, an
    UnsupportedFormatError for a format token. *)
Theorem validateConversionParams_error_kinds (p : ConversionParams)
    (t : Thrown) :
  validateConversionParams p = inl t ->
  exists e,
    t = ThrowError e /\
    (cls e = ClsValidationError \/ cls e = ClsUnsupportedFormatError).
Proof.
  unfold validateConversionParams.
  destruct (truthy (contents p) && truthy (inputFile p)).
  { intros [= <-]. eexists. split; [reflexivity | now left]. }
  destruct (negb (truthy (contents p)) && negb (truthy (inputFile p))).
  { intros [= <-]. eexists. split; [reflexivity | now left]. }
  destruct (validateInputFormat (inputFormat p)) as [ti|fi] eqn:Hi.
  { intros [= <-]. destruct (validateFormat_throws _ _ _ Hi) as (e & -> & He).
    exists e. split; [reflexivity | now right]. }
  destruct (validateOutputFormat (outputFormat p)) as [to|fo] eqn:Ho.
  { intros [= <-]. destruct (validateFormat_throws _ _ _ Ho) as (e & -> & He).
    exists e. split; [reflexivity | now right]. }
  destruct (requiresFileOutput fo && negb (truthy (outputFile p)));
    [|discriminate].
  intros [= <-]. eexists. split; [reflexivity | now left].
Qed.

Lemma validateConversionParams_error_kinds_witness :
  exists e,
    validateConversionParams
      (mkConversionParams (Some "x") None "markdown" "odt" None None None None)
      = inl (ThrowError e) /\
    (cls e = ClsValidationError \/ cls e = ClsUnsupportedFormatError).
Proof.
  destruct (validateConversionParams_error_kinds
              (mkConversionParams (Some "x") None "markdown" "odt"
                 None None None None)
              (ThrowError (ValidationError (msgNeedsFile ODT))) eq_refl)
    as (e & He & Hk).
  injection He as <-. eexists. split; [reflexivity | exact Hk].
Defined.

End ValidatorProperties.

(* ================================================================= *)
(** ** Filter path resolver *)

Section ResolverProperties.
Import Js Errors Effects Filters Spec Notions.

Lemma or_str_truthy (a : option string) (d : string) :
  truthyStr d = true -> truthyStr (or_str a d) = true.
Proof.
  intro Hd. destruct a as [s|]; [|exact Hd].
  cbn. destruct (truthyStr s) eqn:E; [exact E | exact Hd].
Qed.

(** X8.  The home directory is never the empty string, whatever the
    platform and the environment: an unset or empty variable falls through
    to the next one and at last to a root.  Off Windows only HOME counts,
    and the root is /; on Windows USERPROFILE comes first, then HOME, and
    the root is that of drive C. *)
Theorem getHomeDir_never_empty (w : World) :
  truthyStr (getHomeDir w) = true /\
  ((os w =? "windows")%string = false ->
     getHomeDir w = match asTruthy (env w "HOME") with
                    | Some h => h
                    | None => "/"
                    end) /\
  ((os w =? "windows")%string = true ->
     getHomeDir w = match asTruthy (env w "USERPROFILE") with
                    | Some u => u
                    | None =>
                        match asTruthy (env w "HOME") with
                        | Some h => h
                        | None => "C:\"
                        end
                    end).
Proof.
  unfold getHomeDir. split; [|split].
  - destruct (os w =? "windows")%string; now apply or_str_truthy.
  - intros ->. apply or_str_asTruthy.
  - intros ->. rewrite or_str_asTruthy. unfold or_opt.
    destruct (env w "USERPROFILE") as [[|c s]|];
      cbn [truthy truthyStr asTruthy]; reflexivity.
Qed.

Lemma getHomeDir_never_empty_witness :
  getHomeDir (posixWorld []) = "/home/user" /\
  getHomeDir (mkWorld "windows"
                (fun v => if (v =? "HOME")%string then Some "D:\home"
                          else if (v =? "USERPROFILE")%string
                               then Some EmptyString else None)
                "C:\work" (fun _ => false) posixJoin posixDirname
                (fun _ => Resolved false) (fun _ => Rejected "unreadable")
                (fun _ => None) (fun _ => Rejected "unparsable")
                (fun _ _ => Rejected "no engine")) = "D:\home".
Proof.
  split.
  - exact (proj1 (proj2 (getHomeDir_never_empty (posixWorld []))) eq_refl).
  - match goal with |- getHomeDir ?w = _ =>
      exact (proj2 (proj2 (getHomeDir_never_empty w)) eq_refl) end.
Defined.

(** X9.  Resolution is sound in both directions, for every name and every
    auxiliary directory (an empty one counting as none).  A path that is
    returned is one of the candidate locations, its existence test said yes,
    and every candidate before it was tested and said no.  A failure is one
    of two: FilterNotFoundError, thrown after every candidate was tested and
    said no; or the error of the existence test of a candidate that could
    not be examined, passed on unchanged, every candidate before it having
    been tested and said no and none after it having been tested. *)
Theorem resolveFilterPath_sound (w : World) (name : string)
    (aux : option string) :
  let candidates := candidateLocations w name aux in
  (forall p,
     outcome (resolveFilterPath w name aux) = ok p ->
     existsFile w p = Resolved true /\ In p candidates /\
     exists missed later,
       candidates = (missed ++ p :: later)%list /\
       (forall q, In q missed -> existsFile w q = Resolved false) /\
       existenceTests (trace (resolveFilterPath w name aux))
         = (missed ++ [p])%list) /\
  (forall t,
     outcome (resolveFilterPath w name aux) = inl t ->
     (t = ThrowError (FilterNotFoundError name candidates) /\
      (forall q, In q candidates -> existsFile w q = Resolved false) /\
      existenceTests (trace (resolveFilterPath w name aux)) = candidates) \/
     (exists missed p later underlying,
        candidates = (missed ++ p :: later)%list /\
        (forall q, In q missed -> existsFile w q = Resolved false) /\
        existsFile w p = Rejected underlying /\
        t = ThrowError (Error underlying) /\
        existenceTests (trace (resolveFilterPath w name aux))
          = (missed ++ [p])%list)).
Proof.
  intro candidates.
  destruct (resolveFilterPath_search w name aux) as [Ho Ht].
  fold candidates in Ho, Ht. split.
  - intros p Hp. rewrite Hp in Ho.
    destruct (search w candidates) as [m|[q|]] eqn:Hs; try discriminate.
    injection Ho as ->.
    destruct (search_found w candidates q Hs)
      as (Hq & missed & later & Hsplit & Hm & Htested).
    split; [exact Hq|]. split.
    + rewrite Hsplit. apply in_or_app. right. now left.
    + exists missed, later. split; [exact Hsplit|]. split; [exact Hm|].
      now rewrite Ht.
  - intros t Hf. rewrite Hf in Ho.
    destruct (search w candidates) as [m|[q|]] eqn:Hs; try discriminate.
    + right. injection Ho as ->.
      destruct (search_rejected w candidates m Hs)
        as (missed & p & later & Hsplit & Hm & Hp & Htested).
      exists missed, p, later, m. rewrite Ht. now repeat split.
    + left. injection Ho as ->.
      pose proof (proj1 (search_none w candidates) Hs) as Hnone.
      split; [reflexivity|]. split; [exact Hnone|].
      rewrite Ht. now apply testedUntilHit_all_false.
Qed.

Lemma resolveFilterPath_sound_witness :
  existsFile (posixWorld ["/home/user/.pandoc/filters/wc.lua"])
    "/home/user/.pandoc/filters/wc.lua" = Resolved true /\
  exists missed p,
    existsFile (posixWorld ["/work/wc.lua"]) p
      = Rejected "Not a directory (os error 20): stat '/work/wc.lua/x.lua'" /\
    existenceTests
      (trace (resolveFilterPath (posixWorld ["/work/wc.lua"])
                "/wc.lua/x.lua" None)) = (missed ++ [p])%list.
Proof.
  split.
  - exact (proj1 (proj1 (resolveFilterPath_sound
                           (posixWorld ["/home/user/.pandoc/filters/wc.lua"])
                           "wc.lua" (Some EmptyString))
                    "/home/user/.pandoc/filters/wc.lua" eq_refl)).
  - destruct (proj2 (resolveFilterPath_sound (posixWorld ["/work/wc.lua"])
                       "/wc.lua/x.lua" None)
                (ThrowError
                   (Error "Not a directory (os error 20): stat '/work/wc.lua/x.lua'"))
                eq_refl)
      as [(Hnf & _) | (missed & p & later & underlying & _ & _ & Hp & Ht & Htr)].
    + discriminate Hnf.
    + injection Ht as <-. now exists missed, p.
Defined.

(** X10.  An absolute path to an existing regular file resolves to itself
    after a single existence test, whatever lies in the other locations. *)
Theorem resolveFilterPath_absolute_existing (w : World) (name : string)
    (aux : option string) :
  isAbsolute w name = true -> isFile w name = true ->
  outcome (resolveFilterPath w name aux) = ok name /\
  existenceTests (trace (resolveFilterPath w name aux)) = [name].
Proof.
  intros Ha Hf. unfold resolveFilterPath. rewrite Ha.
  now apply tryPath_hit.
Qed.

Lemma resolveFilterPath_absolute_existing_witness :
  outcome (resolveFilterPath
             (posixWorld ["/opt/f.lua"; "/work/opt/f.lua"]) "/opt/f.lua" None)
  = ok "/opt/f.lua".
Proof.
  exact (proj1 (resolveFilterPath_absolute_existing
                  (posixWorld ["/opt/f.lua"; "/work/opt/f.lua"])
                  "/opt/f.lua" None eq_refl eq_refl)).
Defined.

Lemma chmodsItsResult_tryPath (w : World) (p : string) (rest : M string) :
  chmodsItsResult w rest -> chmodsItsResult w (tryPath w p rest).
Proof.
  intro H. unfold chmodsItsResult, tryPath, exists_isFile, bind.
  destruct (existsFile w p) as [m|[|]]; cbn [ofLib].
  - split; reflexivity.
  - unfold makeExecutable.
    destruct (os w =? "windows")%string; cbn [negb]; [split; reflexivity|].
    destruct (chmodFailure w p) as [error|] eqn:E; cbn; rewrite ?E;
      split; reflexivity.
  - unfold chmodsItsResult in H. destruct rest as [[t|q] tr]; exact H.
Qed.

Lemma search_withChmodFailure (w : World) (fails : string -> option string)
    (l : list string) :
  search (withChmodFailure w fails) l = search w l.
Proof.
  induction l as [|c l IH]; [reflexivity|].
  cbn. now rewrite IH.
Qed.

Lemma chmodsItsResult_raise (w : World) (e : JsError) :
  chmodsItsResult w (raise e).
Proof. split; reflexivity. Qed.

(** X11.  Making the filter executable is best effort.  On success
    [resolveFilterPath] sets mode 0o755 on the file it returns and on no
    other (on Windows on none), printing one warning if that fails; on
    failure it changes nothing.  Whether the permission change fails has no
    influence on what is returned or thrown. *)
Theorem resolveFilterPath_chmod_best_effort (w : World) (name : string)
    (aux : option string) :
  (match outcome (resolveFilterPath w name aux) with
   | inr p =>
       chmods (trace (resolveFilterPath w name aux)) =
         (if (os w =? "windows")%string then [] else [(p, 493)]) /\
       warnings (trace (resolveFilterPath w name aux)) =
         (if (os w =? "windows")%string then []
          else match chmodFailure w p with
               | Some error =>
                   ["Warning: Could not make filter executable: " ++ error]
               | None => []
               end)
   | inl _ =>
       chmods (trace (resolveFilterPath w name aux)) = [] /\
       warnings (trace (resolveFilterPath w name aux)) = []
   end) /\
  (forall fails,
     outcome (resolveFilterPath (withChmodFailure w fails) name aux)
     = outcome (resolveFilterPath w name aux)).
Proof.
  split.
  - change (chmodsItsResult w (resolveFilterPath w name aux)).
    unfold resolveFilterPath.
    destruct (isAbsolute w name), (asTruthy aux);
      repeat apply chmodsItsResult_tryPath; apply chmodsItsResult_raise.
  - intro fails.
    destruct (resolveFilterPath_search w name aux) as [Ho _].
    destruct (resolveFilterPath_search (withChmodFailure w fails) name aux)
      as [Ho' _].
    rewrite Ho, Ho'.
    change (candidateLocations (withChmodFailure w fails) name aux)
      with (candidateLocations w name aux).
    now rewrite search_withChmodFailure.
Qed.

Lemma resolveFilterPath_chmod_best_effort_witness :
  chmods (trace (resolveFilterPath (posixWorld ["/work/f.lua"]) "f.lua" None))
  = [("/work/f.lua", 493)].
Proof.
  exact (proj1 (proj1 (resolveFilterPath_chmod_best_effort
                         (posixWorld ["/work/f.lua"]) "f.lua" None))).
Defined.

Lemma loop_app_acc (w : World) (names : list string) (aux : option string)
    (acc : list string) :
  resolveFilterPaths_loop w names aux acc =
  bind (resolveFilterPaths_loop w names aux [])
       (fun ps => ret (acc ++ ps)%list).
Proof.
  revert acc. induction names as [|n names IH]; intro acc.
  - cbn. now rewrite app_nil_r.
  - cbn [resolveFilterPaths_loop].
    destruct (resolveFilterPath w n aux) as [[t|p] tr]; [reflexivity|].
    unfold bind at 1 3. rewrite (IH (acc ++ [p])%list), (IH ([] ++ [p])%list).
    destruct (resolveFilterPaths_loop w names aux []) as [[t|ps] tr'];
      cbn; [reflexivity|].
    now rewrite <- !app_assoc, !app_nil_r.
Qed.

Lemma resolveFilterPaths_cons (w : World) (n : string) (names : list string)
    (aux : option string) :
  resolveFilterPaths w (n :: names) aux =
  bind (resolveFilterPath w n aux)
       (fun p => bind (resolveFilterPaths w names aux)
                      (fun ps => ret (p :: ps))).
Proof.
  unfold resolveFilterPaths. cbn [resolveFilterPaths_loop].
  destruct (resolveFilterPath w n aux) as [[t|p] tr]; [reflexivity|].
  unfold bind at 1 2. now rewrite (loop_app_acc w names aux ([] ++ [p])%list).
Qed.

(** X12.  [resolveFilterPaths] is all or nothing and keeps the order.  When
    it returns, the list has one path per name, each the resolution of the
    name at the same position, and every name was searched.  When it throws,
    the error is that of the first name that does not resolve; the names
    before it resolved, and the names after it were never searched. *)
Theorem resolveFilterPaths_all_or_nothing (w : World) (names : list string)
    (aux : option string) :
  (forall paths,
     outcome (resolveFilterPaths w names aux) = ok paths ->
     Forall2 (fun n p => outcome (resolveFilterPath w n aux) = ok p)
       names paths /\
     length paths = length names /\
     trace (resolveFilterPaths w names aux) = resolutionTraces w names aux) /\
  (forall t,
     outcome (resolveFilterPaths w names aux) = inl t ->
     exists resolved n later,
       names = (resolved ++ n :: later)%list /\
       Forall (fun d => exists p, outcome (resolveFilterPath w d aux) = ok p)
         resolved /\
       outcome (resolveFilterPath w n aux) = inl t /\
       trace (resolveFilterPaths w names aux)
         = resolutionTraces w (resolved ++ [n]) aux).
Proof.
  induction names as [|n names [IHok IHfail]].
  - split.
    + intros paths [= <-]. split; [constructor|]. split; reflexivity.
    + intros t H. discriminate H.
  - rewrite resolveFilterPaths_cons. unfold resolutionTraces in *.
    destruct (resolveFilterPath w n aux) as [[tn|p] trn] eqn:Hn.
    + split; [intros paths H; discriminate H|].
      intros t [= <-]. exists [], n, names.
      rewrite Hn. cbn. rewrite Hn. cbn.
      split; [reflexivity|]. split; [constructor|].
      split; [reflexivity | now rewrite app_nil_r].
    + unfold bind at 1.
      destruct (resolveFilterPaths w names aux) as [[ts|ps] trs] eqn:Hs.
      * split; [intros paths H; discriminate H|].
        cbn. intros t [= <-].
        destruct (IHfail ts eq_refl) as (resolved & m & later & -> & Hr & Hm & Ht).
        exists (n :: resolved), m, later.
        split; [reflexivity|]. split.
        { constructor; [exists p; now rewrite Hn | exact Hr]. }
        split; [exact Hm|].
        cbn in Ht |- *. rewrite Hn. cbn. now rewrite Ht.
      * split; [|intros t H; discriminate H].
        cbn. intros paths [= <-].
        destruct (IHok ps eq_refl) as (Hall & Hlen & Ht).
        split; [constructor; [now rewrite Hn | exact Hall]|].
        split; [cbn; now rewrite Hlen|].
        cbn in Ht |- *. rewrite Hn. cbn. now rewrite Ht, app_nil_r.
Qed.

Lemma resolveFilterPaths_all_or_nothing_witness :
  let w := posixWorld ["/work/a.lua"; "/work/b.lua"] in
  Forall2 (fun n p => outcome (resolveFilterPath w n None) = ok p)
    ["a.lua"; "b.lua"] ["/work/a.lua"; "/work/b.lua"].
Proof.
  intro w.
  exact (proj1 (proj1 (resolveFilterPaths_all_or_nothing w
                         ["a.lua"; "b.lua"] None)
                  ["/work/a.lua"; "/work/b.lua"] eq_refl)).
Defined.

End ResolverProperties.

(* ================================================================= *)
(** ** Error messages (src/errors.ts) *)

Section MessageProperties.
Import Js Errors Spec Notions.

Lemma quoted_prefix (a b c x : string) :
  a ++ b ++ c ++ x = (a ++ b ++ c) ++ x.
Proof. now rewrite <- !append_assoc_local. Qed.

Lemma includes_joinWith (sep : string) (f : string -> string)
    (l : list string) (p : string) :
  In p l -> includes (joinWith sep (map f l)) (f p) = true.
Proof.
  induction l as [|a l IH]; intros []; cbn [map joinWith].
  - subst a. destruct (map f l).
    + apply includes_startsWith, startsWith_refl.
    + apply includes_here.
  - destruct (map f l) eqn:E; [destruct l; [contradiction | discriminate]|].
    rewrite <- E. apply includes_app_r, includes_app_r. rewrite E in *.
    now apply IH.
Qed.

(** X13.  The errors are self-describing.  The message of a
    FilterNotFoundError quotes the filter name and has a line for every
    searched path; that of an UnsupportedFormatError quotes the format as it
    was given; that of a DefaultsFileError carries the reason and, in
    parentheses, the path when it is not empty. *)
Theorem error_messages_carry_their_subject :
  (forall name paths,
     includes (message (FilterNotFoundError name paths))
       (dq ++ name ++ dq) = true /\
     forall p, In p paths ->
       includes (message (FilterNotFoundError name paths)) ("  - " ++ p)
         = true) /\
  (forall format context,
     includes (message (UnsupportedFormatError format context))
       (dq ++ format ++ dq) = true) /\
  (forall reason path,
     includes (message (DefaultsFileError reason path)) reason = true /\
     (truthy path = true ->
        includes (message (DefaultsFileError reason path))
          ("(" ++ or_str path EmptyString ++ ")") = true)).
Proof.
  split; [|split].
  - intros name paths. split.
    + cbn [message FilterNotFoundError].
      apply (includes_app_r "Filter ").
      rewrite quoted_prefix. apply includes_here.
    + intros p Hp. cbn [message FilterNotFoundError].
      do 6 apply includes_app_r. apply includes_app_l.
      now apply (includes_joinWith nl (fun q => "  - " ++ q) paths p).
  - intros format context. cbn [message UnsupportedFormatError].
    apply (includes_app_r "Unsupported format: ").
    rewrite quoted_prefix. apply includes_here.
  - intros reason path. split.
    + cbn [message DefaultsFileError].
      do 3 apply includes_app_r. apply includes_startsWith, startsWith_refl.
    + intro Hp. destruct path as [[|c f]|]; try discriminate.
      cbn [message DefaultsFileError truthyStr or_str].
      apply (includes_app_r "Defaults file error").
      apply includes_app_l.
      change (" (" ++ String c f ++ ")") with (" " ++ "(" ++ String c f ++ ")").
      apply (includes_app_r " "). apply includes_startsWith, startsWith_refl.
Qed.

Lemma error_messages_carry_their_subject_witness :
  includes (message (FilterNotFoundError "wc.lua" ["/work/wc.lua"; "/f/wc.lua"]))
    "  - /f/wc.lua" = true /\
  includes (message (DefaultsFileError "File not found" (Some "d.yaml")))
    "(d.yaml)" = true.
Proof.
  destruct error_messages_carry_their_subject as (Hf & _ & Hd).
  split.
  - apply (proj2 (Hf "wc.lua" ["/work/wc.lua"; "/f/wc.lua"])). cbn. auto.
  - apply (proj2 (Hd "File not found" (Some "d.yaml"))). reflexivity.
Defined.

End MessageProperties.

(* ================================================================= *)
(** ** Defaults-document validator *)

Section DefaultsProperties.
Import Js Errors Effects Defaults Spec Notions.

(** X14.  The validator touches nothing but the file it is given: it tests
    it once, reads it at most once (only when it is a regular file) and
    parses at most once (only what it read).  [readDefaultsFile], when it
    returns, has read and parsed that file a second time. *)
Theorem defaults_file_accesses (w : World) (path : string) :
  trace (validateDefaultsFile w path) =
    EvExists path ::
    (if isFile w path then
       EvReadTextFile path ::
       match fileText w path with
       | Resolved text => [EvParse text]
       | Rejected _ => []
       end
     else []) /\
  (forall v,
     outcome (readDefaultsFile w path) = ok v ->
     exists text,
       fileText w path = Resolved text /\
       yamlParse w text = Resolved v /\
       trace (readDefaultsFile w path) =
         [EvExists path; EvReadTextFile path; EvParse text;
          EvReadTextFile path; EvParse text]).
Proof.
  split.
  - unfold validateDefaultsFile, exists_isFile, readTextFile, parse, bind,
      tryCatch, isFile.
    destruct (existsFile w path) as [m|[|]]; cbn [ofLib negb];
      [reflexivity| |reflexivity].
    destruct (fileText w path) as [m|text]; cbn [ofLib]; [reflexivity|].
    destruct (yamlParse w text) as [m|v]; cbn [ofLib]; [reflexivity|].
    destruct v as [| | | | |entries|name source]; try reflexivity.
    cbn [checkParsed].
    destruct (hasKey entries "from" && hasKey entries "to"); reflexivity.
  - intros v. unfold readDefaultsFile, validateDefaultsFile, exists_isFile,
      readTextFile, parse, bind, tryCatch.
    destruct (existsFile w path) as [m|[|]]; cbn [ofLib negb];
      [discriminate| |discriminate].
    destruct (fileText w path) as [m|text] eqn:Ht; cbn [ofLib];
      [discriminate|].
    destruct (yamlParse w text) as [m|v'] eqn:Hp; cbn [ofLib];
      [discriminate|].
    destruct v' as [| | | | |entries|name source]; try discriminate.
    + cbn [checkParsed].
      destruct (hasKey entries "from" && hasKey entries "to");
        [discriminate|].
      cbn. intros [= <-].
      exists text. split; [reflexivity|]. split; [exact Hp | reflexivity].
    + cbn. intros [= <-].
      exists text. split; [reflexivity|]. split; [exact Hp | reflexivity].
Qed.

Lemma defaults_file_accesses_witness :
  trace (readDefaultsFile (posixWorld ["d.yaml"]) "d.yaml") =
    [EvExists "d.yaml"; EvReadTextFile "d.yaml"; EvParse "title: Example";
     EvReadTextFile "d.yaml"; EvParse "title: Example"].
Proof.
  destruct (proj2 (defaults_file_accesses (posixWorld ["d.yaml"]) "d.yaml")
              (YMap [("title", YStr "Example")]) eq_refl)
    as (text & Ht & _ & Htr).
  injection Ht as <-. exact Htr.
Defined.

End DefaultsProperties.

(* ================================================================= *)
(** ** Conversion invoker *)

Section InvokerProperties.
Import Js Errors Effects Validation Converter Spec Notions.



Lemma trimStart_cases (s : string) :
  trimStart s = EmptyString \/
  exists c r, trimStart s = String c r /\ isWhitespace c = false.
Proof.
  induction s as [|c s IH]; [now left|].
  cbn. destruct (isWhitespace c) eqn:E; [exact IH|].
  right. now exists c, s.
Qed.

Lemma trimEnd_idempotent (s : string) : trimEnd (trimEnd s) = trimEnd s.
Proof.
  induction s as [|c s IH]; [reflexivity|].
  cbn [trimEnd]. destruct (trimEnd s) as [|d r] eqn:E.
  - destruct (isWhitespace c) eqn:Ec; [reflexivity|].
    cbn. now rewrite Ec.
  - cbn [trimEnd]. cbn [trimEnd] in IH. rewrite IH. reflexivity.
Qed.

Lemma trimEnd_keeps_head (c : N) (r : string) :
  isWhitespace c = false -> exists r', trimEnd (String c r) = String c r'.
Proof.
  intro Hc. cbn. destruct (trimEnd r); [rewrite Hc|]; now eexists.
Qed.

Lemma trim_idempotent (s : string) : trim (trim s) = trim s.
Proof.
  unfold trim. destruct (trimStart_cases s) as [->|(c & r & -> & Hc)];
    [reflexivity|].
  destruct (trimEnd_keeps_head c r Hc) as [r' E].
  rewrite E. cbn [trimStart]. rewrite Hc, <- E. apply trimEnd_idempotent.
Qed.

Lemma singleLine_firstLine (s : string) : singleLine (firstLine s) = true.
Proof.
  induction s as [|c s IH]; [reflexivity|].
  cbn. destruct (c =? 10)%N eqn:E; [reflexivity|].
  cbn. now rewrite E, IH.
Qed.

Lemma singleLine_trimStart (s : string) :
  singleLine s = true -> singleLine (trimStart s) = true.
Proof.
  induction s as [|c s IH]; [reflexivity|].
  intro H. cbn. destruct (isWhitespace c); [|exact H].
  cbn in H. apply andb_true_iff in H as [_ H]. now apply IH.
Qed.

Lemma singleLine_trimEnd (s : string) :
  singleLine s = true -> singleLine (trimEnd s) = true.
Proof.
  induction s as [|c s IH]; [reflexivity|].
  intro H. cbn in H. apply andb_true_iff in H as [Hc H].
  specialize (IH H). cbn [trimEnd].
  destruct (trimEnd s) as [|d r].
  - destruct (isWhitespace c); [reflexivity|]. cbn. now rewrite Hc.
  - cbn [singleLine]. rewrite Hc. exact IH.
Qed.

Lemma firstLine_singleLine (s : string) :
  singleLine s = true -> firstLine s = s.
Proof.
  induction s as [|c s IH]; [reflexivity|].
  intro H. cbn in H. apply andb_true_iff in H as [Hc H].
  apply negb_true_iff in Hc. cbn. now rewrite Hc, (IH H).
Qed.

Lemma onVersionFailure_classifies {A : Type} (msg : string) :
  (onVersionFailure (ThrowError (Error msg)) : M A) =
  if indicatesMissingBinary msg then raise (PandocNotFoundError None)
  else rethrow (ThrowError (Error msg)).
Proof.
  unfold onVersionFailure, indicatesMissingBinary, missingBinaryHints.
  cbn [message Error existsb]. rewrite orb_false_r, orb_assoc.
  destruct (_ || _ || _); reflexivity.
Qed.

(** X16.  The version string is clean: when [getPandocVersion] returns, its
    result is the trimmed first line of the engine's output, so it holds no
    line feed and trimming or cutting it again changes nothing. *)
Theorem getPandocVersion_clean (w : World) (this : PandocConverter)
    (v : string) :
  outcome (getPandocVersion w this) = ok v ->
  (exists out, versionQuery w this = Resolved out /\
               v = trim (firstLine out)) /\
  singleLine v = true /\ firstLine v = v /\ trim v = v.
Proof.
  unfold getPandocVersion, versionQuery, run, bind, tryCatch.
  destruct (spawn w _ _) as [msg|out]; cbn [ofLib].
  - rewrite onVersionFailure_classifies.
    destruct (indicatesMissingBinary msg); discriminate.
  - cbn. intros [= <-].
    assert (S : singleLine (trim (firstLine out)) = true)
      by (apply singleLine_trimEnd, singleLine_trimStart,
            singleLine_firstLine).
    split; [now exists out|]. split; [exact S|].
    split; [now apply firstLine_singleLine | apply trim_idempotent].
Qed.

Lemma getPandocVersion_clean_witness :
  let w := withSpawn (posixWorld [])
             (fun _ _ => Resolved ("  pandoc 3.1.9 " ++ nl ++ "Features: +lua")) in
  trim "pandoc 3.1.9" = "pandoc 3.1.9".
Proof.
  intro w.
  exact (proj2 (proj2 (proj2 (getPandocVersion_clean w
                                (mkPandocConverter "pandoc")
                                "pandoc 3.1.9" eq_refl)))).
Defined.

(** X17.  The two engine probes agree and differ from a conversion in how
    they fail.  [isPandocAvailable] never throws and answers true exactly
    when the version query runs; [getPandocVersion] returns exactly then.
    When the query fails, [getPandocVersion] throws PandocNotFoundError if
    the message indicates a missing binary and otherwise lets the original
    error through unchanged; it never makes a ConversionError of it.  Each
    probe spawns the engine once, with the single argument --version. *)
Theorem engine_probes_agree (w : World) (this : PandocConverter) :
  outcome (isPandocAvailable w this) =
    ok (match outcome (getPandocVersion w this) with
        | inr _ => true
        | inl _ => false
        end) /\
  outcome (isPandocAvailable w this) =
    ok (match versionQuery w this with
        | Resolved _ => true
        | Rejected _ => false
        end) /\
  (forall msg,
     versionQuery w this = Rejected msg ->
     outcome (getPandocVersion w this) =
       throw (if indicatesMissingBinary msg then PandocNotFoundError None
              else Error msg)) /\
  trace (isPandocAvailable w this)
    = [EvSpawn [pandocPath this; "--version"] None] /\
  trace (getPandocVersion w this)
    = [EvSpawn [pandocPath this; "--version"] None].
Proof.
  unfold isPandocAvailable, getPandocVersion, versionQuery, run, bind,
    tryCatch.
  destruct (spawn w _ _) as [msg|out]; cbn [ofLib].
  - rewrite onVersionFailure_classifies.
    split; [|split; [|split; [|split]]].
    + destruct (indicatesMissingBinary msg); reflexivity.
    + reflexivity.
    + intros m [= <-]. destruct (indicatesMissingBinary msg); reflexivity.
    + reflexivity.
    + destruct (indicatesMissingBinary msg); reflexivity.
  - cbn. split; [reflexivity|]. split; [reflexivity|].
    split; [discriminate | split; reflexivity].
Qed.

Lemma engine_probes_agree_witness :
  let w := withSpawn (posixWorld [])
             (fun _ _ => Rejected "Exited with code: 1") in
  outcome (getPandocVersion w (mkPandocConverter "pandoc"))
    = throw (Error "Exited with code: 1").
Proof.
  intro w.
  exact (proj1 (proj2 (proj2 (engine_probes_agree w
                                (mkPandocConverter "pandoc"))))
           "Exited with code: 1" eq_refl).
Defined.

(** X18.  A converter always has a command to run: the path is never empty.
    A non-empty constructor argument is used as it is; without one a
    non-empty PANDOC_PATH is used; without either the command is pandoc. *)
Theorem converter_path_never_empty (w : World) (path : option string) :
  truthyStr (pandocPath (new w path)) = true /\
  pandocPath (new w path) =
    match asTruthy path, asTruthy (env w "PANDOC_PATH") with
    | Some p, _ => p
    | None, Some e => e
    | None, None => "pandoc"
    end.
Proof.
  unfold new. cbn [pandocPath]. split; [now apply or_str_truthy|].
  rewrite or_str_asTruthy. unfold or_opt.
  destruct path as [[|c p]|]; cbn [truthy truthyStr asTruthy]; reflexivity.
Qed.

End InvokerProperties.

(* ================================================================= *)
(** ** Request handler *)

Section HandlerProperties.
Import Js Errors Effects Validation Converter Spec Notions Mcp.

Lemma spawnsLast_bind {A B : Type} (m : M A) (f : A -> M B) :
  noSpawn (trace m) = true ->
  (forall a, spawnsLast (f a)) ->
  spawnsLast (bind m f).
Proof.
  intros Hm Hf. destruct m as [[t|a] tr]; unfold trace in Hm; cbn [snd] in Hm.
  - exists tr. split; [exact Hm|]. left. split; [reflexivity | now exists t].
  - destruct (Hf a) as (before & Hb & H). unfold bind.
    destruct (f a) as [r tr']. unfold trace, outcome in *. cbn [fst snd] in *.
    exists (tr ++ before)%list. split; [now rewrite noSpawn_app, Hm, Hb|].
    destruct H as [[-> Ht] | (argv & stdin & -> & He)].
    + left. split; [reflexivity | exact Ht].
    + right. exists argv, stdin. split; [now rewrite app_assoc | exact He].
Qed.

Lemma spawnsLast_raise {A : Type} (e : JsError) : spawnsLast (raise e : M A).
Proof.
  exists []. split; [reflexivity|]. left. split; [reflexivity|].
  now eexists.
Qed.

Lemma classifyFailure_kind (msg : string) :
  cls (classifyFailure msg) = ClsPandocNotFoundError \/
  cls (classifyFailure msg) = ClsConversionError.
Proof.
  unfold classifyFailure. destruct (indicatesMissingBinary msg);
    [now left | now right].
Qed.

Lemma convertText_run (w : World) (this : PandocConverter) (content : string)
    (fi fo : PandocFormat) (options : option ConversionOptions) :
  convertText w this content fi fo options =
  (match spawn w (pandocPath this :: buildArgs fi fo options)
           (Some content) with
   | Resolved out => ok out
   | Rejected msg => throw (classifyFailure msg)
   end,
   [EvSpawn (pandocPath this :: buildArgs fi fo options) (Some content)]).
Proof.
  unfold convertText, run, bind, tryCatch.
  destruct (spawn w _ _) as [msg|out]; cbn [ofLib]; [|reflexivity].
  rewrite onFailure_classifies. reflexivity.
Qed.

Lemma convertFile_run (w : World) (this : PandocConverter)
    (inFile outFile : string) (fi fo : PandocFormat)
    (options : option ConversionOptions) :
  convertFile w this inFile outFile fi fo options =
  (match spawn w (pandocPath this :: buildArgs fi fo options
                    ++ [inFile; "-o"; outFile])%list None with
   | Resolved _ => ok tt
   | Rejected msg => throw (classifyFailure msg)
   end,
   [EvSpawn (pandocPath this :: buildArgs fi fo options
               ++ [inFile; "-o"; outFile])%list None]).
Proof.
  unfold convertFile, run, bind, tryCatch.
  destruct (spawn w _ _) as [msg|out]; cbn [ofLib]; [|reflexivity].
  rewrite onFailure_classifies. reflexivity.
Qed.

Lemma spawnsLast_after_run {A B C : Type} (r : LibResult A) (ev : Event)
    (g : A -> B) (k : B -> C) :
  isSpawn ev = true ->
  spawnsLast (bind (match r with
                    | Resolved a => ok (g a)
                    | Rejected msg => throw (classifyFailure msg)
                    end, [ev])
                   (fun b => ret (k b))).
Proof.
  intro Hev. destruct ev as [| | | | |argv stdin]; try discriminate.
  exists []. split; [reflexivity|]. right. exists argv, stdin.
  destruct r as [msg|a]; cbn.
  - split; [reflexivity|]. right. eexists. split; [reflexivity|].
    apply classifyFailure_kind.
  - split; [reflexivity|]. left. now eexists.
Qed.

(** X19.  Whatever the request, the handler spawns at most one subprocess
    and it is the last thing it does: everything before it (validation,
    defaults check, filter resolution) spawns nothing.  The handler cannot
    return a result without having spawned the engine, and once the engine
    was spawned the only errors left are the two engine errors; so a
    failure of any other kind means no subprocess was started. *)
Theorem callTool_spawns_last (w : World) (request : CallToolRequest) :
  spawnsLast (callTool w request).
Proof.
  unfold callTool.
  destruct (negb (name request =? "convert-contents")%string);
    [apply spawnsLast_raise|].
  destruct (arguments request) as [args|]; [|apply spawnsLast_raise].
  apply spawnsLast_bind; [reflexivity|]. intros [fi fo].
  apply spawnsLast_bind.
  { destruct (asTruthy (defaults_file args)); [|reflexivity].
    apply noSpawn_bind; [apply noSpawn_validateDefaultsFile | reflexivity]. }
  intro dir. apply spawnsLast_bind.
  { destruct (filters args); [|reflexivity].
    apply noSpawn_bind; [apply noSpawn_resolveFilterPaths_loop | reflexivity]. }
  intro resolved.
  destruct (asTruthy (contents args)) as [text|].
  - rewrite convertText_run.
    now apply (spawnsLast_after_run _ _ (fun out : string => out)).
  - destruct (asTruthy (input_file args)) as [inFile|],
             (asTruthy (output_file args)) as [outFile|];
      try apply spawnsLast_raise.
    rewrite convertFile_run.
    now apply (spawnsLast_after_run _ _ (fun _ : string => tt)).
Qed.

(** X20.  The inline path, end to end.  For a request with non-empty
    contents that validates, whose defaults check passes and whose filters
    resolve, the handler runs the engine once, after the pre-flight steps:
    the command is PANDOC_PATH (pandoc when unset), the arguments are those
    assembled from the two validated formats, the reference document and
    defaults file as given, and the resolved filter paths in order; the
    contents go to standard input.  The captured output is returned as the
    text of the response, and a failed run surfaces as one of the two engine
    errors. *)
Theorem callTool_inline_path (w : World) (args : ToolArguments)
    (content : string) (fi fo : PandocFormat)
    (resolved : option (list string)) :
  asTruthy (contents args) = Some content ->
  validateConversionParams (paramsOf args) = ok (fi, fo) ->
  defaultsPass w args -> filtersResolveTo w args resolved ->
  let argv := engineCommand w
                :: buildArgs fi fo (Some (optionsOf args resolved)) in
  callTool w (mkCallToolRequest "convert-contents" args) =
  (match spawn w argv (Some content) with
   | Resolved out => ok (mkTextResult out)
   | Rejected msg => throw (classifyFailure msg)
   end,
   (preflightTrace w args ++ [EvSpawn argv (Some content)])%list).
Proof.
  intros Hc Hv Hd Hf argv.
  rewrite (callTool_validated w args fi fo Hv).
  rewrite (callTool_preflight w args resolved _ Hd Hf).
  rewrite Hc, convertText_run. fold (engineCommand w). fold argv.
  destruct (spawn w argv (Some content)); reflexivity.
Qed.

Lemma callTool_inline_path_witness :
  let w := posixWorld ["d.yaml"; "/work/up.lua"] in
  let args := mkToolArguments (Some "# Hi") None None (Some "rst") None
                (Some "ref.docx") (Some "d.yaml") (Some ["up.lua"]) in
  callTool w (mkCallToolRequest "convert-contents" args) =
  (ok (mkTextResult "<p>ok</p>"),
   [EvExists "d.yaml"; EvReadTextFile "d.yaml"; EvParse "title: Example";
    EvExists "/work/up.lua"; EvChmod "/work/up.lua" 493;
    EvSpawn ["pandoc"; "-f"; "markdown"; "-t"; "rst"; "--reference-doc";
             "ref.docx"; "--defaults"; "d.yaml"; "--filter"; "/work/up.lua"]
      (Some "# Hi")]).
Proof.
  intros w args.
  refine (callTool_inline_path w args "# Hi" Markdown ReStructuredText
            (Some ["/work/up.lua"]) eq_refl eq_refl eq_refl _).
  exists ["/work/up.lua"]. split; reflexivity.
Defined.

(** X21.  The file path, end to end.  For a request without contents, with
    non-empty input and output file paths, that validates and passes the
    pre-flight steps, the handler runs the engine once with the assembled
    arguments followed by the input path, -o and the output path, and
    nothing on standard input; the response is the confirmation naming the
    two paths, whatever the engine printed. *)
Theorem callTool_file_path (w : World) (args : ToolArguments)
    (inFile outFile : string) (fi fo : PandocFormat)
    (resolved : option (list string)) :
  asTruthy (contents args) = None ->
  asTruthy (input_file args) = Some inFile ->
  asTruthy (output_file args) = Some outFile ->
  validateConversionParams (paramsOf args) = ok (fi, fo) ->
  defaultsPass w args -> filtersResolveTo w args resolved ->
  let argv := (engineCommand w
                 :: buildArgs fi fo (Some (optionsOf args resolved))
                 ++ [inFile; "-o"; outFile])%list in
  callTool w (mkCallToolRequest "convert-contents" args) =
  (match spawn w argv None with
   | Resolved _ =>
       ok (mkTextResult
             ("Successfully converted " ++ inFile ++ " to " ++ outFile))
   | Rejected msg => throw (classifyFailure msg)
   end,
   (preflightTrace w args ++ [EvSpawn argv None])%list).
Proof.
  intros Hc Hi Ho Hv Hd Hf argv.
  rewrite (callTool_validated w args fi fo Hv).
  rewrite (callTool_preflight w args resolved _ Hd Hf).
  rewrite Hc, Hi, Ho, convertFile_run. fold (engineCommand w).
  change (engineCommand w
            :: buildArgs fi fo (Some (optionsOf args resolved))
            ++ [inFile; "-o"; outFile])%list with argv.
  destruct (spawn w argv None); reflexivity.
Qed.

Lemma callTool_file_path_witness :
  let w := posixWorld ["in.md"] in
  let args := mkToolArguments None (Some "in.md") None (Some "pdf")
                (Some "out.pdf") None None None in
  callTool w (mkCallToolRequest "convert-contents" args) =
  (ok (mkTextResult "Successfully converted in.md to out.pdf"),
   [EvSpawn ["pandoc"; "-f"; "markdown"; "-t"; "pdf";
             "--pdf-engine=xelatex"; "-V"; "geometry:margin=1in";
             "in.md"; "-o"; "out.pdf"] None]).
Proof.
  intros w args.
  exact (callTool_file_path w args "in.md" "out.pdf" Markdown PDF None
           eq_refl eq_refl eq_refl eq_refl I eq_refl).
Defined.

Lemma validateConversionParams_outputFile (args : ToolArguments)
    (o1 o2 : option string) :
  truthy o1 = truthy o2 ->
  validateConversionParams (paramsOf (withField "output_file" o1 args)) =
  validateConversionParams (paramsOf (withField "output_file" o2 args)).
Proof.
  intro H. unfold validateConversionParams, paramsOf, withField.
  cbn. now rewrite H.
Qed.

(** X22.  With inline contents the output file is never used.  Two requests
    that carry non-empty contents and differ only in the (non-empty) output
    file path they name are handled identically, to the last event: the
    path is not passed to the engine and no file is named in the response,
    even for an output format that requires file output. *)
Theorem callTool_inline_ignores_output_file (w : World)
    (args : ToolArguments) (out1 out2 : string) :
  truthy (contents args) = true ->
  truthyStr out1 = true -> truthyStr out2 = true ->
  callTool w (mkCallToolRequest "convert-contents"
                (withField "output_file" (Some out1) args)) =
  callTool w (mkCallToolRequest "convert-contents"
                (withField "output_file" (Some out2) args)).
Proof.
  intros Hc H1 H2.
  pose proof (validateConversionParams_outputFile args (Some out1) (Some out2))
    as Hv. cbn [truthy] in Hv. rewrite H1, H2 in Hv. specialize (Hv eq_refl).
  rewrite !callTool_convert, Hv.
  destruct (asTruthy (contents args)) as [content|] eqn:E.
  - unfold withField. cbn. rewrite E. reflexivity.
  - destruct (contents args) as [[|c s]|]; discriminate.
Qed.

Lemma callTool_inline_ignores_output_file_witness :
  let args := mkToolArguments (Some "# Hi") None None (Some "pdf") None
                None None None in
  callTool (posixWorld [])
    (mkCallToolRequest "convert-contents"
       (withField "output_file" (Some "a.pdf") args))
  = (ok (mkTextResult "<p>ok</p>"),
     [EvSpawn ["pandoc"; "-f"; "markdown"; "-t"; "pdf";
               "--pdf-engine=xelatex"; "-V"; "geometry:margin=1in"]
        (Some "# Hi")]).
Proof.
  intro args.
  rewrite (callTool_inline_ignores_output_file (posixWorld []) args
             "a.pdf" "b.pdf" eq_refl eq_refl eq_refl).
  reflexivity.
Defined.

(** X23.  The handler fails fast, stage by stage.  An error of the
    validator is surfaced as it is, nothing having been done.  Once the
    request validates, an error of the defaults check is surfaced as it is
    and the filters are not even searched; and when the defaults check
    passes, an error of the filter resolution is surfaced as it is.  In the
    three cases the trace ends there. *)
Theorem callTool_fails_fast (w : World) (args : ToolArguments) (t : Thrown) :
  let request := mkCallToolRequest "convert-contents" args in
  (validateConversionParams (paramsOf args) = inl t ->
     callTool w request = (inl t, [])) /\
  (forall fi fo file,
     validateConversionParams (paramsOf args) = ok (fi, fo) ->
     asTruthy (defaults_file args) = Some file ->
     outcome (Defaults.validateDefaultsFile w file) = inl t ->
     callTool w request = (inl t, trace (Defaults.validateDefaultsFile w file))) /\
  (forall fi fo names,
     validateConversionParams (paramsOf args) = ok (fi, fo) ->
     defaultsPass w args ->
     filters args = Some names ->
     outcome (Filters.resolveFilterPaths w names (auxDirOf w args)) = inl t ->
     callTool w request = (inl t, preflightTrace w args)).
Proof.
  intro request. split; [apply callTool_validation_failure|]. split.
  - intros fi fo file. apply callTool_defaults_failure.
  - intros fi fo names. apply callTool_filters_failure.
Qed.

Lemma callTool_fails_fast_witness :
  let args := mkToolArguments (Some "# Hi") None None None None None
                (Some "missing.yaml") (Some ["up.lua"]) in
  callTool (posixWorld ["/work/up.lua"])
    (mkCallToolRequest "convert-contents" args)
  = (throw (DefaultsFileError "File not found" (Some "missing.yaml")),
     [EvExists "missing.yaml"]).
Proof.
  intro args.
  exact (proj1 (proj2 (callTool_fails_fast (posixWorld ["/work/up.lua"]) args
                         (ThrowError (DefaultsFileError "File not found"
                                        (Some "missing.yaml")))))
           Markdown Markdown "missing.yaml" eq_refl eq_refl eq_refl).
Defined.

(** X24.  The tool list and the call handler agree on requests that
    carry an arguments object.  A call naming a tool that is not listed is
    refused as unknown before anything is done.  The defaults the input
    schema declares are the ones the handler applies: for every listed tool
    and every property with a declared default, leaving the property out of
    the arguments is handled exactly as giving the default.  The agreement
    ends where the arguments member itself is left out, which the schema,
    requiring no property, allows: the handler then fails with the TypeError
    of reading a property of undefined, where the request with an arguments
    object that has no property fails with the validator's "must specify
    either". *)
Theorem listed_tools_match_handler (w : World) :
  (forall request,
     ~ In (name request) (map toolName listTools) ->
     callTool w request =
       (throw (Error ("Unknown tool: " ++ name request)), [])) /\
  (forall tool key prop default args,
     In tool listTools ->
     In (key, prop) (schemaProperties tool) ->
     propDefault prop = Some default ->
     callTool w (mkCallToolRequest (toolName tool) (withField key None args)) =
     callTool w (mkCallToolRequest (toolName tool)
                   (withField key (Some default) args))) /\
  (forall tool,
     In tool listTools ->
     schemaRequired tool = [] /\
     callTool w (mkRequest (toolName tool) None) =
       (throw (Error msgUndefinedArguments), []) /\
     callTool w (mkRequest (toolName tool)
                   (Some (mkToolArguments None None None None None None
                            None None))) =
       (throw (ValidationError msgNeither), [])).
Proof.
  split; [|split].
  - intros request Hn. unfold callTool.
    destruct (name request =? "convert-contents")%string eqn:E;
      [|reflexivity].
    apply string_eqb_eq in E. elim Hn. rewrite E. now left.
  - intros tool key prop default args [<-|[]] Hprop Hdef.
    cbn [schemaProperties toolName] in *.
    repeat (destruct Hprop as [Hprop|Hprop];
            [injection Hprop as <- <-; try discriminate Hdef;
             injection Hdef as <-; reflexivity|]).
    destruct Hprop.
  - intros tool [<-|[]]. split; [reflexivity|]. split; reflexivity.
Qed.

Lemma listed_tools_match_handler_witness :
  callTool (posixWorld [])
    (mkCallToolRequest "convert"
       (mkToolArguments (Some "# Hi") None None None None None None None))
  = (throw (Error "Unknown tool: convert"), []) /\
  callTool (posixWorld []) (mkRequest "convert-contents" None)
  = (throw (Error msgUndefinedArguments), []).
Proof.
  destruct (listed_tools_match_handler (posixWorld []))
    as (Hunknown & _ & Hmissing).
  split.
  - apply Hunknown. cbn. intros [H|[]]. discriminate H.
  - exact (proj1 (proj2 (Hmissing (hd (mkToolDescription EmptyString
                                          EmptyString EmptyString [] [])
                                      listTools)
                            (or_introl eq_refl)))).
Defined.

(** X25.  An empty string is an absent field.  For each string field of the
    arguments, a request that gives the empty string is handled exactly as
    the request that leaves the field out. *)
Theorem callTool_empty_is_absent (w : World) (tool key : string)
    (args : ToolArguments) :
  callTool w (mkCallToolRequest tool (withField key (Some EmptyString) args)) =
  callTool w (mkCallToolRequest tool (withField key None args)).
Proof.
  unfold callTool, mkCallToolRequest. cbn [name arguments].
  destruct (negb (tool =? "convert-contents")%string); [reflexivity|].
  unfold withField.
  destruct (string_eqb_spec key "contents") as [->|_]; [reflexivity|].
  destruct (string_eqb_spec key "input_file") as [->|_]; [reflexivity|].
  destruct (string_eqb_spec key "input_format") as [->|_]; [reflexivity|].
  destruct (string_eqb_spec key "output_format") as [->|_]; [reflexivity|].
  destruct (string_eqb_spec key "output_file") as [->|_]; [reflexivity|].
  destruct (string_eqb_spec key "reference_doc") as [->|_]; [reflexivity|].
  destruct (string_eqb_spec key "defaults_file") as [->|_]; reflexivity.
Qed.

End HandlerProperties.

(* ================================================================= *)
(** ** HTTP request listener *)

Section ListenerProperties.
Import Js Server Notions.

(** X26.  Every HTTP request is answered with the CORS headers set first,
    and answered once: unless the request is handed to the MCP transport,
    the listener writes exactly one status line and ends the response
    exactly once.  A request is handed to the transport exactly when its
    method is not OPTIONS and its URL (a missing URL counting as /) starts
    with /sse or /mcp; a pre-flight OPTIONS is answered 204 whatever the
    URL.  A failure of the transport is contained: it is logged on the
    error console, once, under the label "MCP request error:", and a 500 is
    written only if no headers were sent yet; nothing else is ever
    logged. *)
Theorem requestListener_answers (transport : IncomingMessage -> TransportOutcome)
    (req : IncomingMessage) :
  let acts := requestListener transport req in
  let path := or_str (url req) "/" in
  firstn 3 acts = map (fun kv => SetHeader (fst kv) (snd kv)) corsHeaders /\
  handedToTransport acts =
    negb (methodIs req "OPTIONS")
    && (startsWith path "/sse" || startsWith path "/mcp") /\
  (handedToTransport acts = false ->
     (exists status, statusLines acts = [status] /\ endings acts = 1) /\
     consoleErrors acts = []) /\
  (handedToTransport acts = true ->
     match transport req with
     | TransportCompleted =>
         statusLines acts = [] /\ endings acts = 0 /\ consoleErrors acts = []
     | TransportFailed error true =>
         statusLines acts = [] /\ endings acts = 0 /\
         consoleErrors acts = [("MCP request error:", error)]
     | TransportFailed error false =>
         statusLines acts = [500] /\ endings acts = 1 /\
         consoleErrors acts = [("MCP request error:", error)]
     end) /\
  (methodIs req "OPTIONS" = true -> statusLines acts = [204]).
Proof.
  intros acts path. unfold acts, requestListener. fold path.
  cbn [map corsHeaders fst snd app firstn].
  split; [reflexivity|].
  destruct (methodIs req "OPTIONS") eqn:Ho; cbn [negb andb].
  { split; [reflexivity|]. split; [split; [now exists 204 | reflexivity]|].
    split; [discriminate | reflexivity]. }
  destruct ((path =? "/health")%string && methodIs req "GET") eqn:Hh.
  { apply andb_true_iff in Hh as [Hp _]. apply string_eqb_eq in Hp.
    rewrite Hp. cbn. split; [reflexivity|].
    split; [split; [now exists 200 | reflexivity]|].
    split; discriminate. }
  destruct (startsWith path "/sse" || startsWith path "/mcp") eqn:Hm.
  - destruct (transport req) as [|error [|]]; cbn;
      (split; [reflexivity|]; split; [discriminate|];
       split; [intros _; split; [|split]; reflexivity | discriminate]).
  - cbn. split; [reflexivity|].
    split; [split; [now exists 404 | reflexivity]|].
    split; discriminate.
Qed.

Lemma requestListener_answers_witness :
  statusLines
    (requestListener (fun _ => TransportCompleted)
       (mkIncomingMessage (Some "OPTIONS") (Some "/mcp"))) = [204] /\
  consoleErrors
    (requestListener (fun _ => TransportFailed "boom" true)
       (mkIncomingMessage (Some "POST") (Some "/mcp")))
    = [("MCP request error:", "boom")].
Proof.
  split.
  - exact (proj2 (proj2 (proj2 (proj2
             (requestListener_answers (fun _ => TransportCompleted)
                (mkIncomingMessage (Some "OPTIONS") (Some "/mcp"))))))
             eq_refl).
  - exact (proj2 (proj2 (proj1 (proj2 (proj2 (proj2
             (requestListener_answers (fun _ => TransportFailed "boom" true)
                (mkIncomingMessage (Some "POST") (Some "/mcp"))))))
             eq_refl))).
Defined.

End ListenerProperties.
